(** * Evidence analysis orchestration: the Node service and its Python workers

    A shallow embedding of [src/services/AIService.js] (the worker invocation
    layer, the inline Python task scripts it carries and the adapters built on
    it) and of the AI endpoints and the phone-number normaliser of the Express
    server, followed by the properties the specification states about them.

    Conventions of the embedding:
    - a JavaScript or Python string is the list of its UTF-16 code units;
    - a JSON number is carried as its literal: neither runtime's conversion
      to a binary floating-point number and back is modelled.  Whether a
      number is zero is decided on the binary64 value ([denotes_zero]); a
      statement about a number that crosses from one runtime to the other is
      made for the plain numbers of [Exchange], on which both runtimes print
      the literal they read;
    - the decoders are the JSON grammar: the depth at which CPython's gives
      up is not part of them, and a statement about what a worker reads is
      made for values that nest no deeper than [Exchange.shallow] allows;
    - a child process is the sequence of events Node delivers for it;
    - the Python modules the task scripts import ([summarizer], [classifier],
      [contradict], [database], the four extractors) live under [src/models]
      and are not embedded; what they export enters as the fields of a
      record [World]. *)

From Stdlib Require Import List ZArith NArith Bool Lia String Ascii.
From Stdlib Require Import DecimalString QArith Permutation.
Import ListNotations.

Set Warnings "-register-all".
Open Scope N_scope.

(* ====================================================================== *)
(** * Text *)
(* ====================================================================== *)

Module Text.

(** A string: its UTF-16 code units, each below 65536. *)
Definition jsstring : Type := list N.

(** The code units of a literal written in the 8-bit range. *)
Definition js (s : string) : jsstring :=
  List.map N_of_ascii (list_ascii_of_string s).

Definition wf_str (s : jsstring) : bool := forallb (fun c => c <? 65536) s.

Fixpoint str_eqb (a b : jsstring) : bool :=
  match a, b with
  | [], [] => true
  | x :: a', y :: b' => (x =? y) && str_eqb a' b'
  | _, _ => false
  end.

Definition is_digit (c : N) : bool := (48 <=? c) && (c <=? 57).

(** [s.startsWith(p)], returning what follows the prefix. *)
Fixpoint strip_prefix (p s : jsstring) : option jsstring :=
  match p, s with
  | [], _ => Some s
  | a :: p', b :: s' => if a =? b then strip_prefix p' s' else None
  | _ :: _, [] => None
  end.

Definition startsWith (s p : jsstring) : bool :=
  match strip_prefix p s with Some _ => true | None => false end.

(** [s.substring(n)] for [0 <= n]. *)
Definition substring (n : nat) (s : jsstring) : jsstring := skipn n s.

(** WhiteSpace and LineTerminator code units, the ones [String.prototype.trim]
    removes. *)
Definition is_js_space (c : N) : bool :=
  ((9 <=? c) && (c <=? 13)) || (c =? 32) || (c =? 160) || (c =? 5760)
  || ((8192 <=? c) && (c <=? 8202)) || (c =? 8232) || (c =? 8233)
  || (c =? 8239) || (c =? 8287) || (c =? 12288) || (c =? 65279).

Fixpoint trim_start (s : jsstring) : jsstring :=
  match s with
  | c :: r => if is_js_space c then trim_start r else s
  | [] => []
  end.

Definition trim (s : jsstring) : jsstring :=
  rev (trim_start (rev (trim_start s))).

(** ASCII lowering.  The Unicode mappings of [toLowerCase] outside [A-Z]
    produce a letter of the 7-bit range for KELVIN SIGN only (to [k]); the
    embedding compares lowered strings with the tags [audio], [video],
    [image] and [pdf] only, which have no [k]. *)
Definition lower_unit (c : N) : N :=
  if (65 <=? c) && (c <=? 90) then c + 32 else c.

Definition toLowerCase (s : jsstring) : jsstring := List.map lower_unit s.

(** A number in a template literal. *)
Definition decimal_of_Z (z : Z) : jsstring :=
  js (NilZero.string_of_int (Z.to_int z)).

Fixpoint join (sep : jsstring) (parts : list jsstring) : jsstring :=
  match parts with
  | [] => []
  | [p] => p
  | p :: rest => p ++ sep ++ join sep rest
  end.

End Text.

Import Text.

(* ====================================================================== *)
(** * JSON values, [JSON.parse] / [json.loads], [JSON.stringify] / [json.dumps] *)
(* ====================================================================== *)

Module Json.

Inductive json : Type :=
| JNull
| JBool (b : bool)
| JNum (literal : jsstring)
| JStr (s : jsstring)
| JArr (items : list json)
| JObj (members : list (jsstring * json)).

(** ** Objects: ordered, one binding per name

    The members of an object are kept in the order of the text that
    produced them.  JavaScript lists integer-like names first; no property
    read, and nothing the Python side does with a request, observes the
    difference. *)

Fixpoint obj_get (k : jsstring) (ms : list (jsstring * json)) : option json :=
  match ms with
  | [] => None
  | (k', v) :: r => if str_eqb k' k then Some v else obj_get k r
  end.

(** Assignment [o[k] = v]: an existing name keeps its place. *)
Fixpoint obj_set (k : jsstring) (v : json) (ms : list (jsstring * json))
  : list (jsstring * json) :=
  match ms with
  | [] => [(k, v)]
  | (k', v') :: r =>
      if str_eqb k' k then (k', v) :: r else (k', v') :: obj_set k v r
  end.

Definition obj_of_members (ms : list (jsstring * json)) : list (jsstring * json) :=
  fold_left (fun acc kv => obj_set (fst kv) (snd kv) acc) ms [].

Fixpoint mem_str (k : jsstring) (ks : list jsstring) : bool :=
  match ks with
  | [] => false
  | k' :: r => str_eqb k' k || mem_str k r
  end.

Fixpoint distinct (ks : list jsstring) : bool :=
  match ks with
  | [] => true
  | k :: r => negb (mem_str k r) && distinct r
  end.

(** An object literal [{k1: e1, ...}] or a spread: members whose value is
    [undefined] ([None]) are what [JSON.stringify] leaves out. *)
Fixpoint mk_object (fields : list (jsstring * option json)) : list (jsstring * json) :=
  match fields with
  | [] => []
  | (k, Some v) :: r => (k, v) :: mk_object r
  | (_, None) :: r => mk_object r
  end.

(** ** Lexical level *)

Definition is_json_ws (c : N) : bool :=
  (c =? 32) || (c =? 9) || (c =? 10) || (c =? 13).

Fixpoint skip_ws (s : jsstring) : jsstring :=
  match s with
  | c :: r => if is_json_ws c then skip_ws r else s
  | [] => []
  end.

Definition hex_val (c : N) : option N :=
  if is_digit c then Some (c - 48)
  else if (97 <=? c) && (c <=? 102) then Some (c - 87)
  else if (65 <=? c) && (c <=? 70) then Some (c - 55)
  else None.

Definition hex_digit (n : N) : N := if n <? 10 then 48 + n else 87 + n.

(** [\uXXXX], four lowercase hexadecimal digits after the backslash. *)
Definition unicode_escape (c : N) : jsstring :=
  [92; 117; hex_digit (c / 4096); hex_digit ((c / 256) mod 16);
   hex_digit ((c / 16) mod 16); hex_digit (c mod 16)].

Definition simple_escape (e : N) : option N :=
  if e =? 34 then Some 34          (* quote *)
  else if e =? 92 then Some 92     (* backslash *)
  else if e =? 47 then Some 47     (* solidus *)
  else if e =? 98 then Some 8      (* b *)
  else if e =? 102 then Some 12    (* f *)
  else if e =? 110 then Some 10    (* n *)
  else if e =? 114 then Some 13    (* r *)
  else if e =? 116 then Some 9     (* t *)
  else None.

(** The characters of a string literal after its opening quote, up to and
    including the closing one. *)
Fixpoint parse_string_body (s : jsstring) : option (jsstring * jsstring) :=
  match s with
  | [] => None
  | c :: r =>
      if c =? 34 then Some ([], r)
      else if c =? 92 then
        match r with
        | [] => None
        | e :: r1 =>
            if e =? 117 then
              match r1 with
              | h1 :: h2 :: h3 :: h4 :: r2 =>
                  match hex_val h1, hex_val h2, hex_val h3, hex_val h4 with
                  | Some a, Some b, Some c', Some d =>
                      match parse_string_body r2 with
                      | Some (str, rest) =>
                          Some (a * 4096 + b * 256 + c' * 16 + d :: str, rest)
                      | None => None
                      end
                  | _, _, _, _ => None
                  end
              | _ => None
              end
            else
              match simple_escape e with
              | Some u =>
                  match parse_string_body r1 with
                  | Some (str, rest) => Some (u :: str, rest)
                  | None => None
                  end
              | None => None
              end
        end
      else if c <? 32 then None
      else
        match parse_string_body r with
        | Some (str, rest) => Some (c :: str, rest)
        | None => None
        end
  end.

Fixpoint span_digits (s : jsstring) : jsstring * jsstring :=
  match s with
  | c :: r =>
      if is_digit c then let (ds, r') := span_digits r in (c :: ds, r')
      else ([], s)
  | [] => ([], [])
  end.

Definition scan_sign (s : jsstring) : jsstring * jsstring :=
  match s with
  | c :: r => if c =? 45 then ([45], r) else ([], s)
  | [] => ([], [])
  end.

Definition scan_int (s : jsstring) : option (jsstring * jsstring) :=
  match s with
  | c :: r =>
      if c =? 48 then Some ([48], r)
      else if is_digit c then let (ds, r') := span_digits r in Some (c :: ds, r')
      else None
  | [] => None
  end.

Definition scan_frac (s : jsstring) : option (jsstring * jsstring) :=
  match s with
  | c :: r =>
      if c =? 46 then
        match span_digits r with
        | ([], _) => None
        | (ds, r') => Some (46 :: ds, r')
        end
      else Some ([], s)
  | [] => Some ([], [])
  end.

Definition scan_exp_sign (s : jsstring) : jsstring * jsstring :=
  match s with
  | c :: r => if (c =? 43) || (c =? 45) then ([c], r) else ([], s)
  | [] => ([], [])
  end.

Definition scan_exp (s : jsstring) : option (jsstring * jsstring) :=
  match s with
  | c :: r =>
      if (c =? 101) || (c =? 69) then
        let (sg, r1) := scan_exp_sign r in
        match span_digits r1 with
        | ([], _) => None
        | (ds, r2) => Some (c :: sg ++ ds, r2)
        end
      else Some ([], s)
  | [] => Some ([], [])
  end.

(** The JSON number grammar: the literal read and what follows it. *)
Definition scan_number (s : jsstring) : option (jsstring * jsstring) :=
  let (sg, s0) := scan_sign s in
  match scan_int s0 with
  | None => None
  | Some (i, s1) =>
      match scan_frac s1 with
      | None => None
      | Some (f, s2) =>
          match scan_exp s2 with
          | None => None
          | Some (e, s3) => Some (sg ++ i ++ f ++ e, s3)
          end
      end
  end.

Definition is_number (t : jsstring) : bool :=
  match scan_number t with
  | Some (_, []) => true
  | _ => false
  end.

(** The mantissa of a literal is zero: the number is [0] or [-0]. *)
Fixpoint mantissa_zero (t : jsstring) : bool :=
  match t with
  | [] => true
  | c :: r =>
      if (c =? 101) || (c =? 69) then true
      else if is_digit c then (c =? 48) && mantissa_zero r
      else mantissa_zero r
  end.

(** The number a literal denotes is [mantissa * 10 ^ scale]: the digits of
    the integer part and of the fraction read as one number, and the
    exponent less the length of the fraction. *)
Fixpoint digits_value (acc : N) (ds : jsstring) : N :=
  match ds with
  | [] => acc
  | c :: r => digits_value (10 * acc + (c - 48)) r
  end.

Definition exponent_value (e : jsstring) : Z :=
  match e with
  | [] => 0%Z
  | _ :: 45 :: ds => (- Z.of_N (digits_value 0 ds))%Z
  | _ :: 43 :: ds => Z.of_N (digits_value 0 ds)
  | _ :: ds => Z.of_N (digits_value 0 ds)
  end.

Definition decimal_parts (t : jsstring) : option (N * Z) :=
  let (_, s0) := scan_sign t in
  match scan_int s0 with
  | None => None
  | Some (i, s1) =>
      match scan_frac s1 with
      | None => None
      | Some (f, s2) =>
          match scan_exp s2 with
          | None => None
          | Some (e, _) =>
              let fraction := tl f in
              Some (digits_value 0 (i ++ fraction),
                    (exponent_value e - Z.of_nat (List.length fraction))%Z)
          end
      end
  end.

(** A literal with a fraction or an exponent becomes a binary64 number in
    both runtimes, by correct rounding ([float(s)], [StringToNumber]): a value
    of magnitude at most [2^-1075], half the least positive binary64 number,
    becomes zero.  A literal without either is an [int] in Python, which
    nothing rounds, and has scale 0 here. *)
Definition underflows (t : jsstring) : bool :=
  match decimal_parts t with
  | Some (mantissa, scale) =>
      (scale <? 0)%Z
      && (Z.of_N mantissa * 2 ^ 1075 <=? 10 ^ (- scale))%Z
  | None => false
  end.

(** The number the literal denotes is zero once it is read: [0], [-0], or a
    value that rounds to zero. *)
Definition denotes_zero (t : jsstring) : bool :=
  if mantissa_zero t then true else underflows t.

(** ** Parser *)

(** The three literal names, and the three constants Python's decoder adds
    to the grammar ([nan = true]). *)
Definition scan_name (nan : bool) (s : jsstring) : option (json * jsstring) :=
  match strip_prefix (js "true") s with
  | Some r => Some (JBool true, r)
  | None =>
  match strip_prefix (js "false") s with
  | Some r => Some (JBool false, r)
  | None =>
  match strip_prefix (js "null") s with
  | Some r => Some (JNull, r)
  | None =>
  match scan_number s with
  | Some (t, r) => Some (JNum t, r)
  | None =>
      if nan then
        match strip_prefix (js "NaN") s with
        | Some r => Some (JNum (js "NaN"), r)
        | None =>
        match strip_prefix (js "Infinity") s with
        | Some r => Some (JNum (js "Infinity"), r)
        | None =>
        match strip_prefix (js "-Infinity") s with
        | Some r => Some (JNum (js "-Infinity"), r)
        | None => None
        end end end
      else None
  end end end end.

Section Parser.

Variable nan : bool.

Fixpoint parse_value (n : nat) (s : jsstring) {struct n} : option (json * jsstring) :=
  match n with
  | O => None
  | S n' =>
      match skip_ws s with
      | [] => None
      | c :: r =>
          if c =? 123 then
            match skip_ws r with
            | [] => None
            | d :: r' =>
                if d =? 125 then Some (JObj [], r')
                else
                  match parse_members n' (d :: r') with
                  | Some (ms, rest) => Some (JObj (obj_of_members ms), rest)
                  | None => None
                  end
            end
          else if c =? 91 then
            match skip_ws r with
            | [] => None
            | d :: r' =>
                if d =? 93 then Some (JArr [], r')
                else
                  match parse_items n' (d :: r') with
                  | Some (vs, rest) => Some (JArr vs, rest)
                  | None => None
                  end
            end
          else if c =? 34 then
            match parse_string_body r with
            | Some (str, rest) => Some (JStr str, rest)
            | None => None
            end
          else scan_name nan (c :: r)
      end
  end

with parse_items (n : nat) (s : jsstring) {struct n} : option (list json * jsstring) :=
  match n with
  | O => None
  | S n' =>
      match parse_value n' s with
      | None => None
      | Some (v, r) =>
          match skip_ws r with
          | [] => None
          | c :: r' =>
              if c =? 44 then
                match parse_items n' r' with
                | Some (vs, rest) => Some (v :: vs, rest)
                | None => None
                end
              else if c =? 93 then Some ([v], r')
              else None
          end
      end
  end

with parse_members (n : nat) (s : jsstring) {struct n}
  : option (list (jsstring * json) * jsstring) :=
  match n with
  | O => None
  | S n' =>
      match skip_ws s with
      | [] => None
      | q :: r0 =>
          if q =? 34 then
            match parse_string_body r0 with
            | None => None
            | Some (k, r1) =>
                match skip_ws r1 with
                | [] => None
                | colon :: r2 =>
                    if colon =? 58 then
                      match parse_value n' r2 with
                      | None => None
                      | Some (v, r3) =>
                          match skip_ws r3 with
                          | [] => None
                          | c :: r4 =>
                              if c =? 44 then
                                match parse_members n' r4 with
                                | Some (ms, rest) => Some ((k, v) :: ms, rest)
                                | None => None
                                end
                              else if c =? 125 then Some ([(k, v)], r4)
                              else None
                          end
                      end
                    else None
                end
            end
          else None
      end
  end.

(** Recursion budget: every two nested calls consume a character, so twice
    the length is never exhausted (lemma [parse_value_stable]). *)
Definition budget (s : jsstring) : nat := 2 * List.length s + 2.

Definition parse_document (s : jsstring) : option json :=
  match parse_value (budget s) s with
  | Some (v, r) =>
      match skip_ws r with
      | [] => Some v
      | _ :: _ => None
      end
  | None => None
  end.

End Parser.

(** [JSON.parse] of JavaScript: [None] is the [SyntaxError].  A number is
    kept as the literal read; [JSON.parse] holds the binary64 number nearest
    to it, which prints as that literal when the number is plain
    ([Exchange.plain_number]). *)
Definition JSON_parse : jsstring -> option json := parse_document false.

(** [json.loads] of Python: [None] is the [JSONDecodeError].  This is the
    grammar the decoder accepts; CPython's gives up with a [RecursionError]
    on a text nested about as deep as the interpreter's recursion limit. *)
Definition json_loads : jsstring -> option json := parse_document true.

(** ** Printers *)

Definition short_escape (c : N) : option N :=
  if c =? 34 then Some 34
  else if c =? 92 then Some 92
  else if c =? 8 then Some 98
  else if c =? 12 then Some 102
  else if c =? 10 then Some 110
  else if c =? 13 then Some 114
  else if c =? 9 then Some 116
  else None.

(** [json.dumps] with [ensure_ascii]: everything outside [' '..'~'] is
    escaped. *)
Definition py_escape_unit (c : N) : jsstring :=
  match short_escape c with
  | Some e => [92; e]
  | None => if (c <? 32) || (126 <? c) then unicode_escape c else [c]
  end.

Fixpoint py_quote (s : jsstring) : jsstring :=
  match s with
  | [] => []
  | c :: r => py_escape_unit c ++ py_quote r
  end.

Definition is_high_surrogate (c : N) : bool := (55296 <=? c) && (c <=? 56319).
Definition is_low_surrogate (c : N) : bool := (56320 <=? c) && (c <=? 57343).

Definition js_escape_unit (c : N) : jsstring :=
  match short_escape c with
  | Some e => [92; e]
  | None =>
      if (c <? 32) || is_high_surrogate c || is_low_surrogate c
      then unicode_escape c else [c]
  end.

(** [QuoteJSONString]: a surrogate pair is copied, a lone surrogate is
    escaped. *)
Fixpoint js_quote (s : jsstring) : jsstring :=
  match s with
  | [] => []
  | c :: r =>
      if is_high_surrogate c then
        match r with
        | d :: r' =>
            if is_low_surrogate d then c :: d :: js_quote r'
            else unicode_escape c ++ js_quote r
        | [] => unicode_escape c
        end
      else js_escape_unit c ++ js_quote r
  end.

Section Printer.

Variable quote : jsstring -> jsstring.
Variable pad : jsstring.   (* what follows [,] and [:] *)

Definition print_string (s : jsstring) : jsstring := 34 :: quote s ++ [34].

Fixpoint print (v : json) : jsstring :=
  match v with
  | JNull => js "null"
  | JBool true => js "true"
  | JBool false => js "false"
  | JNum t => t
  | JStr s => print_string s
  | JArr vs => 91 :: join (44 :: pad) (List.map print vs) ++ [93]
  | JObj ms =>
      123 :: join (44 :: pad)
               (List.map (fun kv => print_string (fst kv) ++ 58 :: pad ++ print (snd kv)) ms)
          ++ [125]
  end.

End Printer.

(** [json.dumps(v)] with the default separators [", "] and [": "]. *)
Definition json_dumps : json -> jsstring := print py_quote [32].

(** [JSON.stringify(v)].  A number is printed as the literal carried, which
    is what [JSON.stringify] prints when the number is plain. *)
Definition JSON_stringify : json -> jsstring := print js_quote [].

(** ** Values both runtimes exchange without loss *)

Fixpoint wf (v : json) : bool :=
  match v with
  | JNull | JBool _ => true
  | JNum t => is_number t
  | JStr s => wf_str s
  | JArr vs => forallb wf vs
  | JObj ms =>
      forallb (fun kv => wf_str (fst kv) && wf (snd kv)) ms
      && distinct (List.map fst ms)
  end.

End Json.

Import Json.

(* ====================================================================== *)
(** * Values on which carrying the literal is exact *)
(* ====================================================================== *)

(** The two runtimes hold a number as a binary64 number (Python: an [int]
    when the literal has neither fraction nor exponent) and print it in a form
    of their own; the embedding carries the literal.  On the literals below
    the two agree, and reading and printing give the literal back in both
    runtimes: an optional sign, an integer part without leading zero, an
    optional fraction that does not end in [0], at most 15 digits in all (a
    binary64 number keeps 15 significant decimal digits, and an integer of 15
    digits is below [2^53]), a magnitude of at least [0.0001] unless the
    number is [0] (below it Python prints an exponent), and not [-0] (which
    [JSON.stringify] prints as [0]).  Statements about a number that crosses
    from one runtime to the other are made for these. *)

Module Exchange.

Definition plain_number (t : jsstring) : bool :=
  let body := match t with
              | 45 :: r => r
              | _ => t
              end in
  is_number t
  && forallb (fun c => is_digit c || (c =? 46)) body
  && (List.length (filter is_digit body) <=? 15)%nat
  && negb (existsb (N.eqb 46) body && (last body 0 =? 48))
  && negb (startsWith body (js "0.0000"))
  && negb (str_eqb t (js "-0")).

(** How deep arrays and objects nest. *)
Fixpoint nesting (v : json) : nat :=
  match v with
  | JArr vs => S (fold_right (fun x acc => Nat.max (nesting x) acc) O vs)
  | JObj ms => S (fold_right (fun kv acc => Nat.max (nesting (snd kv)) acc) O ms)
  | _ => O
  end.

(** [wf], with every number plain. *)
Fixpoint plain (v : json) : bool :=
  match v with
  | JNull | JBool _ => true
  | JNum t => plain_number t
  | JStr s => wf_str s
  | JArr vs => forallb plain vs
  | JObj ms =>
      forallb (fun kv => wf_str (fst kv) && plain (snd kv)) ms
      && distinct (List.map fst ms)
  end.

(** Values either runtime reads and prints as they are: plain, and
    shallow, nested at most 100 deep.  CPython's decoder and encoder recurse once or twice
    for each level and give up with a [RecursionError] at the interpreter's
    recursion limit, 1000 unless a program changes it; the scripts do not. *)
Definition shallow (v : json) : bool := (nesting v <=? 100)%nat.

Definition exact (v : json) : bool := plain v && shallow v.

End Exchange.

(* ====================================================================== *)
(** * The worker side: Python *)
(* ====================================================================== *)

Module Python.

(** A Python computation that returns, or ends the interpreter: with an
    uncaught exception (status 1, the traceback on stderr), with [sys.exit],
    or by a signal (no status).  [diagnostic] is what the interpreter leaves
    on stderr; for the exceptions the scripts raise themselves it is cut down
    to the name of the exception. *)
Inductive py (A : Type) : Type :=
| Ret (a : A)
| Abort (status : option Z) (diagnostic : jsstring).

Arguments Ret {A} a.
Arguments Abort {A} status diagnostic.

Definition raise {A : Type} (exception : string) : py A :=
  Abort (Some 1%Z) (js exception).

Inductive modality : Type := audio | video | image | pdf.

(** Calls that leave the task script: into the operating system or into a
    module of [src/models], with the arguments that matter. *)
Inductive call : Type :=
| call_exists (path : json)
| call_extract (m : modality) (path : json)
| call_subtask (name : jsstring)
| call_load (csv : jsstring)
| call_cross_db_match (threshold : json)
| call_within_db_match (threshold : json).

Definition touches_files (c : call) : bool :=
  match c with
  | call_exists _ | call_extract _ _ => true
  | _ => false
  end.

(** A task script: the calls it made, and how it ended. *)
Definition script (A : Type) : Type := (list call * py A)%type.

Definition ret {A : Type} (a : A) : script A := ([], Ret a).

Definition bind {A B : Type} (m : script A) (k : A -> script B) : script B :=
  match m with
  | (l, Ret a) => let (l', r) := k a in (l ++ l', r)
  | (l, Abort st d) => (l, Abort st d)
  end.

Definition ext {A : Type} (c : call) (r : py A) : script A := ([c], r).

Definition lift {A : Type} (r : py A) : script A := ([], r).

Notation "x <- m ;; k" := (bind m (fun x => k))
  (at level 61, m at next level, right associativity).
Notation "' p <- m ;; k" := (bind m (fun p => k))
  (at level 61, p pattern, m at next level, right associativity).

(** How the similarity script rewrites one column of a frame: the three
    [split('|')] comprehensions over [db.normalize_phone], [_email] and
    [_website], or [db.normalize_field] on the whole cell. *)
Inductive column_rule : Type :=
| phone_set | email_set | website_set | whole_field.

(** Modelled from the spec: the label [classifier.classify_cybercrime]
    returns.  The module is not embedded; section 3 of the specification
    gives a ClassificationResult a priority label in
    {Very Low, Low, Medium, High, Very High}. *)
Inductive priority_label : Type := VeryLow | Low | Medium | High | VeryHigh.

Definition label_text (l : priority_label) : jsstring :=
  match l with
  | VeryLow => js "Very Low"
  | Low => js "Low"
  | Medium => js "Medium"
  | High => js "High"
  | VeryHigh => js "Very High"
  end.

(** The six texts every sub-task of the incident pipeline receives. *)
Record evidence : Type := {
  complaint : json;
  image_text : json;
  pdf_text : json;
  audio_text : json;
  text_from_video_audio : json;
  text_from_video_frames : jsstring
}.

(** What the task scripts find outside themselves: whether [python] can be
    started, the file system, and the functions of the modules under
    [src/models], each with the arity the scripts use.  The scripts unpack
    the result of [classify_cybercrime] as a pair; its first component has
    the type [priority_label] above, its second is the literal of the
    score. *)
Record World : Type := {
  python_available : bool;
  os_path_exists : json -> py bool;
  extract_text_from_image : json -> py json;
  extract_text_from_pdf : json -> py json;
  extract_text_from_audio : json -> py json;
  extract_details_from_video : json -> py json;
  get_incident_details_from_text : evidence -> py json;
  get_narrative_summary : evidence -> py json;
  contradiction_in_complain_and_evidences : evidence -> py (json * json);
  classify_cybercrime : json -> py (priority_label * jsstring);
  (* [python <module>.py <file>], the four extractor modules run as programs *)
  module_main : modality -> jsstring -> (option Z * jsstring * jsstring);
  (* [database]: pandas frames and the functions over them *)
  frame : Type;
  load_csv_safe : jsstring -> py frame;
  ensure_all_columns : frame -> py frame;
  apply_column : frame -> jsstring -> column_rule -> py frame;
  cross_db_match : frame -> frame -> json -> py json;
  within_db_match : frame -> json -> py json
}.

(** ** Dynamic operations the scripts use *)

Definition num_is_zero (t : jsstring) : bool := is_number t && denotes_zero t.

(** Truth value of an object. *)
Definition truthy (v : json) : bool :=
  match v with
  | JNull => false
  | JBool b => b
  | JNum t => negb (num_is_zero t)
  | JStr s => match s with [] => false | _ => true end
  | JArr vs => match vs with [] => false | _ => true end
  | JObj ms => match ms with [] => false | _ => true end
  end.

Definition isinstance_dict (v : json) : bool :=
  match v with JObj _ => true | _ => false end.

(** [d.get(k, default)]; only a dict has the method. *)
Definition get (d : json) (k : string) (default : json) : py json :=
  match d with
  | JObj ms =>
      match obj_get (js k) ms with
      | Some v => Ret v
      | None => Ret default
      end
  | _ => raise "AttributeError: object has no attribute 'get'"
  end.

(** The code points of a string, each as the units that encode it: a high
    surrogate followed by a low one is one code point. *)
Fixpoint code_points (s : jsstring) : list jsstring :=
  match s with
  | [] => []
  | c :: r =>
      match r with
      | d :: r' =>
          if is_high_surrogate c && is_low_surrogate d
          then [c; d] :: code_points r'
          else [c] :: code_points r
      | [] => [[c]]
      end
  end.

(** [' '.join(x)]: [x] is iterated, and every element has to be a string.
    A string is iterated code point by code point. *)
Fixpoint all_strings (vs : list json) : option (list jsstring) :=
  match vs with
  | [] => Some []
  | JStr s :: r =>
      match all_strings r with
      | Some l => Some (s :: l)
      | None => None
      end
  | _ :: _ => None
  end.

Definition join_space (x : json) : py jsstring :=
  match x with
  | JArr vs =>
      match all_strings vs with
      | Some l => Ret (join [32] l)
      | None => raise "TypeError: sequence item: expected str instance"
      end
  | JStr s => Ret (join [32] (code_points s))
  | JObj ms => Ret (join [32] (List.map fst ms))
  | _ => raise "TypeError: can only join an iterable"
  end.

(** [json.loads(sys.stdin.read() or '{}')] *)
Definition read_stdin (stdin : jsstring) : py json :=
  match json_loads (match stdin with [] => js "{}" | _ => stdin end) with
  | Some v => Ret v
  | None => raise "json.decoder.JSONDecodeError"
  end.

(** [x in s] for strings. *)
Fixpoint contains (x s : jsstring) : bool :=
  match strip_prefix x s with
  | Some _ => true
  | None =>
      match s with
      | [] => false
      | _ :: r => contains x r
      end
  end.

End Python.

Import Python.

(* ====================================================================== *)
(** * The task scripts carried by [AIService.js] *)
(* ====================================================================== *)

(** Each script is embedded from the statement after its [import] lines;
    the imports themselves are taken to succeed.  A script returns the value
    it prints with [print(json.dumps(...))] before it ends. *)

Module Tasks.

Section Scripts.

Variable W : World.

Definition no_video : json :=
  JObj [(js "transcribed_audio", JStr []); (js "text_from_frames", JArr [])].

(** The lines the incident scripts share: read the request, run the
    extractor of every path that is set. *)
Definition gather_evidence (stdin : jsstring) : script evidence :=
  data <- lift (read_stdin stdin) ;;
  complaint <- lift (get data "complaint" (JStr [])) ;;
  image_path <- lift (get data "image_path" JNull) ;;
  pdf_path <- lift (get data "pdf_path" JNull) ;;
  audio_path <- lift (get data "audio_path" JNull) ;;
  video_path <- lift (get data "video_path" JNull) ;;
  image_text <-
    (if truthy image_path
     then ext (call_extract image image_path) (extract_text_from_image W image_path)
     else ret (JStr [])) ;;
  pdf_text <-
    (if truthy pdf_path
     then ext (call_extract pdf pdf_path) (extract_text_from_pdf W pdf_path)
     else ret (JStr [])) ;;
  audio_text <-
    (if truthy audio_path
     then ext (call_extract audio audio_path) (extract_text_from_audio W audio_path)
     else ret (JStr [])) ;;
  video_details <-
    (if truthy video_path
     then ext (call_extract video video_path) (extract_details_from_video W video_path)
     else ret no_video) ;;
  video_audio <- lift (get video_details "transcribed_audio" (JStr [])) ;;
  frames <- lift (get video_details "text_from_frames" (JArr [])) ;;
  video_frames <- lift (join_space frames) ;;
  ret {| complaint := complaint; image_text := image_text; pdf_text := pdf_text;
         audio_text := audio_text; text_from_video_audio := video_audio;
         text_from_video_frames := video_frames |}.

(** What the sub-tasks receive for a request that carries a complaint and
    no evidence path. *)
Definition bare_evidence (text : json) : evidence :=
  {| complaint := text; image_text := JStr []; pdf_text := JStr [];
     audio_text := JStr []; text_from_video_audio := JStr [];
     text_from_video_frames := [] |}.

(** The object the script of [completeAnalysis] prints. *)
Definition analysis_document
  (contradiction_analysis has_contradiction incident_details narrative_summary
   classification score : json) : json :=
  JObj [(js "contradiction_analysis", contradiction_analysis);
        (js "has_contradiction", has_contradiction);
        (js "incident_details", incident_details);
        (js "narrative_summary", narrative_summary);
        (js "classification", classification);
        (js "priority_score", score)].

(** The script of [completeAnalysis]. *)
Definition complete_analysis_py (stdin : jsstring) : script json :=
  ev <- gather_evidence stdin ;;
  ' (contradiction_analysis, has_contradiction) <-
    ext (call_subtask (js "contradiction_in_complain_and_evidences"))
        (contradiction_in_complain_and_evidences W ev) ;;
  incident_details <-
    ext (call_subtask (js "get_incident_details_from_text"))
        (get_incident_details_from_text W ev) ;;
  narrative_summary <-
    ext (call_subtask (js "get_narrative_summary")) (get_narrative_summary W ev) ;;
  ' (classification, score) <-
    (if truthy incident_details
     then
       ' (label, s) <- ext (call_subtask (js "classify_cybercrime"))
                           (classify_cybercrime W incident_details) ;;
       ret (JStr (label_text label), JNum s)
     else ret (JStr (js "Unknown"), JNum (js "0"))) ;;
  ret (analysis_document contradiction_analysis has_contradiction incident_details
                         narrative_summary classification score).

(** The script of [classifyContent]. *)
Definition classify_py (stdin : jsstring) : script json :=
  data <- lift (read_stdin stdin) ;;
  ' (priority, score) <-
    ext (call_subtask (js "classify_cybercrime")) (classify_cybercrime W data) ;;
  ret (JObj [(js "priority", JStr (label_text priority)); (js "score", JNum score)]).

(** The scripts of the four file adapters differ in the request field, the
    message, the extractor and the shape of the result. *)
Definition path_field (m : modality) : string :=
  match m with
  | audio => "audio_file_path"
  | video => "video_file_path"
  | image => "image_file_path"
  | pdf => "pdf_file_path"
  end.

Definition not_found (m : modality) : json :=
  JObj [(js "error",
         JStr (js match m with
                  | audio => "Audio file not found"
                  | video => "Video file not found"
                  | image => "Image file not found"
                  | pdf => "PDF file not found"
                  end))].

Definition extractor (m : modality) : json -> py json :=
  match m with
  | audio => extract_text_from_audio W
  | video => extract_details_from_video W
  | image => extract_text_from_image W
  | pdf => extract_text_from_pdf W
  end.

Definition extracted (m : modality) (v : json) : json :=
  match m with
  | audio => JObj [(js "transcribed_text", v)]
  | video => v
  | image | pdf => JObj [(js "extracted_text", v)]
  end.

Definition analyze_file_py (m : modality) (stdin : jsstring) : script json :=
  data <- lift (read_stdin stdin) ;;
  file_path <- lift (get data (path_field m) (JStr [])) ;;
  missing <-
    (if negb (truthy file_path) then ret true
     else
       found <- ext (call_exists file_path) (os_path_exists W file_path) ;;
       ret (negb found)) ;;
  if (missing : bool) then ret (not_found m)        (* print(...); exit() *)
  else
    v <- ext (call_extract m file_path) (extractor m file_path) ;;
    ret (extracted m v).

(** The script of [checkDatabaseSimilarity]. *)
Definition set_fields : list jsstring :=
  List.map js ["phones"; "bank_accounts"; "upi_ids"; "emails"; "websites";
               "social_handles"; "ip_addresses"; "crypto_wallets";
               "contact_methods"]%string.

Definition rule_of (field : jsstring) : column_rule :=
  if contains (js "phone") field && negb (str_eqb field (js "contact_methods"))
  then phone_set
  else if contains (js "email") field then email_set
  else if contains (js "website") field then website_set
  else whole_field.

Fixpoint normalise_columns (fields : list jsstring) (df : frame W) : script (frame W) :=
  match fields with
  | [] => ret df
  | field :: rest =>
      df' <- lift (apply_column W df field (rule_of field)) ;;
      normalise_columns rest df'
  end.

(** The thresholds of the run: read from the request, [0.5] and [0.3]
    when it names none. *)
Definition read_thresholds (stdin : jsstring) : script (json * json) :=
  payload <- lift (read_stdin stdin) ;;
  thresholds <-
    (if isinstance_dict payload then lift (get payload "thresholds" (JObj []))
     else ret (JObj [])) ;;
  cross_th <- lift (get thresholds "cross_threshold" (JNum (js "0.5"))) ;;
  within_th <- lift (get thresholds "within_threshold" (JNum (js "0.3"))) ;;
  ret (cross_th, within_th).

Definition similarity_py (stdin : jsstring) : script json :=
  raw1 <- ext (call_load (js "victim_reports.csv")) (load_csv_safe W (js "victim_reports.csv")) ;;
  db1 <- lift (ensure_all_columns W raw1) ;;
  raw2 <- ext (call_load (js "official_scam_records.csv"))
              (load_csv_safe W (js "official_scam_records.csv")) ;;
  db2 <- lift (ensure_all_columns W raw2) ;;
  db1 <- normalise_columns set_fields db1 ;;
  db2 <- normalise_columns set_fields db2 ;;
  ' (cross_th, within_th) <- read_thresholds stdin ;;
  cross <- ext (call_cross_db_match cross_th) (cross_db_match W db1 db2 cross_th) ;;
  within <- ext (call_within_db_match within_th) (within_db_match W db1 within_th) ;;
  ret (JObj [(js "cross_db_matches", cross); (js "within_db_matches", within)]).

End Scripts.

(** The process a script leaves behind: [print(json.dumps(v))] and status 0,
    or the status and the diagnostic of the abort. *)
Record process : Type := {
  status : option Z;
  out : jsstring;
  err : jsstring
}.

Definition run (m : script json) : process :=
  match snd m with
  | Ret v => {| status := Some 0%Z; out := json_dumps v ++ [10]; err := [] |}
  | Abort st d => {| status := st; out := []; err := d |}
  end.

End Tasks.

Import Tasks.

(* ====================================================================== *)
(** * The orchestrator side: Node *)
(* ====================================================================== *)

Module Node.

(** State of a promise. *)
Inductive settled : Type :=
| Pending
| Resolved (v : json)
| Rejected (message : jsstring).

(** [resolve] and [reject] act on a pending promise only. *)
Definition settle (p : settled) (outcome : settled) : settled :=
  match p with
  | Pending => outcome
  | _ => p
  end.

(** What Node delivers for a child process and its two output streams.  A
    chunk is the text [data.toString()] yields; [close] carries the exit
    status, or nothing when a signal ended the child; [spawn_error] is the
    ['error'] event, emitted when the child could not be spawned;
    [stdin_error] is the ['error'] event of the child's stdin, emitted when
    what [stdin.write] was given could not be written (EPIPE: the child went
    away without reading it). *)
Inductive child_event : Type :=
| stdout_data (chunk : jsstring)
| stderr_data (chunk : jsstring)
| close (code : option Z)
| spawn_error (message : jsstring)
| stdin_error (message : jsstring).

(** The variables an invocation closes over, and [uncaught]: an exception
    that reached the top of the event loop, which ends the Node process. *)
Record invocation : Type := {
  result : jsstring;
  error_text : jsstring;
  promise : settled;
  uncaught : option jsstring
}.

Definition start : invocation :=
  {| result := []; error_text := []; promise := Pending; uncaught := None |}.

(** [`${code}`] *)
Definition show_code (code : option Z) : jsstring :=
  match code with
  | Some z => decimal_of_Z z
  | None => js "null"
  end.

(** [a || b] on strings. *)
Definition or_else (a b : jsstring) : jsstring :=
  match a with
  | [] => b
  | _ => a
  end.

Definition exited_zero (code : option Z) : bool :=
  match code with
  | Some z => (z =? 0)%Z
  | None => false
  end.

(** The events of a child that ran to its end. *)
Definition data_events (mk : jsstring -> child_event) (text : jsstring) : list child_event :=
  match text with
  | [] => []
  | _ => [mk text]
  end.

Definition events_of (p : process) : list child_event :=
  data_events stdout_data (out p) ++ data_events stderr_data (err p) ++ [close (status p)].

(** The same child with its output cut into chunks in any way. *)
Inductive stream : Type := Stdout | Stderr.

Definition data_event (c : stream * jsstring) : child_event :=
  match fst c with
  | Stdout => stdout_data (snd c)
  | Stderr => stderr_data (snd c)
  end.

Fixpoint text_of (which : stream) (chunks : list (stream * jsstring)) : jsstring :=
  match chunks with
  | [] => []
  | (Stdout, t) :: r =>
      match which with Stdout => t ++ text_of which r | Stderr => text_of which r end
  | (Stderr, t) :: r =>
      match which with Stderr => t ++ text_of which r | Stdout => text_of which r end
  end.

Definition life (chunks : list (stream * jsstring)) (code : option Z) : list child_event :=
  List.map data_event chunks ++ [close code].

(** A [close] event arrives, and no ['error'] event before it. *)
Fixpoint closes (child : list child_event) : bool :=
  match child with
  | [] => false
  | close _ :: _ => true
  | spawn_error _ :: _ => false
  | stdin_error _ :: _ => false
  | _ :: r => closes r
  end.

(** [spawn('python', ...)]: with no interpreter to start, the only event is
    ['error'].  An interpreter that starts is taken to read what is written
    to its stdin: its events are those of [events_of]. *)
Definition spawn (W : World) (p : process) : list child_event :=
  if python_available W then events_of p
  else [spawn_error (js "spawn python ENOENT")].

End Node.

Import Node.

(* ====================================================================== *)
(** * [AIService] *)
(* ====================================================================== *)

Module AIService.

(** ** [#runPythonInline] *)

(** The [close] listener, over the two strings it closes over. *)
Definition on_close (code : option Z) (result error : jsstring) : settled :=
  if negb (exited_zero code) then
    Rejected (js "Python exited with code " ++ show_code code ++ js ": "
              ++ or_else error result)
  else
    match JSON_parse result with
    | Some parsed => Resolved parsed
    | None => Resolved (JObj [(js "output", JStr (trim result))])
    end.

(** One event against the listeners a spawning function registers: [data]
    on both streams and [close].  Nothing listens for ['error'], on the
    child or on its stdin: the emitter throws it.  [#runPythonInline] and [extractTextFromFile] register the
    same three listeners and differ in the body of the [close] one. *)
Definition listen_with (closing : option Z -> jsstring -> jsstring -> settled)
  (st : invocation) (ev : child_event) : invocation :=
  match uncaught st with
  | Some _ => st
  | None =>
      match ev with
      | stdout_data chunk =>
          {| result := result st ++ chunk; error_text := error_text st;
             promise := promise st; uncaught := None |}
      | stderr_data chunk =>
          {| result := result st; error_text := error_text st ++ chunk;
             promise := promise st; uncaught := None |}
      | close code =>
          {| result := result st; error_text := error_text st;
             promise := settle (promise st) (closing code (result st) (error_text st));
             uncaught := None |}
      | spawn_error message =>
          {| result := result st; error_text := error_text st;
             promise := promise st; uncaught := Some message |}
      | stdin_error message =>
          {| result := result st; error_text := error_text st;
             promise := promise st; uncaught := Some message |}
      end
  end.

Definition listen : invocation -> child_event -> invocation := listen_with on_close.

Definition deliver (child : list child_event) : invocation :=
  fold_left listen child start.

(** What is written to the child's stdin. *)
Definition input_string (inputJson : json) : jsstring :=
  match inputJson with
  | JStr s => s
  | _ => JSON_stringify inputJson
  end.

Definition runPythonInline (W : World) (pythonCode : jsstring -> script json)
  (inputJson : json) : invocation :=
  deliver (spawn W (run (pythonCode (input_string inputJson)))).

(** [try { return await ... } catch (error) { throw new Error(prefix + error.message) }] *)
Definition rethrow (prefix : string) (p : settled) : settled :=
  match p with
  | Rejected m => Rejected (js prefix ++ m)
  | _ => p
  end.

(** ** The methods *)

Section Methods.

Variable W : World.

Definition completeAnalysis (complaintData : json) : settled :=
  rethrow "Complete analysis failed: "
    (promise (runPythonInline W (complete_analysis_py W) complaintData)).

Definition checkDatabaseSimilarity (entityData : json) : settled :=
  rethrow "Database similarity check failed: "
    (promise (runPythonInline W (similarity_py W) entityData)).

(** [content] is a string or an object. *)
Definition classifyContent (content : json) : settled :=
  let payload :=
    match content with
    | JStr _ => JObj [(js "text", content)]
    | _ => content
    end in
  rethrow "Content classification failed: "
    (promise (runPythonInline W (classify_py W) payload)).

Definition analyzeAudioFile (audioData : json) : settled :=
  rethrow "Audio analysis failed: "
    (promise (runPythonInline W (analyze_file_py W audio) audioData)).

Definition analyzeVideoFile (videoData : json) : settled :=
  rethrow "Video analysis failed: "
    (promise (runPythonInline W (analyze_file_py W video) videoData)).

Definition analyzeImageFile (imageData : json) : settled :=
  rethrow "Image analysis failed: "
    (promise (runPythonInline W (analyze_file_py W image) imageData)).

Definition analyzePdfFile (pdfData : json) : settled :=
  rethrow "PDF analysis failed: "
    (promise (runPythonInline W (analyze_file_py W pdf) pdfData)).

(** ** [extractTextFromFile] *)

Definition on_close_extract (code : option Z) (result error : jsstring) : settled :=
  if negb (exited_zero code) then
    Rejected (js "Python process exited with code " ++ show_code code ++ js ": " ++ error)
  else
    match JSON_parse result with
    | Some extractedText => Resolved extractedText
    | None => Resolved (JObj [(js "text", JStr (trim result))])
    end.

Definition listen_extract : invocation -> child_event -> invocation :=
  listen_with on_close_extract.

Definition deliver_extract (child : list child_event) : invocation :=
  fold_left listen_extract child start.

Definition file_type_of (tag : jsstring) : option modality :=
  if str_eqb tag (js "pdf") then Some pdf
  else if str_eqb tag (js "image") then Some image
  else if str_eqb tag (js "audio") then Some audio
  else if str_eqb tag (js "video") then Some video
  else None.

(** The message of the [TypeError] of [x.toLowerCase()] when [x] is not a
    string, as V8 words it. *)
Definition toLowerCase_error (name : string) (x : option json) : jsstring :=
  match x with
  | None => js "Cannot read properties of undefined (reading 'toLowerCase')"
  | Some JNull => js "Cannot read properties of null (reading 'toLowerCase')"
  | Some _ => js name ++ js ".toLowerCase is not a function"
  end.

Definition child_of_module (m : modality) (filePath : jsstring) : process :=
  let '(code, stdout, stderr) := module_main W m filePath in
  {| status := code; out := stdout; err := stderr |}.

(** The promise built in the body is returned without [await]: its
    rejection does not pass through the [catch], a [throw] of the [switch]
    does. *)
Definition extractTextFromFile (filePath : jsstring) (fileType : option json)
  : invocation :=
  match fileType with
  | Some (JStr t) =>
      match file_type_of (toLowerCase t) with
      | Some m => deliver_extract (spawn W (child_of_module m filePath))
      | None =>
          {| result := []; error_text := [];
             promise := Rejected (js "Text extraction failed: Unsupported file type: " ++ t);
             uncaught := None |}
      end
  | _ =>
      {| result := []; error_text := [];
         promise := Rejected (js "Text extraction failed: "
                              ++ toLowerCase_error "fileType" fileType);
         uncaught := None |}
  end.

End Methods.

End AIService.

Import AIService.

(* ====================================================================== *)
(** * The Express server: the AI endpoints and the phone normaliser *)
(* ====================================================================== *)

Module Server.

(** ** [validateAndFormatIndianNumber] *)

(** [/^[6-9]\d{9}$/] *)
Definition indianMobileRegex (s : jsstring) : bool :=
  match s with
  | c :: r => (54 <=? c) && (c <=? 57) && (List.length r =? 9)%nat && forallb is_digit r
  | [] => false
  end.

(** [null] is [JNull]; an argument that was not passed is [None]. *)
Definition validateAndFormatIndianNumber (phoneNumber : option json) : json :=
  match phoneNumber with
  | Some (JStr ((_ :: _) as s)) =>
      let cleaned := filter (fun c => is_digit c || (c =? 43)) s in
      let cleaned :=
        if startsWith cleaned (js "+91") && (List.length cleaned =? 13)%nat
        then substring 3 cleaned
        else if startsWith cleaned (js "91") && (List.length cleaned =? 12)%nat
        then substring 2 cleaned
        else if startsWith cleaned (js "0") && (List.length cleaned =? 11)%nat
        then substring 1 cleaned
        else cleaned in
      if indianMobileRegex cleaned then JStr (js "+91" ++ cleaned) else JNull
  | _ => JNull
  end.

(** ** Requests and responses *)

Record response : Type := {
  http_status : Z;
  body : json
}.

Definition message (m : jsstring) : json := JObj [(js "message", JStr m)].

(** [const { k } = o] on a value that came out of a JSON body: only an
    object has a property of that name. *)
Definition prop (o : json) (k : string) : option json :=
  match o with
  | JObj ms => obj_get (js k) ms
  | _ => None
  end.

(** Truth value in JavaScript of what came out of a JSON body; [None] is
    [undefined].  A number is falsy when it is zero, as a binary64 number. *)
Definition js_truthy (x : option json) : bool :=
  match x with
  | None | Some JNull => false
  | Some (JBool b) => b
  | Some (JNum t) => negb (denotes_zero t)
  | Some (JStr s) => match s with [] => false | _ => true end
  | Some (JArr _) | Some (JObj _) => true
  end.

(** [x || d] *)
Definition or_default (x : option json) (d : json) : json :=
  match x with
  | Some v => if js_truthy x then v else d
  | None => d
  end.

(** Own enumerable properties copied by [{...x}]. *)
Fixpoint indexed (i : nat) (vs : list json) : list (jsstring * json) :=
  match vs with
  | [] => []
  | v :: r => (decimal_of_Z (Z.of_nat i), v) :: indexed (S i) r
  end.

Definition spread (x : option json) : list (jsstring * json) :=
  match x with
  | Some (JObj ms) => ms
  | Some (JArr vs) => indexed 0 vs
  | Some (JStr s) => indexed 0 (List.map (fun c => JStr [c]) s)
  | _ => []
  end.

(** [try { const r = await p; res.status(200).json(ok r) }
     catch (error) { res.status(500).json({ message: error.message }) }];
    no response while the promise is pending. *)
Definition respond (p : settled) (ok : json -> json) : option response :=
  match p with
  | Resolved r => Some {| http_status := 200; body := ok r |}
  | Rejected m => Some {| http_status := 500; body := message m |}
  | Pending => None
  end.

Section Handlers.

Variable W : World.

(** POST /api/ai/complete-analysis *)
Definition post_complete_analysis (req_body : json) : option response :=
  respond (completeAnalysis W req_body) (fun r => r).



(** POST /api/ai/check-similarity *)
Definition post_check_similarity (req_body : json) : option response :=
  respond (checkDatabaseSimilarity W req_body)
          (fun similarity => JObj [(js "similarity", similarity)]).

(** POST /api/ai/check-similarity-advanced *)
Definition advanced_payload (req_body : json) : json :=
  let thresholds :=
    JObj [(js "cross_threshold",
           or_default (prop req_body "cross_threshold") (JNum (js "0.5")));
          (js "within_threshold",
           or_default (prop req_body "within_threshold") (JNum (js "0.3")))] in
  JObj (obj_set (js "thresholds") thresholds (spread (prop req_body "entity_data"))).

Definition post_check_similarity_advanced (req_body : json) : option response :=
  respond (checkDatabaseSimilarity W (advanced_payload req_body)) (fun r => r).

(** POST /api/ai/analyze-batch *)
Definition unsupported (file_type : jsstring) : json :=
  JObj [(js "error", JStr (js "Unsupported file type: " ++ file_type))].

(** The [switch] of the loop body. *)
Definition analyze_by_type (file_path : option json) (file_type : jsstring) : settled :=
  let tag := toLowerCase file_type in
  if str_eqb tag (js "audio")
  then analyzeAudioFile W (JObj (mk_object [(js "audio_file_path", file_path)]))
  else if str_eqb tag (js "video")
  then analyzeVideoFile W (JObj (mk_object [(js "video_file_path", file_path)]))
  else if str_eqb tag (js "image")
  then analyzeImageFile W (JObj (mk_object [(js "image_file_path", file_path)]))
  else if str_eqb tag (js "pdf")
  then analyzePdfFile W (JObj (mk_object [(js "pdf_file_path", file_path)]))
  else Resolved (unsupported file_type).

Definition entry (file_path file_type : option json) (key : string) (v : json) : json :=
  JObj (mk_object [(js "file_path", file_path); (js "file_type", file_type);
                   (js key, Some v)]).

(** The inner [try]/[catch] for one file that is not [null]: the entry
    pushed, or nothing while the analysis is pending. *)
Definition batch_entry (file : json) : option json :=
  let file_path := prop file "file_path" in
  let file_type := prop file "file_type" in
  match file_type with
  | Some (JStr t) =>
      match analyze_by_type file_path t with
      | Resolved r => Some (entry file_path file_type "result" r)
      | Rejected m => Some (entry file_path file_type "error" (JStr m))
      | Pending => None
      end
  | _ => Some (entry file_path file_type "error"
                     (JStr (toLowerCase_error "file_type" file_type)))
  end.





End Handlers.

End Server.

Import Server.

(* ====================================================================== *)
(** * Within-store matching *)
(* ====================================================================== *)

Module Similarity.

Open Scope Q_scope.

(** An entity record of the specification's data model: an id and eight
    set-valued identifier fields. *)
Record EntityRecord : Type := {
  id : jsstring;
  phones : list jsstring;
  bank_accounts : list jsstring;
  upi_ids : list jsstring;
  emails : list jsstring;
  websites : list jsstring;
  social_handles : list jsstring;
  ip_addresses : list jsstring;
  crypto_wallets : list jsstring
}.

Record MatchResult : Type := {
  id_a : jsstring;
  id_b : jsstring;
  score : Q
}.

(** Every unordered pair of a store, once, in input order. *)
Fixpoint unordered_pairs {A : Type} (l : list A) : list (A * A) :=
  match l with
  | [] => []
  | a :: r => List.map (pair a) r ++ unordered_pairs r
  end.

(** Stable insertion by descending score. *)
Fixpoint insert_desc (m : MatchResult) (l : list MatchResult) : list MatchResult :=
  match l with
  | [] => [m]
  | x :: r =>
      if Qle_bool (score x) (score m) then m :: x :: r
      else x :: insert_desc m r
  end.

Fixpoint sort_desc (l : list MatchResult) : list MatchResult :=
  match l with
  | [] => []
  | m :: r => insert_desc m (sort_desc r)
  end.

(** Two matches name the same unordered pair of ids. *)
Definition same_pair (m m' : MatchResult) : bool :=
  (str_eqb (id_a m) (id_a m') && str_eqb (id_b m) (id_b m'))
  || (str_eqb (id_a m) (id_b m') && str_eqb (id_b m) (id_a m')).

Definition self_pair (m : MatchResult) : bool := str_eqb (id_a m) (id_b m).

(** The first match of every unordered pair of ids, in input order. *)
Fixpoint first_of_each_pair (l : list MatchResult) : list MatchResult :=
  match l with
  | [] => []
  | m :: r => m :: filter (fun m' => negb (same_pair m m')) (first_of_each_pair r)
  end.

Section Matcher.

(** The aggregate similarity of two records.  The specification leaves the
    weighting open; it is a parameter. *)
Variable similarity : EntityRecord -> EntityRecord -> Q.

Definition candidate (p : EntityRecord * EntityRecord) : MatchResult :=
  {| id_a := id (fst p); id_b := id (snd p); score := similarity (fst p) (snd p) |}.

(** Modelled from the spec: [database.within_db_match], whose module is
    absent from the sources.  Section 4.4: compare every unordered pair
    within one store, excluding self-pairs and duplicate unordered pairs;
    keep pairs with score at least [within_threshold]; output sorted by
    score descending, ties broken by stable input order.  A match names its
    records by their ids, and so do the two exclusions: a pair of records
    with one id is a self-pair, and of the pairs with the same two ids the
    first in input order is compared. *)
Definition within_db_match (store : list EntityRecord) (threshold : Q) : list MatchResult :=
  sort_desc
    (filter (fun m => Qle_bool threshold (score m))
            (first_of_each_pair
               (filter (fun m => negb (self_pair m))
                       (List.map candidate (unordered_pairs store))))).

End Matcher.

End Similarity.

(* ====================================================================== *)
(** * Measures used by the proofs *)
(* ====================================================================== *)

Module Measures.

Definition cons_unit (c : N) (p : option (jsstring * jsstring)) : option (jsstring * jsstring) :=
  match p with
  | Some (str, rest) => Some (c :: str, rest)
  | None => None
  end.

(** What may follow a number literal without being read as part of it. *)
Definition delim (rest : jsstring) : bool :=
  match rest with
  | [] => true
  | c :: _ =>
      negb (is_digit c || (c =? 46) || (c =? 101) || (c =? 69) || (c =? 43) || (c =? 45))
  end.

(** Recursion depth the parser spends on a printed value. *)
Fixpoint cost (v : json) : nat :=
  match v with
  | JArr vs => S (fold_right (fun x acc => S (cost x + acc)%nat) O vs)
  | JObj ms => S (fold_right (fun kv acc => S (cost (snd kv) + acc)%nat) O ms)
  | _ => 1%nat
  end.

Definition items_cost (vs : list json) : nat :=
  fold_right (fun x acc => S (cost x + acc)%nat) O vs.

Definition members_cost (ms : list (jsstring * json)) : nat :=
  fold_right (fun kv acc => S (cost (snd kv) + acc)%nat) O ms.

Definition print_member (quote : jsstring -> jsstring) (pad : jsstring)
  (kv : jsstring * json) : jsstring :=
  print_string quote (fst kv) ++ 58 :: pad ++ print quote pad (snd kv).

Definition reads_back (nan : bool) (quote : jsstring -> jsstring) (pad : jsstring)
  (v : json) : Prop :=
  wf v = true ->
  forall n rest, (cost v <= n)%nat -> delim rest = true ->
                 parse_value nan n (print quote pad v ++ rest) = Some (v, rest).

(** The ten decimal digits of [n mod 10^10], most significant first. *)
Fixpoint digits_of (k : nat) (n : N) : jsstring :=
  match k with
  | O => []
  | S k' => digits_of k' (n / 10) ++ [48 + n mod 10]
  end.

Definition ten_digits (n : N) : jsstring := digits_of 10 n.

End Measures.

Import Measures.

(* ====================================================================== *)
(** * Concrete worlds and stores *)
(* ====================================================================== *)

Module Scenarios.

(** A world in which every extractor and sub-task answers; the interpreter,
    the incident details and the narrative summary vary. *)
Definition world (python : bool) (details : py json) (summary : py json) : World :=
  {| python_available := python;
     os_path_exists := fun _ => Ret false;
     extract_text_from_image := fun _ => Ret (JStr (js "text read off the image"));
     extract_text_from_pdf := fun _ => Ret (JStr (js "text of the document"));
     extract_text_from_audio := fun _ => Ret (JStr (js "words of the recording"));
     extract_details_from_video := fun _ => Ret (JObj []);
     get_incident_details_from_text := fun _ => details;
     get_narrative_summary := fun _ => summary;
     contradiction_in_complain_and_evidences :=
       fun _ => Ret (JStr (js "No contradiction found."), JBool false);
     classify_cybercrime := fun _ => Ret (High, js "0.8");
     module_main := fun _ _ => (Some 0%Z, js "scanned page, no structure", []);
     frame := unit;
     load_csv_safe := fun _ => Ret tt;
     ensure_all_columns := fun f => Ret f;
     apply_column := fun f _ _ => Ret f;
     cross_db_match := fun _ _ _ => Ret (JArr []);
     within_db_match := fun _ _ => Ret (JArr []) |}.

Definition phishing : json := JObj [(js "crime_type", JStr (js "phishing"))].

Definition summary : json := JStr (js "The caller asked for a one-time password.").

Definition usual : World := world true (Ret phishing) (Ret summary).

(** No [python] on the path. *)
Definition no_python : World := world false (Ret phishing) (Ret summary).

(** The incident extraction finds nothing: an empty dict. *)
Definition vague : World := world true (Ret (JObj [])) (Ret summary).

(** The summariser ends the interpreter with status 137. *)
Definition killed : World :=
  world true (Ret phishing) (Abort (Some 137%Z) (js "Killed")).

Definition only_complaint : json :=
  JObj [(js "complaint", JStr (js "Someone called and asked for my OTP."))].

(** Both thresholds supplied as zero. *)
Definition zero_thresholds : json :=
  JObj [(js "cross_threshold", JNum (js "0")); (js "within_threshold", JNum (js "0"))].


(** Scenario B of the specification: three records, the first two share a
    bank account. *)
Definition record (i : string) (accounts : list string) : Similarity.EntityRecord :=
  {| Similarity.id := js i; Similarity.phones := [];
     Similarity.bank_accounts := List.map js accounts;
     Similarity.upi_ids := []; Similarity.emails := []; Similarity.websites := [];
     Similarity.social_handles := []; Similarity.ip_addresses := [];
     Similarity.crypto_wallets := [] |}.

Definition store : list Similarity.EntityRecord :=
  [record "1" ["50100234"]; record "2" ["50100234"; "917002"]; record "3" ["33000001"]]%string.

(** One point for a shared bank account. *)
Definition shares_account (a b : Similarity.EntityRecord) : Q :=
  if existsb (fun x => mem_str x (Similarity.bank_accounts b)) (Similarity.bank_accounts a)
  then 1%Q else 0%Q.

End Scenarios.

(* ====================================================================== *)
(** * The incident methods: [analyzeComplaint] and [findContradictions] *)
(* ====================================================================== *)

Module Incident.

Section Methods.

Variable W : World.

(** The script of [analyzeComplaint]. *)
Definition analyze_complaint_py (stdin : jsstring) : script json :=
  ev <- gather_evidence W stdin ;;
  details <-
    ext (call_subtask (js "get_incident_details_from_text"))
        (get_incident_details_from_text W ev) ;;
  summary <-
    ext (call_subtask (js "get_narrative_summary")) (get_narrative_summary W ev) ;;
  ret (JObj [(js "details", details); (js "summary", summary)]).

(** The script of [findContradictions]. *)
Definition contradiction_py (stdin : jsstring) : script json :=
  ev <- gather_evidence W stdin ;;
  ' (analysis, has_contradiction) <-
    ext (call_subtask (js "contradiction_in_complain_and_evidences"))
        (contradiction_in_complain_and_evidences W ev) ;;
  ret (JObj [(js "analysis", analysis); (js "has_contradiction", has_contradiction)]).

Definition analyzeComplaint (complaintData : json) : settled :=
  rethrow "AI analysis failed: "
    (promise (runPythonInline W analyze_complaint_py complaintData)).

Definition findContradictions (data : json) : settled :=
  rethrow "Contradiction analysis failed: "
    (promise (runPythonInline W contradiction_py data)).

(** POST /api/ai/analyze-complaint *)
Definition post_analyze_complaint (req_body : json) : option response :=
  respond (analyzeComplaint req_body) (fun r => r).

(** POST /api/ai/contradiction *)
Definition post_contradiction (req_body : json) : option response :=
  respond (findContradictions req_body) (fun r => r).

End Methods.

(** The extractor calls a request asks for: one for every path that is set,
    in the order of the script. *)
Definition path_of (data : json) (k : string) : json :=
  match prop data k with
  | Some v => v
  | None => JNull
  end.

Definition extraction (data : json) (m : modality) (k : string) : list call :=
  if truthy (path_of data k) then [call_extract m (path_of data k)] else [].

Definition extractions (data : json) : list call :=
  extraction data image "image_path" ++ extraction data pdf "pdf_path"
  ++ extraction data audio "audio_path" ++ extraction data video "video_path".

Definition is_subtask (c : call) : bool :=
  match c with
  | call_subtask _ => true
  | _ => false
  end.

(** The sub-tasks of [completeAnalysis], in the order of its script. *)
Definition sub_tasks : list call :=
  List.map (fun name => call_subtask (js name))
    ["contradiction_in_complain_and_evidences"; "get_incident_details_from_text";
     "get_narrative_summary"; "classify_cybercrime"]%string.

End Incident.

(* ====================================================================== *)
(** * The classification and scan endpoints *)
(* ====================================================================== *)

Module Scans.

Section Handlers.

Variable W : World.

(** [classifyContent(content)] as a handler calls it with a property of the
    body.  For [undefined] the payload is [undefined], and the default
    [inputJson = {}] of [#runPythonInline] stands in for it. *)
Definition classify_request (content : option json) : settled :=
  classifyContent W (match content with
                     | Some c => c
                     | None => JObj []
                     end).

(** POST /api/ai/classify *)
Definition post_classify (req_body : json) : option response :=
  respond (classify_request (prop req_body "content")) (fun r => r).


(** POST /api/ai/extract-text, for a [filePath] that is a string. *)
Definition post_extract_text (filePath : jsstring) (fileType : option json)
  : option response :=
  respond (promise (extractTextFromFile W filePath fileType)) (fun r => r).

(** POST /api/ai/scan/media, for a [filePath] that is a string.  Reading
    [extracted.text] throws when the extractor printed [null]. *)
Definition post_scan_media (filePath : jsstring) (fileType : option json)
  : option response :=
  if negb (js_truthy (Some (JStr filePath))) || negb (js_truthy fileType) then
    Some {| http_status := 400; body := message (js "filePath and fileType required") |}
  else
    match promise (extractTextFromFile W filePath fileType) with
    | Pending => None
    | Rejected m => Some {| http_status := 500; body := message m |}
    | Resolved JNull =>
        Some {| http_status := 500;
                body := message (js "Cannot read properties of null (reading 'text')") |}
    | Resolved extracted =>
        let content :=
          or_default (prop extracted "text") (JStr (JSON_stringify extracted)) in
        respond (classifyContent W content)
                (fun classification =>
                   JObj [(js "extracted", extracted);
                         (js "classification", classification)])
    end.

End Handlers.

(** What the script of [classifyContent] prints for the answer of the
    classifier. *)
Definition classification (answer : py (priority_label * jsstring)) : py json :=
  match answer with
  | Ret (priority, score) =>
      Ret (JObj [(js "priority", JStr (label_text priority)); (js "score", JNum score)])
  | Abort st d => Abort st d
  end.

End Scans.

(* ====================================================================== *)
(** * Call-scam detection and the chatbot *)
(* ====================================================================== *)

Module CallScam.

(** How the transcription block ends when nothing ends the interpreter:
    with a transcript, or in the [except Exception as e] clause, with
    [str(e)]. *)
Inductive attempt : Type :=
| transcribed (transcript : jsstring)
| raised (exception : jsstring).

(** What the script of [detectCallScam] finds outside itself, beside the
    file system of [World]: [str.lower], the two directories
    [os.path.join(callDetectorDir, 'model-hi')] and [... 'model-en'], the
    [try] block over [pydub] and [vosk], and [call.analyze_text_with_groq]. *)
Record Detector : Type := {
  str_lower : jsstring -> jsstring;
  model_hi : jsstring;
  model_en : jsstring;
  transcribe : json -> jsstring -> py attempt;
  analyze_text_with_groq : jsstring -> py (json * json)
}.

Definition failure (text : jsstring) : json := JObj [(js "error", JStr text)].

Section Methods.

Variable W : World.
Variable D : Detector.

(** The script of [detectCallScam]. *)
Definition detect_call_scam_py (stdin : jsstring) : script json :=
  data <- lift (read_stdin stdin) ;;
  audio_file_path <- lift (get data "audio_file_path" (JStr [])) ;;
  named <- lift (get data "language" JNull) ;;
  language <-
    lift (match (if truthy named then named else JStr (js "en")) with
          | JStr l => Ret (str_lower D l)
          | _ => raise "AttributeError: object has no attribute 'lower'"
          end) ;;
  missing <-
    (if negb (truthy audio_file_path) then ret true
     else
       found <- ext (call_exists audio_file_path) (os_path_exists W audio_file_path) ;;
       ret (negb found)) ;;
  if (missing : bool) then ret (failure (js "Audio file not found"))
  else
    let vosk_model_path :=
      if startsWith language (js "hi") then model_hi D else model_en D in
    found <- ext (call_exists (JStr vosk_model_path))
                 (os_path_exists W (JStr vosk_model_path)) ;;
    if negb found
    then ret (failure (js "Vosk model not found at " ++ vosk_model_path))
    else
      heard <- ext (call_subtask (js "transcribe"))
                   (transcribe D audio_file_path vosk_model_path) ;;
      match heard with
      | raised e => ret (failure (js "Transcription failed: " ++ e))
      | transcribed transcript =>
          ' (classification, reason) <-
            ext (call_subtask (js "analyze_text_with_groq"))
                (analyze_text_with_groq D transcript) ;;
          ret (JObj [(js "transcript", JStr transcript);
                     (js "classification", classification);
                     (js "reason", reason);
                     (js "language", JStr language);
                     (js "audio_file", audio_file_path)])
      end.

Definition detectCallScam (audioData : json) : settled :=
  rethrow "Call scam detection failed: "
    (promise (runPythonInline W detect_call_scam_py audioData)).

(** POST /api/ai/detect-call-scam *)
Definition post_detect_call_scam (req_body : json) : option response :=
  let audio_file_path := prop req_body "audio_file_path" in
  let language := prop req_body "language" in
  if negb (js_truthy audio_file_path) then
    Some {| http_status := 400; body := message (js "audio_file_path is required") |}
  else
    respond (detectCallScam
               (JObj (mk_object [(js "audio_file_path", audio_file_path);
                                 (js "language",
                                  Some (or_default language (JStr (js "en"))))])))
            (fun r => r).

End Methods.

End CallScam.

Module Chat.

(** What the script of [getChatbotResponse] finds outside itself: the
    index built from the documents of [chatbot], the search in it and the
    answer synthesised from the search results, with the clients the
    environment configures. *)
Record Chatbot : Type := {
  vector_index : Type;
  create_vector_index : py vector_index;
  search_index : json -> vector_index -> py (list json);
  generate_synthesized_answer : json -> list json -> py json
}.

(** [[r.get('source') for r in results]] *)
Fixpoint sources_of (results : list json) : py (list json) :=
  match results with
  | [] => Ret []
  | r :: rest =>
      match get r "source" JNull with
      | Ret source =>
          match sources_of rest with
          | Ret l => Ret (source :: l)
          | Abort st d => Abort st d
          end
      | Abort st d => Abort st d
      end
  end.

Section Methods.

Variable W : World.
Variable C : Chatbot.

(** The script of [getChatbotResponse]. *)
Definition chatbot_py (stdin : jsstring) : script json :=
  data <- lift (read_stdin stdin) ;;
  query <- lift (get data "query" (JStr [])) ;;
  index <- ext (call_subtask (js "create_vector_index")) (create_vector_index C) ;;
  results <- ext (call_subtask (js "search_index")) (search_index C query index) ;;
  answer <- ext (call_subtask (js "generate_synthesized_answer"))
                (generate_synthesized_answer C query results) ;;
  sources <- lift (sources_of results) ;;
  ret (JObj [(js "answer", answer); (js "sources", JArr sources)]).

(** [getChatbotResponse(query, context = '')]: arguments after the second
    are not bound to anything. *)
Definition getChatbotResponse (query context : option json) : settled :=
  let context := match context with
                 | Some c => c
                 | None => JStr []
                 end in
  rethrow "Chatbot response failed: "
    (promise (runPythonInline W chatbot_py
                (JObj (mk_object [(js "query", query); (js "context", Some context)])))).

(** POST /api/ai/chat *)
Definition post_chat (req_body : json) : option response :=
  respond (getChatbotResponse (prop req_body "query") (prop req_body "context"))
          (fun r => r).

(** POST /api/ai/chat-enhanced *)
Definition post_chat_enhanced (req_body : json) : option response :=
  let query := prop req_body "query" in
  if negb (js_truthy query) then
    Some {| http_status := 400; body := message (js "query is required") |}
  else
    respond (getChatbotResponse query (prop req_body "context")) (fun r => r).

End Methods.

End Chat.

(* ====================================================================== *)
(** * The officer gate and the registration endpoint *)
(* ====================================================================== *)

Module Officer.

(** What the middleware does with a request: answer it, or hand it to the
    route with [req.officer] set. *)
Inductive passage : Type :=
| Refused (answer : response)
| Next (officer : json).

(** [requireOfficer].  [verify] is [jwt.verify(token, JWT_SECRET)]: the
    decoded payload, or nothing when it throws. *)
Definition requireOfficer (verify : jsstring -> option json)
  (authorization : option jsstring) : passage :=
  let auth := match authorization with
              | Some a => a
              | None => []
              end in
  match strip_prefix (js "Bearer ") auth with
  | Some ((_ :: _) as token) =>
      match verify token with
      | Some decoded =>
          if negb (js_truthy (Some decoded))
             || negb match prop decoded "role" with
                     | Some (JStr r) => str_eqb r (js "OFFICER")
                     | _ => false
                     end
          then Refused {| http_status := 403;
                          body := message (js "Officer role required") |}
          else Next decoded
      | None => Refused {| http_status := 401; body := message (js "Invalid token") |}
      end
  | _ => Refused {| http_status := 401; body := message (js "Missing token") |}
  end.

End Officer.

Module Registration.

(** Upper-casing as far as the comparison with [USER] and [ADMIN] depends
    on it.  Outside [a-z] the mappings of [toUpperCase] that yield letters of
    the 7-bit range only are: dotless i (305) to [I], long s (383) to [S],
    sharp s to [SS], and the ligatures 64256 to 64262 to [FF], [FI], [FL],
    [FFI], [FFL], [ST], [ST].  Neither word contains [SS], [F] or [T]: a
    string holding one of the latter does not upper-case to [USER] or
    [ADMIN], with or without its mapping. *)
Definition upper_unit (c : N) : N :=
  if (97 <=? c) && (c <=? 122) then c - 32
  else if c =? 305 then 73
  else if c =? 383 then 83
  else c.

Definition toUpperCase (s : jsstring) : jsstring := List.map upper_unit s.

(** The values of the [INSERT INTO users]. *)
Record user_values : Type := {
  user_id : jsstring;
  full_name : json;
  aadhaar_number : json;
  phone_number : json;
  email : json;
  address : json;
  role : jsstring;
  otp : jsstring;
  otp_expiry : Z
}.

(** How a query ends: with its rows, or rejected with an [error.code]. *)
Inductive query_end : Type :=
| Rows (rows : list json)
| Failed (code : option jsstring).

(** What the handler finds outside itself: [uuidv4()], the six digits of
    [Math.floor(100000 + Math.random() * 900000).toString()], [Date.now()]
    and the database. *)
Record Services : Type := {
  uuidv4 : jsstring;
  random_otp : jsstring;
  now : Z;
  insert_user : user_values -> query_end
}.

Definition refuse (code : Z) (text : string) : response :=
  {| http_status := code; body := message (js text) |}.

Definition value (x : option json) : json :=
  match x with
  | Some v => v
  | None => JNull
  end.

(** POST /api/auth/register: the insertions issued, and the answer. *)
Definition post_register (S : Services) (req_body : json)
  : list user_values * response :=
  let full_name := prop req_body "full_name" in
  let aadhaar_number := prop req_body "aadhaar_number" in
  let phone_number := prop req_body "phone_number" in
  let email := prop req_body "email" in
  let address := prop req_body "address" in
  let role := prop req_body "role" in
  if negb (js_truthy full_name) || negb (js_truthy aadhaar_number)
     || negb (js_truthy phone_number) || negb (js_truthy email)
     || negb (js_truthy address) || negb (js_truthy role)
  then ([], refuse 400 "Missing required fields.")
  else
    let formattedPhone := validateAndFormatIndianNumber phone_number in
    if negb (js_truthy (Some formattedPhone))
    then ([], refuse 400 "Invalid phone number format.")
    else
      match role with
      | Some (JStr r) =>
          if negb (mem_str (toUpperCase r) [js "USER"; js "ADMIN"])
          then ([], refuse 400 "Invalid role. Must be 'USER' or 'ADMIN'.")
          else
            let row :=
              {| user_id := uuidv4 S; full_name := value full_name;
                 aadhaar_number := value aadhaar_number;
                 phone_number := formattedPhone; email := value email;
                 address := value address; role := toUpperCase r;
                 otp := random_otp S; otp_expiry := (now S + 5 * 60 * 1000)%Z |} in
            match insert_user S row with
            | Rows rows =>
                ([row],
                 {| http_status := 201;
                    body :=
                      JObj (mk_object
                        [(js "message",
                          Some (JStr (js "User registered successfully. OTP sent for verification.")));
                         (js "user", hd_error rows);
                         (js "otp", Some (JStr (random_otp S)))]) |})
            | Failed code =>
                ([row],
                 match code with
                 | Some c =>
                     if str_eqb c (js "23505")
                     then refuse 409 "User with these details already exists."
                     else refuse 500 "Internal server error."
                 | None => refuse 500 "Internal server error."
                 end)
            end
      | _ => ([], refuse 500 "Internal server error.")   (* [role.toUpperCase] is not a function *)
      end.

End Registration.

(* ====================================================================== *)
(** * More concrete worlds *)
(* ====================================================================== *)

Module Cases.

(** The recording exists, and so do both model directories. *)
Definition files_exist : World :=
  {| python_available := true;
     os_path_exists := fun _ => Ret true;
     extract_text_from_image := fun _ => Ret (JStr []);
     extract_text_from_pdf := fun _ => Ret (JStr []);
     extract_text_from_audio := fun _ => Ret (JStr []);
     extract_details_from_video := fun _ => Ret (JObj []);
     get_incident_details_from_text := fun _ => Ret Scenarios.phishing;
     get_narrative_summary := fun _ => Ret Scenarios.summary;
     contradiction_in_complain_and_evidences :=
       fun _ => Ret (JStr (js "No contradiction found."), JBool false);
     classify_cybercrime := fun _ => Ret (High, js "0.8");
     module_main := fun _ _ => (Some 1%Z, js "page 1", js "EOF marker not found");
     frame := unit;
     load_csv_safe := fun _ => Ret tt;
     ensure_all_columns := fun f => Ret f;
     apply_column := fun f _ _ => Ret f;
     cross_db_match := fun _ _ _ => Ret (JArr []);
     within_db_match := fun _ _ => Ret (JArr []) |}.

(** A detector whose decoder cannot read the recording. *)
Definition unreadable : CallScam.Detector :=
  {| CallScam.str_lower := toLowerCase;
     CallScam.model_hi := js "/srv/models/call scam detector/model-hi";
     CallScam.model_en := js "/srv/models/call scam detector/model-en";
     CallScam.transcribe := fun _ _ => Ret (CallScam.raised (js "Decoding failed"));
     CallScam.analyze_text_with_groq :=
       fun _ => Ret (JStr (js "scam"), JStr (js "asks for an OTP")) |}.

(** A chatbot that answers from two chunks. *)
Definition two_chunks : Chat.Chatbot :=
  {| Chat.vector_index := unit;
     Chat.create_vector_index := Ret tt;
     Chat.search_index :=
       fun _ _ => Ret [JObj [(js "source", JStr (js "it_act.pdf"))]; JObj []];
     Chat.generate_synthesized_answer :=
       fun query _ => Ret (JObj [(js "asked", query)]) |}.

(** A token library that accepts one token. *)
Definition verify (token : jsstring) : option json :=
  if str_eqb token (js "t0k3n")
  then Some (JObj [(js "user_id", JStr (js "u1")); (js "role", JStr (js "OFFICER"))])
  else None.

(** A database that stores what it is given. *)
Definition stores : Registration.Services :=
  {| Registration.uuidv4 := js "6f1c";
     Registration.random_otp := js "483920";
     Registration.now := 0%Z;
     Registration.insert_user :=
       fun row => Registration.Rows [JObj [(js "phone_number", Registration.phone_number row)]] |}.

(** A store in which two records carry the id 7; all three share an
    account. *)
Definition repeated_ids : list Similarity.EntityRecord :=
  [Scenarios.record "7" ["50100234"]; Scenarios.record "7" ["50100234"];
   Scenarios.record "8" ["50100234"]]%string.

Definition applicant : json :=
  JObj [(js "full_name", JStr (js "A. Kumar"));
        (js "aadhaar_number", JStr (js "1234 5678 9012"));
        (js "phone_number", JStr (js "098765 43210"));
        (js "email", JStr (js "a@example.org"));
        (js "address", JStr (js "Pune"));
        (js "role", JStr (js "user"))].

End Cases.

(* ====================================================================== *)
(** * Properties: text and the lexical level *)
(* ====================================================================== *)

Lemma str_eqb_refl (s : jsstring) : str_eqb s s = true.
Proof.
  induction s as [|c s IH]; simpl; [reflexivity|].
  rewrite N.eqb_refl. exact IH.
Qed.

Lemma str_eqb_eq (a b : jsstring) : str_eqb a b = true <-> a = b.
Proof.
  split.
  - revert b. induction a as [|x a IH]; intros [|y b] H; simpl in H;
      try discriminate; [reflexivity|].
    apply andb_true_iff in H. destruct H as [Hxy Hab].
    apply N.eqb_eq in Hxy. subst y. f_equal. now apply IH.
  - intros ->. apply str_eqb_refl.
Qed.

Lemma strip_prefix_app (p r : jsstring) : strip_prefix p (p ++ r) = Some r.
Proof.
  induction p as [|c p IH]; simpl; [reflexivity|].
  now rewrite N.eqb_refl.
Qed.

Lemma wf_str_app (a b : jsstring) : wf_str (a ++ b) = wf_str a && wf_str b.
Proof. unfold wf_str. apply forallb_app. Qed.

(** ** Hexadecimal escapes *)

Lemma hex_val_digit (n : N) : n < 16 -> hex_val (hex_digit n) = Some n.
Proof.
  intros H.
  assert (In n [0;1;2;3;4;5;6;7;8;9;10;11;12;13;14;15]) as Hin.
  { simpl. lia. }
  simpl in Hin.
  repeat (destruct Hin as [<-|Hin]; [reflexivity|]). contradiction.
Qed.

Lemma hex_split (c : N) :
  c < 65536 ->
  (c / 4096) * 4096 + ((c / 256) mod 16) * 256 + ((c / 16) mod 16) * 16 + c mod 16 = c.
Proof.
  intros H.
  pose proof (N.div_mod c 16 ltac:(lia)) as H1.
  pose proof (N.div_mod (c / 16) 16 ltac:(lia)) as H2.
  pose proof (N.div_mod (c / 256) 16 ltac:(lia)) as H3.
  replace (c / 256) with (c / 16 / 16) in * by (rewrite N.Div0.div_div; reflexivity).
  replace (c / 4096) with (c / 16 / 16 / 16) by (rewrite !N.Div0.div_div; reflexivity).
  lia.
Qed.

Lemma parse_unicode_escape (c : N) (r : jsstring) :
  c < 65536 ->
  parse_string_body (unicode_escape c ++ r) = cons_unit c (parse_string_body r).
Proof.
  intros H. unfold unicode_escape, cons_unit.
  cbn [app parse_string_body].
  change (92 =? 34) with false. change (92 =? 92) with true.
  change (117 =? 117) with true. cbv iota.
  assert (c / 4096 < 16) as H1 by (apply N.Div0.div_lt_upper_bound; lia).
  rewrite (hex_val_digit _ H1).
  rewrite !hex_val_digit by (apply N.mod_lt; lia).
  rewrite (hex_split c H). reflexivity.
Qed.

Lemma parse_raw_unit (c : N) (r : jsstring) :
  (c =? 34) = false -> (c =? 92) = false -> (c <? 32) = false ->
  parse_string_body (c :: r) = cons_unit c (parse_string_body r).
Proof.
  intros H1 H2 H3. cbn [parse_string_body]. rewrite H1, H2, H3. reflexivity.
Qed.

Lemma parse_short_escape (c e : N) (r : jsstring) :
  short_escape c = Some e ->
  parse_string_body (92 :: e :: r) = cons_unit c (parse_string_body r).
Proof.
  unfold short_escape. intros H.
  repeat match type of H with
         | (if ?x =? ?k then _ else _) = _ =>
             let E := fresh "E" in
             destruct (x =? k) eqn:E;
             [apply N.eqb_eq in E; subst x; injection H as <-; reflexivity|]
         end.
  discriminate.
Qed.

Lemma short_escape_none (c : N) :
  short_escape c = None -> (c =? 34) = false /\ (c =? 92) = false.
Proof.
  unfold short_escape. intros H.
  destruct (c =? 34); [discriminate|]. destruct (c =? 92); [discriminate|].
  split; reflexivity.
Qed.

Lemma parse_py_escape_unit (c : N) (r : jsstring) :
  c < 65536 ->
  parse_string_body (py_escape_unit c ++ r) = cons_unit c (parse_string_body r).
Proof.
  intros Hc. unfold py_escape_unit.
  destruct (short_escape c) as [e|] eqn:E.
  - apply (parse_short_escape c e r E).
  - destruct (short_escape_none c E) as [H1 H2].
    destruct ((c <? 32) || (126 <? c)) eqn:B.
    + now apply parse_unicode_escape.
    + apply orb_false_iff in B. destruct B as [B _].
      now apply parse_raw_unit.
Qed.

Lemma parse_js_escape_unit (c : N) (r : jsstring) :
  c < 65536 ->
  parse_string_body (js_escape_unit c ++ r) = cons_unit c (parse_string_body r).
Proof.
  intros Hc. unfold js_escape_unit.
  destruct (short_escape c) as [e|] eqn:E.
  - apply (parse_short_escape c e r E).
  - destruct (short_escape_none c E) as [H1 H2].
    destruct ((c <? 32) || is_high_surrogate c || is_low_surrogate c) eqn:B.
    + now apply parse_unicode_escape.
    + apply orb_false_iff in B. destruct B as [B _].
      apply orb_false_iff in B. destruct B as [B _].
      now apply parse_raw_unit.
Qed.

Lemma parse_surrogate (c : N) (r : jsstring) :
  is_high_surrogate c || is_low_surrogate c = true ->
  parse_string_body (c :: r) = cons_unit c (parse_string_body r).
Proof.
  intros H. apply parse_raw_unit.
  - apply N.eqb_neq. intros ->. discriminate.
  - apply N.eqb_neq. intros ->. discriminate.
  - apply N.ltb_ge. unfold is_high_surrogate, is_low_surrogate in H.
    apply orb_true_iff in H.
    destruct H as [H|H]; apply andb_true_iff in H; destruct H as [H _];
      apply N.leb_le in H; lia.
Qed.

Lemma wf_str_cons (c : N) (s : jsstring) :
  wf_str (c :: s) = true -> c < 65536 /\ wf_str s = true.
Proof.
  unfold wf_str. simpl. intros H. apply andb_true_iff in H.
  destruct H as [H1 H2]. apply N.ltb_lt in H1. now split.
Qed.

(** What [json.dumps] writes between the quotes reads back as the string. *)
Lemma py_quote_ok (s rest : jsstring) :
  wf_str s = true ->
  parse_string_body (py_quote s ++ 34 :: rest) = Some (s, rest).
Proof.
  induction s as [|c s IH]; intros H.
  - reflexivity.
  - apply wf_str_cons in H. destruct H as [Hc Hs].
    cbn [py_quote]. rewrite <- app_assoc.
    rewrite (parse_py_escape_unit c _ Hc), (IH Hs). reflexivity.
Qed.

Lemma js_quote_cons (c : N) (r : jsstring) :
  js_quote (c :: r) =
  if is_high_surrogate c then
    match r with
    | d :: r' =>
        if is_low_surrogate d then c :: d :: js_quote r'
        else unicode_escape c ++ js_quote r
    | [] => unicode_escape c
    end
  else js_escape_unit c ++ js_quote r.
Proof. reflexivity. Qed.

(** The same for [JSON.stringify]. *)
Lemma js_quote_ok (s rest : jsstring) :
  wf_str s = true ->
  parse_string_body (js_quote s ++ 34 :: rest) = Some (s, rest).
Proof.
  revert rest.
  enough (forall s,
             (forall rest, wf_str s = true ->
                           parse_string_body (js_quote s ++ 34 :: rest) = Some (s, rest))
             /\ (forall c rest, wf_str (c :: s) = true ->
                                parse_string_body (js_quote (c :: s) ++ 34 :: rest)
                                = Some (c :: s, rest))) as Hboth.
  { intros rest. apply (proj1 (Hboth s)). }
  clear s. induction s as [|d s [IH1 IH2]].
  - split; [reflexivity|].
    intros c rest H. apply wf_str_cons in H. destruct H as [Hc _].
    cbn [js_quote]. destruct (is_high_surrogate c).
    + now rewrite (parse_unicode_escape c _ Hc).
    + rewrite <- app_assoc. now rewrite (parse_js_escape_unit c _ Hc).
  - split; [apply IH2|].
    intros c rest H. apply wf_str_cons in H. destruct H as [Hc Hds].
    rewrite js_quote_cons. destruct (is_high_surrogate c) eqn:Eh.
    + destruct (is_low_surrogate d) eqn:El.
      * apply wf_str_cons in Hds. destruct Hds as [_ Hs].
        cbn [app]. rewrite (parse_surrogate c) by (rewrite Eh; reflexivity).
        rewrite (parse_surrogate d) by (rewrite El; apply orb_true_r).
        now rewrite (IH1 rest Hs).
      * rewrite <- app_assoc. rewrite (parse_unicode_escape c _ Hc).
        now rewrite (IH2 d rest Hds).
    + rewrite <- app_assoc. rewrite (parse_js_escape_unit c _ Hc).
      now rewrite (IH2 d rest Hds).
Qed.

(** ** Number literals *)

Lemma delim_cons (c : N) (r : jsstring) :
  delim (c :: r) = true ->
  is_digit c = false /\ (c =? 46) = false /\ ((c =? 101) || (c =? 69)) = false
  /\ ((c =? 43) || (c =? 45)) = false /\ (c =? 45) = false.
Proof.
  unfold delim. intros H. apply negb_true_iff in H.
  repeat (apply orb_false_iff in H; destruct H as [H ?]).
  repeat split; try assumption.
  - apply orb_false_iff. now split.
  - apply orb_false_iff. now split.
Qed.

Lemma span_digits_app (s a b rest : jsstring) :
  span_digits s = (a, b) -> delim rest = true ->
  span_digits (s ++ rest) = (a, b ++ rest).
Proof.
  revert a b. induction s as [|c s IH]; intros a b H D.
  - injection H as <- <-. destruct rest as [|c r]; [reflexivity|].
    apply delim_cons in D. destruct D as [D _]. simpl. now rewrite D.
  - simpl in *. destruct (is_digit c).
    + destruct (span_digits s) as [ds r'] eqn:E. injection H as <- <-.
      now rewrite (IH ds r' eq_refl D).
    + now injection H as <- <-.
Qed.

Lemma span_digits_split (s a b : jsstring) :
  span_digits s = (a, b) -> s = a ++ b.
Proof.
  revert a b. induction s as [|c s IH]; intros a b H; simpl in H.
  - now injection H as <- <-.
  - destruct (is_digit c).
    + destruct (span_digits s) as [ds r'] eqn:E. injection H as <- <-.
      simpl. f_equal. now apply IH.
    + now injection H as <- <-.
Qed.

Lemma scan_sign_app (s a b rest : jsstring) :
  scan_sign s = (a, b) -> delim rest = true ->
  scan_sign (s ++ rest) = (a, b ++ rest).
Proof.
  intros H D. destruct s as [|c s]; simpl in *.
  - injection H as <- <-. destruct rest as [|c r]; [reflexivity|].
    apply delim_cons in D. destruct D as (_ & _ & _ & _ & D). simpl. now rewrite D.
  - destruct (c =? 45); now injection H as <- <-.
Qed.

Lemma scan_sign_split (s a b : jsstring) : scan_sign s = (a, b) -> s = a ++ b.
Proof.
  destruct s as [|c s]; simpl; intros H.
  - now injection H as <- <-.
  - destruct (c =? 45) eqn:E; injection H as <- <-; [|reflexivity].
    apply N.eqb_eq in E. now subst c.
Qed.

Lemma scan_int_app (s a b rest : jsstring) :
  scan_int s = Some (a, b) -> delim rest = true ->
  scan_int (s ++ rest) = Some (a, b ++ rest).
Proof.
  intros H D. destruct s as [|c s]; simpl in *; [discriminate|].
  destruct (c =? 48); [now injection H as <- <-|].
  destruct (is_digit c); [|discriminate].
  destruct (span_digits s) as [ds r'] eqn:E. injection H as <- <-.
  now rewrite (span_digits_app _ _ _ _ E D).
Qed.

Lemma scan_int_split (s a b : jsstring) : scan_int s = Some (a, b) -> s = a ++ b.
Proof.
  destruct s as [|c s]; simpl; intros H; [discriminate|].
  destruct (c =? 48) eqn:E0.
  - injection H as <- <-. apply N.eqb_eq in E0. now subst c.
  - destruct (is_digit c); [|discriminate].
    destruct (span_digits s) as [ds r'] eqn:E. injection H as <- <-.
    simpl. f_equal. now apply span_digits_split.
Qed.

Lemma scan_frac_app (s a b rest : jsstring) :
  scan_frac s = Some (a, b) -> delim rest = true ->
  scan_frac (s ++ rest) = Some (a, b ++ rest).
Proof.
  intros H D. destruct s as [|c s]; simpl in *.
  - injection H as <- <-. destruct rest as [|c r]; [reflexivity|].
    apply delim_cons in D. destruct D as (_ & D & _). simpl. now rewrite D.
  - destruct (c =? 46); [|now injection H as <- <-].
    destruct (span_digits s) as [ds r'] eqn:E.
    rewrite (span_digits_app _ _ _ _ E D).
    destruct ds; [discriminate|]. now injection H as <- <-.
Qed.

Lemma scan_frac_split (s a b : jsstring) : scan_frac s = Some (a, b) -> s = a ++ b.
Proof.
  destruct s as [|c s]; simpl; intros H.
  - now injection H as <- <-.
  - destruct (c =? 46) eqn:E0; [|now injection H as <- <-].
    destruct (span_digits s) as [ds r'] eqn:E.
    destruct ds; [discriminate|]. injection H as <- <-.
    apply N.eqb_eq in E0. subst c. simpl. f_equal.
    exact (span_digits_split _ _ _ E).
Qed.

Lemma scan_exp_sign_app (s a b rest : jsstring) :
  scan_exp_sign s = (a, b) -> delim rest = true ->
  scan_exp_sign (s ++ rest) = (a, b ++ rest).
Proof.
  intros H D. destruct s as [|c s]; simpl in *.
  - injection H as <- <-. destruct rest as [|c r]; [reflexivity|].
    apply delim_cons in D. destruct D as (_ & _ & _ & D & _). simpl. now rewrite D.
  - destruct ((c =? 43) || (c =? 45)); now injection H as <- <-.
Qed.

Lemma scan_exp_sign_split (s a b : jsstring) : scan_exp_sign s = (a, b) -> s = a ++ b.
Proof.
  destruct s as [|c s]; simpl; intros H.
  - now injection H as <- <-.
  - destruct ((c =? 43) || (c =? 45)); now injection H as <- <-.
Qed.

Lemma scan_exp_app (s a b rest : jsstring) :
  scan_exp s = Some (a, b) -> delim rest = true ->
  scan_exp (s ++ rest) = Some (a, b ++ rest).
Proof.
  intros H D. destruct s as [|c s]; simpl in *.
  - injection H as <- <-. destruct rest as [|c r]; [reflexivity|].
    apply delim_cons in D. destruct D as (_ & _ & D & _). simpl. now rewrite D.
  - destruct ((c =? 101) || (c =? 69)); [|now injection H as <- <-].
    destruct (scan_exp_sign s) as [sg r1] eqn:E1.
    rewrite (scan_exp_sign_app _ _ _ _ E1 D).
    destruct (span_digits r1) as [ds r2] eqn:E2.
    rewrite (span_digits_app _ _ _ _ E2 D).
    destruct ds; [discriminate|]. now injection H as <- <-.
Qed.

Lemma scan_exp_split (s a b : jsstring) : scan_exp s = Some (a, b) -> s = a ++ b.
Proof.
  destruct s as [|c s]; simpl; intros H.
  - now injection H as <- <-.
  - destruct ((c =? 101) || (c =? 69)); [|now injection H as <- <-].
    destruct (scan_exp_sign s) as [sg r1] eqn:E1.
    destruct (span_digits r1) as [ds r2] eqn:E2.
    destruct ds as [|d ds]; [discriminate|]. injection H as <- <-.
    apply scan_exp_sign_split in E1. apply span_digits_split in E2.
    subst s r1. simpl. now rewrite <- app_assoc.
Qed.

Lemma scan_number_app (s t b rest : jsstring) :
  scan_number s = Some (t, b) -> delim rest = true ->
  scan_number (s ++ rest) = Some (t, b ++ rest).
Proof.
  unfold scan_number. intros H D.
  destruct (scan_sign s) as [sg s0] eqn:E0.
  rewrite (scan_sign_app _ _ _ _ E0 D).
  destruct (scan_int s0) as [[i s1]|] eqn:E1; [|discriminate].
  rewrite (scan_int_app _ _ _ _ E1 D).
  destruct (scan_frac s1) as [[f s2]|] eqn:E2; [|discriminate].
  rewrite (scan_frac_app _ _ _ _ E2 D).
  destruct (scan_exp s2) as [[e s3]|] eqn:E3; [|discriminate].
  rewrite (scan_exp_app _ _ _ _ E3 D).
  now injection H as <- <-.
Qed.

Lemma scan_number_split (s t b : jsstring) :
  scan_number s = Some (t, b) -> s = t ++ b.
Proof.
  unfold scan_number. intros H.
  destruct (scan_sign s) as [sg s0] eqn:E0.
  destruct (scan_int s0) as [[i s1]|] eqn:E1; [|discriminate].
  destruct (scan_frac s1) as [[f s2]|] eqn:E2; [|discriminate].
  destruct (scan_exp s2) as [[e s3]|] eqn:E3; [|discriminate].
  injection H as <- <-.
  apply scan_sign_split in E0. apply scan_int_split in E1.
  apply scan_frac_split in E2. apply scan_exp_split in E3.
  subst. now rewrite <- !app_assoc.
Qed.

(** A literal followed by a delimiter is read back whole. *)
Lemma scan_number_ok (t rest : jsstring) :
  is_number t = true -> delim rest = true ->
  scan_number (t ++ rest) = Some (t, rest).
Proof.
  unfold is_number. intros H D.
  destruct (scan_number t) as [[t' b]|] eqn:E; [|discriminate].
  destruct b; [|discriminate].
  pose proof (scan_number_split _ _ _ E) as Hs. rewrite app_nil_r in Hs. subst t'.
  apply (scan_number_app _ _ _ _ E D).
Qed.

(** A literal starts with a minus sign or a digit. *)
Lemma number_head (t : jsstring) :
  is_number t = true ->
  exists c r, t = c :: r /\ (c = 45 \/ is_digit c = true).
Proof.
  unfold is_number, scan_number. intros H.
  destruct t as [|c r].
  - simpl in H. discriminate.
  - exists c, r. split; [reflexivity|].
    simpl in H. destruct (c =? 45) eqn:E.
    + left. now apply N.eqb_eq.
    + right. simpl in H. destruct (c =? 48) eqn:E0.
      * apply N.eqb_eq in E0. now subst c.
      * destruct (is_digit c); [reflexivity|discriminate].
Qed.

(* ====================================================================== *)
(** * Properties: what one runtime prints, the other reads back *)
(* ====================================================================== *)

(** Induction over values, with the hypothesis on every element of an array
    and every member of an object. *)
Lemma json_nested_ind (P : json -> Prop) :
  P JNull ->
  (forall b, P (JBool b)) ->
  (forall t, P (JNum t)) ->
  (forall s, P (JStr s)) ->
  (forall vs, Forall P vs -> P (JArr vs)) ->
  (forall ms, Forall (fun kv => P (snd kv)) ms -> P (JObj ms)) ->
  forall v, P v.
Proof.
  intros case_null case_bool case_num case_str case_arr case_obj.
  fix IH 1. intros [|b|t|s|vs|ms].
  - exact case_null.
  - apply case_bool.
  - apply case_num.
  - apply case_str.
  - apply case_arr. induction vs as [|x r IHr]; constructor; [apply IH|exact IHr].
  - apply case_obj. induction ms as [|kv r IHr]; constructor; [apply IH|exact IHr].
Qed.

Lemma skip_ws_app (p s : jsstring) :
  forallb is_json_ws p = true -> skip_ws (p ++ s) = skip_ws s.
Proof.
  induction p as [|c p IH]; simpl; intros H; [reflexivity|].
  apply andb_true_iff in H. destruct H as [Hc Hp]. rewrite Hc. now apply IH.
Qed.

Lemma skip_ws_start (c : N) (r : jsstring) :
  is_json_ws c = false -> skip_ws (c :: r) = c :: r.
Proof. intros H. simpl. now rewrite H. Qed.

Lemma digit_range (c : N) : is_digit c = true -> 48 <= c <= 57.
Proof.
  unfold is_digit. intros H. apply andb_true_iff in H.
  destruct H as [H1 H2]. apply N.leb_le in H1, H2. lia.
Qed.

Lemma eqb_out_of_range (c k : N) : 48 <= c <= 57 -> (k < 48 \/ 57 < k) -> (c =? k) = false.
Proof. intros H1 H2. apply N.eqb_neq. lia. Qed.

Lemma strip_prefix_head (k c : N) (p s : jsstring) :
  (k =? c) = false -> strip_prefix (k :: p) (c :: s) = None.
Proof. intros H. simpl. now rewrite H. Qed.

Lemma delim_comma r : delim (44 :: r) = true.
Proof. reflexivity. Qed.
Lemma delim_bracket r : delim (93 :: r) = true.
Proof. reflexivity. Qed.
Lemma delim_brace r : delim (125 :: r) = true.
Proof. reflexivity. Qed.

Lemma mem_str_app_false (k x : jsstring) (a b : list jsstring) :
  mem_str x (a ++ k :: b) = false -> str_eqb x k = false.
Proof.
  induction a as [|y a IH]; simpl; intros H; apply orb_false_iff in H; destruct H as [H1 H2].
  - destruct (str_eqb x k) eqn:E; [|reflexivity].
    apply str_eqb_eq in E. subst k. now rewrite str_eqb_refl in H1.
  - now apply IH.
Qed.

Lemma distinct_middle (k : jsstring) (a b : list jsstring) :
  distinct (a ++ k :: b) = true -> mem_str k a = false.
Proof.
  induction a as [|x a IH]; simpl; intros H; [reflexivity|].
  apply andb_true_iff in H. destruct H as [H1 H2].
  apply negb_true_iff in H1. rewrite (mem_str_app_false _ _ _ _ H1). now apply IH.
Qed.

Lemma obj_set_fresh (k : jsstring) (v : json) (acc : list (jsstring * json)) :
  mem_str k (List.map fst acc) = false -> obj_set k v acc = acc ++ [(k, v)].
Proof.
  induction acc as [|[k' v'] acc IH]; simpl; intros H; [reflexivity|].
  apply orb_false_iff in H. destruct H as [H1 H2]. rewrite H1. f_equal. now apply IH.
Qed.

Lemma obj_of_members_distinct (ms : list (jsstring * json)) :
  distinct (List.map fst ms) = true -> obj_of_members ms = ms.
Proof.
  unfold obj_of_members.
  enough (forall acc, distinct (List.map fst (acc ++ ms)) = true ->
                      fold_left (fun a kv => obj_set (fst kv) (snd kv) a) ms acc = acc ++ ms) as H.
  { intros D. apply (H [] D). }
  induction ms as [|[k v] ms IH]; intros acc D; simpl.
  - now rewrite app_nil_r.
  - rewrite obj_set_fresh.
    + rewrite IH; rewrite <- app_assoc; [reflexivity|exact D].
    + rewrite map_app in D. simpl in D. now apply distinct_middle in D.
Qed.

Section Roundtrip.

Variable nan : bool.
Variable quote : jsstring -> jsstring.
Variable pad : jsstring.

Hypothesis quote_ok : forall s rest,
    wf_str s = true -> parse_string_body (quote s ++ 34 :: rest) = Some (s, rest).
Hypothesis pad_ws : forallb is_json_ws pad = true.


Lemma parse_value_S (n : nat) (s : jsstring) :
  parse_value nan (S n) s =
  match skip_ws s with
  | [] => None
  | c :: r =>
      if c =? 123 then
        match skip_ws r with
        | [] => None
        | d :: r' =>
            if d =? 125 then Some (JObj [], r')
            else
              match parse_members nan n (d :: r') with
              | Some (ms, rest) => Some (JObj (obj_of_members ms), rest)
              | None => None
              end
        end
      else if c =? 91 then
        match skip_ws r with
        | [] => None
        | d :: r' =>
            if d =? 93 then Some (JArr [], r')
            else
              match parse_items nan n (d :: r') with
              | Some (vs, rest) => Some (JArr vs, rest)
              | None => None
              end
        end
      else if c =? 34 then
        match parse_string_body r with
        | Some (str, rest) => Some (JStr str, rest)
        | None => None
        end
      else scan_name nan (c :: r)
  end.
Proof. reflexivity. Qed.

Lemma parse_items_S (n : nat) (s : jsstring) :
  parse_items nan (S n) s =
  match parse_value nan n s with
  | None => None
  | Some (v, r) =>
      match skip_ws r with
      | [] => None
      | c :: r' =>
          if c =? 44 then
            match parse_items nan n r' with
            | Some (vs, rest) => Some (v :: vs, rest)
            | None => None
            end
          else if c =? 93 then Some ([v], r')
          else None
      end
  end.
Proof. reflexivity. Qed.

Lemma parse_members_S (n : nat) (s : jsstring) :
  parse_members nan (S n) s =
  match skip_ws s with
  | [] => None
  | q :: r0 =>
      if q =? 34 then
        match parse_string_body r0 with
        | None => None
        | Some (k, r1) =>
            match skip_ws r1 with
            | [] => None
            | colon :: r2 =>
                if colon =? 58 then
                  match parse_value nan n r2 with
                  | None => None
                  | Some (v, r3) =>
                      match skip_ws r3 with
                      | [] => None
                      | c :: r4 =>
                          if c =? 44 then
                            match parse_members nan n r4 with
                            | Some (ms, rest) => Some ((k, v) :: ms, rest)
                            | None => None
                            end
                          else if c =? 125 then Some ([(k, v)], r4)
                          else None
                      end
                  end
                else None
            end
        end
      else None
  end.
Proof. reflexivity. Qed.

Lemma parse_value_ws (p : jsstring) (n : nat) (s : jsstring) :
  forallb is_json_ws p = true -> parse_value nan n (p ++ s) = parse_value nan n s.
Proof.
  intros H. destruct n; [reflexivity|].
  now rewrite !parse_value_S, (skip_ws_app p s H).
Qed.

Lemma parse_items_ws (p : jsstring) (n : nat) (s : jsstring) :
  forallb is_json_ws p = true -> parse_items nan n (p ++ s) = parse_items nan n s.
Proof.
  intros H. destruct n; [reflexivity|].
  now rewrite !parse_items_S, (parse_value_ws p n s H).
Qed.

Lemma parse_members_ws (p : jsstring) (n : nat) (s : jsstring) :
  forallb is_json_ws p = true -> parse_members nan n (p ++ s) = parse_members nan n s.
Proof.
  intros H. destruct n; [reflexivity|].
  now rewrite !parse_members_S, (skip_ws_app p s H).
Qed.

(** A printed value starts with a character that is neither white space
    nor a closing bracket. *)
Lemma print_head (v : json) :
  wf v = true ->
  exists c r, print quote pad v = c :: r /\ is_json_ws c = false
              /\ (c =? 93) = false /\ (c =? 125) = false.
Proof.
  destruct v as [|[|]|t|s|vs|ms]; intros H; simpl.
  - exists 110, (js "ull"). now repeat split.
  - exists 116, (js "rue"). now repeat split.
  - exists 102, (js "alse"). now repeat split.
  - simpl in H. destruct (number_head t H) as (c & r & -> & [->|Hd]).
    + exists 45, r. now repeat split.
    + apply digit_range in Hd. exists c, r. split; [reflexivity|].
      unfold is_json_ws.
      rewrite !(eqb_out_of_range c) by (assumption || lia). now repeat split.
  - eexists 34, _. now repeat split.
  - eexists 91, _. now repeat split.
  - eexists 123, _. now repeat split.
Qed.

Lemma scan_name_number (t rest : jsstring) :
  is_number t = true -> delim rest = true ->
  scan_name nan (t ++ rest) = Some (JNum t, rest).
Proof.
  intros H D. pose proof (scan_number_ok t rest H D) as Hscan.
  destruct (number_head t H) as (c & r & -> & Hc).
  assert ((116 =? c) = false /\ (102 =? c) = false /\ (110 =? c) = false) as (H1 & H2 & H3).
  { destruct Hc as [->|Hd]; [now repeat split|].
    apply digit_range in Hd. repeat split; apply N.eqb_neq; lia. }
  unfold scan_name.
  change (js "true") with (116 :: js "rue").
  change (js "false") with (102 :: js "alse").
  change (js "null") with (110 :: js "ull").
  cbn [app] in *.
  rewrite !strip_prefix_head by assumption.
  now rewrite Hscan.
Qed.

Lemma items_read_back (vs : list json) :
  Forall (reads_back nan quote pad) vs -> forallb wf vs = true -> vs <> [] ->
  forall n rest, (items_cost vs <= n)%nat ->
    parse_items nan n (join (44 :: pad) (List.map (print quote pad) vs) ++ 93 :: rest) = Some (vs, rest).
Proof.
  induction 1 as [|v vs Hv Hvs IH]; intros W Hne n rest Hn; [now elim Hne|]. clear Hne.
  simpl in W. apply andb_true_iff in W. destruct W as [Wv Wvs].
  unfold items_cost in Hn. simpl in Hn. fold (items_cost vs) in Hn.
  destruct n as [|n]; [lia|]. rewrite parse_items_S.
  destruct vs as [|v2 vs].
  - cbn [List.map join].
    rewrite (Hv Wv n (93 :: rest)) by (lia || apply delim_bracket).
    reflexivity.
  - change (join (44 :: pad) (List.map (print quote pad) (v :: v2 :: vs)))
      with (print quote pad v ++ (44 :: pad) ++ join (44 :: pad) (List.map (print quote pad) (v2 :: vs))).
    rewrite <- ?app_assoc. cbn [app].
    rewrite (Hv Wv n) by (lia || apply delim_comma).
    cbn [skip_ws is_json_ws N.eqb Pos.eqb orb]. cbv iota.
    rewrite (parse_items_ws pad) by exact pad_ws.
    rewrite IH by (assumption || discriminate || lia).
    reflexivity.
Qed.

Lemma members_read_back (ms : list (jsstring * json)) :
  Forall (fun kv => reads_back nan quote pad (snd kv)) ms ->
  forallb (fun kv => wf_str (fst kv) && wf (snd kv)) ms = true -> ms <> [] ->
  forall n rest, (members_cost ms <= n)%nat ->
    parse_members nan n (join (44 :: pad) (List.map (print_member quote pad) ms) ++ 125 :: rest)
    = Some (ms, rest).
Proof.
  induction 1 as [|[k v] ms Hv Hms IH]; intros W Hne n rest Hn; [now elim Hne|]. clear Hne.
  simpl in W. apply andb_true_iff in W. destruct W as [Wkv Wms].
  apply andb_true_iff in Wkv. destruct Wkv as [Wk Wv].
  unfold members_cost in Hn. simpl in Hn. fold (members_cost ms) in Hn.
  destruct n as [|n]; [lia|]. rewrite parse_members_S.
  simpl in Hv.
  destruct ms as [|kv2 ms].
  - cbn [List.map join]. unfold print_member, print_string. cbn [fst snd].
    rewrite <- ?app_assoc. cbn [app]. rewrite <- ?app_assoc. cbn [app].
    cbn [skip_ws is_json_ws N.eqb Pos.eqb orb]. cbv iota.
    rewrite (quote_ok k _ Wk).
    cbn [skip_ws is_json_ws N.eqb Pos.eqb orb]. cbv iota.
    rewrite (parse_value_ws pad) by exact pad_ws.
    rewrite (Hv Wv n (125 :: rest)) by (lia || apply delim_brace).
    reflexivity.
  - change (join (44 :: pad) (List.map (print_member quote pad) ((k, v) :: kv2 :: ms)))
      with (print_member quote pad (k, v) ++ (44 :: pad)
            ++ join (44 :: pad) (List.map (print_member quote pad) (kv2 :: ms))).
    unfold print_member at 1, print_string. cbn [fst snd].
    rewrite <- ?app_assoc. cbn [app]. rewrite <- ?app_assoc. cbn [app].
    cbn [skip_ws is_json_ws N.eqb Pos.eqb orb]. cbv iota.
    rewrite (quote_ok k _ Wk).
    cbn [skip_ws is_json_ws N.eqb Pos.eqb orb]. cbv iota.
    rewrite (parse_value_ws pad) by exact pad_ws.
    rewrite <- ?app_assoc.
    rewrite (Hv Wv n) by (lia || apply delim_comma).
    cbn [skip_ws is_json_ws N.eqb Pos.eqb orb]. cbv iota.
    rewrite (parse_members_ws pad) by exact pad_ws.
    rewrite IH by (assumption || discriminate || lia).
    reflexivity.
Qed.

Lemma print_reads_back (v : json) : reads_back nan quote pad v.
Proof.
  induction v as [|b|t|s|vs IH|ms IH] using json_nested_ind;
    intros W n rest Hn D; (destruct n as [|n]; [simpl in Hn; lia|]).
  - reflexivity.
  - destruct b; reflexivity.
  - simpl in W. rewrite parse_value_S. cbn [print].
    destruct (number_head t W) as (c & r & E & Hc).
    assert (is_json_ws c = false /\ (c =? 123) = false /\ (c =? 91) = false
            /\ (c =? 34) = false) as (H0 & H1 & H2 & H3).
    { destruct Hc as [->|Hd]; [now repeat split|].
      apply digit_range in Hd. unfold is_json_ws.
      rewrite !(eqb_out_of_range c) by (assumption || lia). now repeat split. }
    pose proof (scan_name_number t rest W D) as Hs.
    rewrite E in *. cbn [app] in *.
    rewrite (skip_ws_start _ _ H0), H1, H2, H3. exact Hs.
  - simpl in W. rewrite parse_value_S. cbn [print]. unfold print_string.
    rewrite <- ?app_assoc. cbn [app]. rewrite <- ?app_assoc. cbn [app].
    cbn [skip_ws is_json_ws N.eqb Pos.eqb orb]. cbv iota.
    now rewrite (quote_ok s rest W).
  - simpl in W. rewrite parse_value_S. cbn [print].
    rewrite <- ?app_assoc. cbn [app]. rewrite <- ?app_assoc. cbn [app].
    cbn [skip_ws is_json_ws N.eqb Pos.eqb orb]. cbv iota.
    destruct vs as [|v vs]; [reflexivity|].
    pose proof (items_read_back (v :: vs) IH W ltac:(discriminate) n rest) as Hitems.
    assert (wf v = true) as Wv by (simpl in W; apply andb_true_iff in W; tauto).
    destruct (print_head v Wv) as (c & r & E & H0 & H1 & _).
    set (text := join (44 :: pad) (List.map (print quote pad) (v :: vs)) ++ 93 :: rest) in *.
    assert (exists tail, text = c :: tail) as [tail Ht].
    { subst text. destruct vs; cbn [List.map join]; rewrite E; eexists; reflexivity. }
    clearbody text. subst text.
    rewrite (skip_ws_start _ _ H0), H1.
    rewrite Hitems; [reflexivity|]. simpl in Hn. unfold items_cost. simpl. lia.
  - simpl in W. apply andb_true_iff in W. destruct W as [W Dk].
    rewrite parse_value_S. cbn [print].
    rewrite <- ?app_assoc. cbn [app]. rewrite <- ?app_assoc. cbn [app].
    cbn [skip_ws is_json_ws N.eqb Pos.eqb orb]. cbv iota.
    destruct ms as [|kv ms]; [reflexivity|].
    pose proof (members_read_back (kv :: ms) IH W ltac:(discriminate) n rest) as Hm.
    fold (print_member quote pad).
    change (@List.map (jsstring * json) (list N)) with (@List.map (jsstring * json) jsstring).
    set (text := join (44 :: pad) (List.map (print_member quote pad) (kv :: ms)) ++ 125 :: rest) in *.
    assert (exists tail, text = 34 :: tail) as [tail Ht].
    { subst text. destruct ms; cbn [List.map join]; eexists; reflexivity. }
    clearbody text. subst text.
    cbn [skip_ws is_json_ws N.eqb Pos.eqb orb]. cbv iota.
    rewrite Hm; [|simpl in Hn; unfold members_cost; simpl; lia].
    now rewrite (obj_of_members_distinct _ Dk).
Qed.

Lemma join_length_items (vs : list json) :
  Forall (fun v => wf v = true -> (cost v <= List.length (print quote pad v))%nat) vs ->
  forallb wf vs = true ->
  (items_cost vs <= S (List.length (join (44%N :: pad) (List.map (print quote pad) vs))))%nat.
Proof.
  induction 1 as [|v vs Hv Hvs IH]; intros W; [simpl; lia|].
  simpl in W. apply andb_true_iff in W. destruct W as [Wv Wvs].
  specialize (Hv Wv). specialize (IH Wvs).
  unfold items_cost in *. cbn [fold_right].
  destruct vs as [|v2 vs].
  - simpl. lia.
  - change (join (44 :: pad) (List.map (print quote pad) (v :: v2 :: vs)))
      with (print quote pad v ++ (44 :: pad) ++ join (44 :: pad) (List.map (print quote pad) (v2 :: vs))).
    rewrite !length_app. cbn [List.length]. lia.
Qed.

Lemma join_length_members (ms : list (jsstring * json)) :
  Forall (fun kv => wf (snd kv) = true -> (cost (snd kv) <= List.length (print quote pad (snd kv)))%nat) ms ->
  forallb (fun kv => wf_str (fst kv) && wf (snd kv)) ms = true ->
  (members_cost ms <= S (List.length (join (44%N :: pad) (List.map (print_member quote pad) ms))))%nat.
Proof.
  induction 1 as [|[k v] ms Hv Hms IH]; intros W; [simpl; lia|].
  simpl in W. apply andb_true_iff in W. destruct W as [Wkv Wms].
  apply andb_true_iff in Wkv. destruct Wkv as [_ Wv].
  specialize (Hv Wv). specialize (IH Wms). simpl in Hv.
  unfold members_cost in *. cbn [fold_right snd].
  assert (List.length (print quote pad v) <= List.length (print_member quote pad (k, v)))%nat as Hlen.
  { unfold print_member. cbn [fst snd]. rewrite !length_app. cbn [List.length].
    rewrite length_app. lia. }
  destruct ms as [|kv2 ms].
  - cbn [List.map join fold_right]. lia.
  - change (join (44 :: pad) (List.map (print_member quote pad) ((k, v) :: kv2 :: ms)))
      with (print_member quote pad (k, v) ++ (44 :: pad)
            ++ join (44 :: pad) (List.map (print_member quote pad) (kv2 :: ms))).
    rewrite !length_app. cbn [List.length]. lia.
Qed.

Lemma cost_le_length (v : json) :
  wf v = true -> (cost v <= List.length (print quote pad v))%nat.
Proof.
  induction v as [|b|t|s|vs IH|ms IH] using json_nested_ind; intros W.
  - simpl. lia.
  - destruct b; simpl; lia.
  - simpl in W. destruct (number_head t W) as (c & r & -> & _). simpl. lia.
  - simpl. lia.
  - simpl in W. pose proof (join_length_items vs IH W) as H.
    cbn [cost print]. fold (items_cost vs).
    cbn [List.length]. rewrite length_app. cbn [List.length]. lia.
  - simpl in W. apply andb_true_iff in W. destruct W as [W _].
    pose proof (join_length_members ms IH W) as H.
    cbn [cost print]. fold (members_cost ms). fold (print_member quote pad).
    change (@List.map (jsstring * json) (list N)) with (@List.map (jsstring * json) jsstring).
    cbn [List.length]. rewrite length_app. cbn [List.length]. lia.
Qed.

(** A printed document, followed by white space at most, parses to the
    value printed. *)
Lemma document_reads_back (v : json) (trailer : jsstring) :
  wf v = true -> delim trailer = true -> skip_ws trailer = [] ->
  parse_document nan (print quote pad v ++ trailer) = Some v.
Proof.
  intros W D T. unfold parse_document.
  rewrite (print_reads_back v W _ trailer); [now rewrite T| |exact D].
  pose proof (cost_le_length v W). unfold budget. rewrite length_app. lia.
Qed.

End Roundtrip.

(** [JSON.parse] reads what [print(json.dumps(v))] wrote. *)
Lemma json_dumps_parse (v : json) :
  wf v = true -> JSON_parse (json_dumps v ++ [10]) = Some v.
Proof.
  intros W. unfold JSON_parse, json_dumps.
  apply document_reads_back; try reflexivity; [|exact W].
  intros s rest. apply py_quote_ok.
Qed.

(** [json.loads] reads what [JSON.stringify(v)] wrote. *)
Lemma stringify_loads (v : json) :
  wf v = true -> json_loads (JSON_stringify v) = Some v.
Proof.
  intros W. unfold json_loads, JSON_stringify.
  rewrite <- (app_nil_r (print js_quote [] v)).
  apply document_reads_back; try reflexivity; [|exact W].
  intros s rest. apply js_quote_ok.
Qed.

(* ====================================================================== *)
(** * Properties: the parser's budget is never the reason of a failure *)
(* ====================================================================== *)

Lemma skip_ws_length (s : jsstring) : (List.length (skip_ws s) <= List.length s)%nat.
Proof.
  induction s as [|c s IH]; simpl; [lia|].
  destruct (is_json_ws c); simpl; lia.
Qed.

Lemma skip_ws_cons_length (s r : jsstring) (c : N) :
  skip_ws s = c :: r -> (List.length r < List.length s)%nat.
Proof.
  intros H. pose proof (skip_ws_length s) as L. rewrite H in L. simpl in L. lia.
Qed.

Lemma parse_string_body_length (s str r : jsstring) :
  parse_string_body s = Some (str, r) -> (List.length r < List.length s)%nat.
Proof.
  remember (List.length s) as n eqn:En.
  assert (List.length s <= n)%nat as Hn by lia. clear En.
  revert s str r Hn.
  induction n as [|n IH]; intros s str r Hn H.
  - destruct s; [discriminate|simpl in Hn; lia].
  - destruct s as [|c s]; [discriminate|]. simpl in Hn.
    cbn [parse_string_body] in H.
    destruct (c =? 34); [injection H as _ <-; simpl; lia|].
    destruct (c =? 92).
    + destruct s as [|e r1]; [discriminate|].
      destruct (e =? 117).
      * destruct r1 as [|h1 [|h2 [|h3 [|h4 r2]]]]; try discriminate.
        destruct (hex_val h1), (hex_val h2), (hex_val h3), (hex_val h4); try discriminate.
        destruct (parse_string_body r2) as [[str' rest]|] eqn:E; [|discriminate].
        injection H as _ <-. apply IH in E; simpl in *; lia.
      * destruct (simple_escape e); [|discriminate].
        destruct (parse_string_body r1) as [[str' rest]|] eqn:E; [|discriminate].
        injection H as _ <-. apply IH in E; simpl in *; lia.
    + destruct (c <? 32); [discriminate|].
      destruct (parse_string_body s) as [[str' rest]|] eqn:E; [|discriminate].
      injection H as _ <-. apply IH in E; simpl in *; lia.
Qed.

Lemma strip_prefix_length (p s r : jsstring) :
  strip_prefix p s = Some r -> List.length s = (List.length p + List.length r)%nat.
Proof.
  revert s. induction p as [|a p IH]; intros s H; simpl in H.
  - now injection H as <-.
  - destruct s as [|b s]; [discriminate|].
    destruct (a =? b); [|discriminate]. simpl. f_equal. now apply IH.
Qed.

Lemma scan_number_length (s t r : jsstring) :
  scan_number s = Some (t, r) -> (List.length r < List.length s)%nat.
Proof.
  intros H.
  assert (t <> []) as Ht.
  { unfold scan_number in H.
    destruct (scan_sign s) as [sg s0].
    destruct (scan_int s0) as [[i s1]|] eqn:Ei; [|discriminate].
    destruct (scan_frac s1) as [[f s2]|]; [|discriminate].
    destruct (scan_exp s2) as [[e s3]|]; [|discriminate].
    injection H as <- _.
    assert (i <> []) as Hi.
    { destruct s0 as [|c r0]; [discriminate|]. simpl in Ei.
      destruct (c =? 48); [now injection Ei as <- _|].
      destruct (is_digit c); [|discriminate].
      destruct (span_digits r0). now injection Ei as <- _. }
    destruct sg, i; simpl; congruence. }
  pose proof (scan_number_split _ _ _ H) as ->.
  rewrite length_app. destruct t; [congruence|simpl; lia].
Qed.

Lemma scan_name_length (nan : bool) (s r : jsstring) (v : json) :
  scan_name nan s = Some (v, r) -> (List.length r < List.length s)%nat.
Proof.
  unfold scan_name. intros H.
  assert (forall p r', p <> [] -> strip_prefix p s = Some r' ->
                       (List.length r' < List.length s)%nat) as Hp.
  { intros p r' Hne E. apply strip_prefix_length in E. rewrite E.
    destruct p; [congruence|simpl; lia]. }
  destruct (strip_prefix (js "true") s) eqn:E1;
    [injection H as _ <-; apply (Hp (js "true") _ ltac:(discriminate) E1)|].
  destruct (strip_prefix (js "false") s) eqn:E2;
    [injection H as _ <-; apply (Hp (js "false") _ ltac:(discriminate) E2)|].
  destruct (strip_prefix (js "null") s) eqn:E3;
    [injection H as _ <-; apply (Hp (js "null") _ ltac:(discriminate) E3)|].
  destruct (scan_number s) as [[t r']|] eqn:E4;
    [injection H as _ <-; now apply scan_number_length in E4|].
  destruct nan; [|discriminate].
  destruct (strip_prefix (js "NaN") s) eqn:E5;
    [injection H as _ <-; apply (Hp (js "NaN") _ ltac:(discriminate) E5)|].
  destruct (strip_prefix (js "Infinity") s) eqn:E6;
    [injection H as _ <-; apply (Hp (js "Infinity") _ ltac:(discriminate) E6)|].
  destruct (strip_prefix (js "-Infinity") s) eqn:E7;
    [injection H as _ <-; apply (Hp (js "-Infinity") _ ltac:(discriminate) E7)|].
  discriminate.
Qed.

Section Budget.

Variable nan : bool.

(** Every successful parse consumes at least one character. *)
Lemma parse_consumes (n : nat) :
  (forall s v r, parse_value nan n s = Some (v, r) -> (List.length r < List.length s)%nat)
  /\ (forall s vs r, parse_items nan n s = Some (vs, r) -> (List.length r < List.length s)%nat)
  /\ (forall s ms r, parse_members nan n s = Some (ms, r) -> (List.length r < List.length s)%nat).
Proof.
  induction n as [|n (IHv & IHi & IHm)]; [repeat split; discriminate|].
  repeat split.
  - intros s v r. rewrite parse_value_S.
    destruct (skip_ws s) as [|c r0] eqn:Es; [discriminate|].
    pose proof (skip_ws_cons_length _ _ _ Es) as L0.
    pose proof (skip_ws_length s) as L0'. rewrite Es in L0'. simpl in L0'.
    destruct (c =? 123).
    { destruct (skip_ws r0) as [|d r'] eqn:Er; [discriminate|].
      pose proof (skip_ws_length r0) as L1. rewrite Er in L1. simpl in L1.
      destruct (d =? 125); [intros H; injection H as _ <-; lia|].
      destruct (parse_members nan n (d :: r')) as [[ms rest]|] eqn:E; [|discriminate].
      intros H. injection H as _ <-. apply IHm in E. simpl in E. lia. }
    destruct (c =? 91).
    { destruct (skip_ws r0) as [|d r'] eqn:Er; [discriminate|].
      pose proof (skip_ws_length r0) as L1. rewrite Er in L1. simpl in L1.
      destruct (d =? 93); [intros H; injection H as _ <-; lia|].
      destruct (parse_items nan n (d :: r')) as [[vs rest]|] eqn:E; [|discriminate].
      intros H. injection H as _ <-. apply IHi in E. simpl in E. lia. }
    destruct (c =? 34).
    { destruct (parse_string_body r0) as [[str rest]|] eqn:E; [|discriminate].
      intros H. injection H as _ <-. apply parse_string_body_length in E. lia. }
    intros H. apply scan_name_length in H. simpl in H. lia.
  - intros s vs r. rewrite parse_items_S.
    destruct (parse_value nan n s) as [[v r0]|] eqn:E; [|discriminate].
    apply IHv in E.
    destruct (skip_ws r0) as [|c r'] eqn:Er; [discriminate|].
    pose proof (skip_ws_length r0) as L1. rewrite Er in L1. simpl in L1.
    destruct (c =? 44).
    { destruct (parse_items nan n r') as [[vs' rest]|] eqn:E'; [|discriminate].
      intros H. injection H as _ <-. apply IHi in E'. lia. }
    destruct (c =? 93); [|discriminate].
    intros H. injection H as _ <-. lia.
  - intros s ms r. rewrite parse_members_S.
    destruct (skip_ws s) as [|q r0] eqn:Es; [discriminate|].
    pose proof (skip_ws_length s) as L0. rewrite Es in L0. simpl in L0.
    destruct (q =? 34); [|discriminate].
    destruct (parse_string_body r0) as [[k r1]|] eqn:Ek; [|discriminate].
    apply parse_string_body_length in Ek.
    destruct (skip_ws r1) as [|colon r2] eqn:E1; [discriminate|].
    pose proof (skip_ws_length r1) as L1. rewrite E1 in L1. simpl in L1.
    destruct (colon =? 58); [|discriminate].
    destruct (parse_value nan n r2) as [[v r3]|] eqn:Ev; [|discriminate].
    apply IHv in Ev.
    destruct (skip_ws r3) as [|c r4] eqn:E3; [discriminate|].
    pose proof (skip_ws_length r3) as L3. rewrite E3 in L3. simpl in L3.
    destruct (c =? 44).
    { destruct (parse_members nan n r4) as [[ms' rest]|] eqn:E'; [|discriminate].
      intros H. injection H as _ <-. apply IHm in E'. lia. }
    destruct (c =? 125); [|discriminate].
    intros H. injection H as _ <-. lia.
Qed.

(** Past twice the length of the input, more budget changes nothing. *)
Lemma parse_stable (n : nat) :
  (forall s m, (2 * List.length s + 1 <= n)%nat -> (n <= m)%nat ->
               parse_value nan m s = parse_value nan n s)
  /\ (forall s m, (2 * List.length s + 2 <= n)%nat -> (n <= m)%nat ->
                  parse_items nan m s = parse_items nan n s)
  /\ (forall s m, (2 * List.length s + 1 <= n)%nat -> (n <= m)%nat ->
                  parse_members nan m s = parse_members nan n s).
Proof.
  induction n as [|n (IHv & IHi & IHm)]; [repeat split; intros; lia|].
  destruct (parse_consumes n) as (Cv & Ci & Cm).
  repeat split.
  - intros s [|m] Hn Hm; [lia|]. rewrite !parse_value_S.
    destruct (skip_ws s) as [|c r0] eqn:Es; [reflexivity|].
    pose proof (skip_ws_length s) as L0. rewrite Es in L0. simpl in L0.
    destruct (c =? 123).
    { destruct (skip_ws r0) as [|d r'] eqn:Er; [reflexivity|].
      pose proof (skip_ws_length r0) as L1. rewrite Er in L1. simpl in L1.
      destruct (d =? 125); [reflexivity|].
      rewrite (IHm (d :: r') m) by (simpl; lia). reflexivity. }
    destruct (c =? 91).
    { destruct (skip_ws r0) as [|d r'] eqn:Er; [reflexivity|].
      pose proof (skip_ws_length r0) as L1. rewrite Er in L1. simpl in L1.
      destruct (d =? 93); [reflexivity|].
      rewrite (IHi (d :: r') m) by (simpl; lia). reflexivity. }
    reflexivity.
  - intros s [|m] Hn Hm; [lia|]. rewrite !parse_items_S.
    rewrite (IHv s m) by lia.
    destruct (parse_value nan n s) as [[v r0]|] eqn:E; [|reflexivity].
    apply Cv in E.
    destruct (skip_ws r0) as [|c r'] eqn:Er; [reflexivity|].
    pose proof (skip_ws_length r0) as L1. rewrite Er in L1. simpl in L1.
    destruct (c =? 44); [|reflexivity].
    rewrite (IHi r' m) by lia. reflexivity.
  - intros s [|m] Hn Hm; [lia|]. rewrite !parse_members_S.
    destruct (skip_ws s) as [|q r0] eqn:Es; [reflexivity|].
    pose proof (skip_ws_length s) as L0. rewrite Es in L0. simpl in L0.
    destruct (q =? 34); [|reflexivity].
    destruct (parse_string_body r0) as [[k r1]|] eqn:Ek; [|reflexivity].
    apply parse_string_body_length in Ek.
    destruct (skip_ws r1) as [|colon r2] eqn:E1; [reflexivity|].
    pose proof (skip_ws_length r1) as L1. rewrite E1 in L1. simpl in L1.
    destruct (colon =? 58); [|reflexivity].
    rewrite (IHv r2 m) by lia.
    destruct (parse_value nan n r2) as [[v r3]|] eqn:Ev; [|reflexivity].
    apply Cv in Ev.
    destruct (skip_ws r3) as [|c r4] eqn:E3; [reflexivity|].
    pose proof (skip_ws_length r3) as L3. rewrite E3 in L3. simpl in L3.
    destruct (c =? 44); [|reflexivity].
    rewrite (IHm r4 m) by lia. reflexivity.
Qed.

(** A document parses with some budget exactly when it parses with the
    budget [parse_document] grants. *)
Lemma parse_value_stable (s : jsstring) (m : nat) :
  (budget s <= m)%nat -> parse_value nan m s = parse_value nan (budget s) s.
Proof.
  intros H. apply (proj1 (parse_stable (budget s))); [unfold budget; lia|exact H].
Qed.

End Budget.

(* ====================================================================== *)
(** * Properties: one worker invocation *)
(* ====================================================================== *)

Lemma listen_with_data (closing : option Z -> jsstring -> jsstring -> settled)
  (chunks : list (stream * jsstring)) (st : invocation) :
  uncaught st = None ->
  fold_left (listen_with closing) (List.map data_event chunks) st =
  {| result := result st ++ text_of Stdout chunks;
     error_text := error_text st ++ text_of Stderr chunks;
     promise := promise st; uncaught := None |}.
Proof.
  revert st. induction chunks as [|[[|] t] chunks IH]; intros st H.
  - simpl. rewrite !app_nil_r. destruct st; simpl in *. now subst.
  - cbn [List.map fold_left]. rewrite IH.
    + unfold listen_with, data_event. cbn [fst snd]. rewrite H.
      cbn [result error_text promise text_of]. now rewrite <- app_assoc.
    + unfold listen_with, data_event. cbn [fst snd]. now rewrite H.
  - cbn [List.map fold_left]. rewrite IH.
    + unfold listen_with, data_event. cbn [fst snd]. rewrite H.
      cbn [result error_text promise text_of]. now rewrite <- app_assoc.
    + unfold listen_with, data_event. cbn [fst snd]. now rewrite H.
Qed.

Lemma listen_with_life (closing : option Z -> jsstring -> jsstring -> settled)
  (chunks : list (stream * jsstring)) (code : option Z) :
  fold_left (listen_with closing) (life chunks code) start =
  {| result := text_of Stdout chunks; error_text := text_of Stderr chunks;
     promise := closing code (text_of Stdout chunks) (text_of Stderr chunks);
     uncaught := None |}.
Proof.
  unfold life. rewrite fold_left_app, listen_with_data by reflexivity.
  reflexivity.
Qed.

(** However the output is cut into chunks, the [close] listener sees the
    whole of both streams. *)
Lemma deliver_life (chunks : list (stream * jsstring)) (code : option Z) :
  deliver (life chunks code) =
  {| result := text_of Stdout chunks; error_text := text_of Stderr chunks;
     promise := on_close code (text_of Stdout chunks) (text_of Stderr chunks);
     uncaught := None |}.
Proof. apply listen_with_life. Qed.

Lemma deliver_extract_life (chunks : list (stream * jsstring)) (code : option Z) :
  deliver_extract (life chunks code) =
  {| result := text_of Stdout chunks; error_text := text_of Stderr chunks;
     promise := on_close_extract code (text_of Stdout chunks) (text_of Stderr chunks);
     uncaught := None |}.
Proof. apply listen_with_life. Qed.

(** The events of a finished process are one such life. *)
Lemma events_of_life (p : process) :
  exists chunks, events_of p = life chunks (status p)
                 /\ text_of Stdout chunks = out p /\ text_of Stderr chunks = err p.
Proof.
  destruct p as [st [|c o] [|c' e]]; unfold events_of, life; cbn [out err status data_events].
  - exists []. now repeat split.
  - exists [(Stderr, c' :: e)]. repeat split; simpl; now rewrite ?app_nil_r.
  - exists [(Stdout, c :: o)]. repeat split; simpl; now rewrite ?app_nil_r.
  - exists [(Stdout, c :: o); (Stderr, c' :: e)]. repeat split; simpl; now rewrite ?app_nil_r.
Qed.

Lemma deliver_events_of (p : process) :
  deliver (events_of p) =
  {| result := out p; error_text := err p;
     promise := on_close (status p) (out p) (err p); uncaught := None |}.
Proof.
  destruct (events_of_life p) as (chunks & -> & H1 & H2).
  now rewrite deliver_life, H1, H2.
Qed.

Lemma extract_events_of (p : process) :
  deliver_extract (events_of p) =
  {| result := out p; error_text := err p;
     promise := on_close_extract (status p) (out p) (err p); uncaught := None |}.
Proof.
  destruct (events_of_life p) as (chunks & -> & H1 & H2).
  now rewrite deliver_extract_life, H1, H2.
Qed.

(** With an interpreter, an invocation is the [close] listener applied to
    what the script left. *)
Lemma runPythonInline_available (W : World) (code : jsstring -> script json) (input : json) :
  python_available W = true ->
  runPythonInline W code input =
  let p := run (code (input_string input)) in
  {| result := out p; error_text := err p;
     promise := on_close (status p) (out p) (err p); uncaught := None |}.
Proof.
  intros H. unfold runPythonInline, spawn. rewrite H. apply deliver_events_of.
Qed.

(** A script that prints a value both runtimes can exchange resolves the
    promise with that value. *)
Lemma invoke_printed (W : World) (code : jsstring -> script json) (input : json)
  (calls : list call) (v : json) :
  python_available W = true ->
  code (input_string input) = (calls, Ret v) ->
  wf v = true ->
  promise (runPythonInline W code input) = Resolved v.
Proof.
  intros HW Hrun Hwf. rewrite (runPythonInline_available W code input HW).
  unfold run. rewrite Hrun. cbn [snd promise out err status].
  unfold on_close. cbn [exited_zero Z.eqb negb].
  now rewrite (json_dumps_parse v Hwf).
Qed.


(** What [json.loads] finds on stdin is the request. *)
Lemma read_stdin_stringify (v : json) :
  wf v = true -> read_stdin (JSON_stringify v) = Ret v.
Proof.
  intros W. unfold read_stdin.
  destruct (print_head js_quote [] v W) as (c & r & E & _).
  fold (JSON_stringify v) in E. rewrite E. cbv iota. rewrite <- E.
  now rewrite (stringify_loads v W).
Qed.

(** ** When a promise settles *)

Lemma listen_with_uncaught (closing : option Z -> jsstring -> jsstring -> settled)
  (child : list child_event) (st : invocation) (e : jsstring) :
  uncaught st = Some e -> fold_left (listen_with closing) child st = st.
Proof.
  intros H. induction child as [|ev child IH]; [reflexivity|].
  cbn [fold_left]. unfold listen_with at 2. now rewrite H.
Qed.

Lemma listen_with_settled (closing : option Z -> jsstring -> jsstring -> settled)
  (child : list child_event) (st : invocation) :
  promise st <> Pending ->
  promise (fold_left (listen_with closing) child st) = promise st.
Proof.
  revert st. induction child as [|ev child IH]; intros st H; [reflexivity|].
  cbn [fold_left]. rewrite IH.
  - unfold listen_with. destruct (uncaught st); [reflexivity|].
    destruct ev; cbn [promise]; try reflexivity.
    destruct (promise st); [contradiction|reflexivity|reflexivity].
  - unfold listen_with. destruct (uncaught st); [exact H|].
    destruct ev; cbn [promise]; try exact H.
    destruct (promise st); [contradiction|discriminate|discriminate].
Qed.

Lemma on_close_settles (code : option Z) (out err : jsstring) :
  on_close code out err <> Pending.
Proof.
  unfold on_close. destruct (negb (exited_zero code)); [discriminate|].
  destruct (JSON_parse out); discriminate.
Qed.

Lemma on_close_extract_settles (code : option Z) (out err : jsstring) :
  on_close_extract code out err <> Pending.
Proof.
  unfold on_close_extract. destruct (negb (exited_zero code)); [discriminate|].
  destruct (JSON_parse out); discriminate.
Qed.

(** The promise of a spawning function settles exactly when a [close] event
    is delivered with no ['error'] event before it. *)
Lemma settles_iff_closes (closing : option Z -> jsstring -> jsstring -> settled)
  (child : list child_event) (st : invocation) :
  (forall code out err, closing code out err <> Pending) ->
  uncaught st = None -> promise st = Pending ->
  (promise (fold_left (listen_with closing) child st) <> Pending <-> closes child = true).
Proof.
  intros Hc. revert st. induction child as [|ev child IH]; intros st Hu Hp.
  - simpl. rewrite Hp. split; [intros H; now elim H|discriminate].
  - cbn [fold_left]. destruct ev as [chunk|chunk|code|e|e]; cbn [closes].
    + apply IH; unfold listen_with; rewrite Hu; [reflexivity|exact Hp].
    + apply IH; unfold listen_with; rewrite Hu; [reflexivity|exact Hp].
    + split; [reflexivity|]. intros _.
      rewrite listen_with_settled; unfold listen_with; rewrite Hu; cbn [promise];
        rewrite Hp; apply Hc.
    + rewrite (listen_with_uncaught closing child _ e).
      * unfold listen_with. rewrite Hu. cbn [promise]. rewrite Hp.
        split; [intros H; now elim H|discriminate].
      * unfold listen_with. now rewrite Hu.
    + rewrite (listen_with_uncaught closing child _ e).
      * unfold listen_with. rewrite Hu. cbn [promise]. rewrite Hp.
        split; [intros H; now elim H|discriminate].
      * unfold listen_with. now rewrite Hu.
Qed.

(* ====================================================================== *)
(** * The claims of the specification *)
(* ====================================================================== *)

(** C1, as the code has it.  A worker closes with status 0 after any
    sequence of output chunks.  Through [#runPythonInline] the promise
    resolves with the parsed value when the whole of stdout is one JSON
    value, and with [{output: stdout.trim()}] otherwise.  Through
    [extractTextFromFile] it resolves with the parsed value too, but the
    fallback object is [{text: stdout.trim()}]. *)
Theorem exit_zero_outcome (chunks : list (stream * jsstring)) :
  let stdout := text_of Stdout chunks in
  promise (deliver (life chunks (Some 0%Z))) =
    match JSON_parse stdout with
    | Some parsed => Resolved parsed
    | None => Resolved (JObj [(js "output", JStr (trim stdout))])
    end
  /\ promise (deliver_extract (life chunks (Some 0%Z))) =
    match JSON_parse stdout with
    | Some parsed => Resolved parsed
    | None => Resolved (JObj [(js "text", JStr (trim stdout))])
    end.
Proof.
  intros stdout. rewrite deliver_life, deliver_extract_life. split; reflexivity.
Qed.

(** C1 fails as stated: [extractTextFromFile] on a pdf whose extractor
    prints plain text and exits with status 0 does not return
    [{output: ...}]. *)
Lemma extract_fallback_is_text :
  let inv := extractTextFromFile Scenarios.usual (js "/evidence/scan.pdf")
                                 (Some (JStr (js "pdf"))) in
  JSON_parse (js "scanned page, no structure") = None
  /\ promise inv = Resolved (JObj [(js "text", JStr (js "scanned page, no structure"))])
  /\ promise inv <>
     Resolved (JObj [(js "output", JStr (trim (js "scanned page, no structure")))]).
Proof.
  vm_compute. repeat split; discriminate.
Qed.

(** C2, as the code has it.  A worker whose events are output chunks
    followed by [close] with a status [c] other than 0, no ['error'] event
    among them.  Whatever the chunking, the promise of [#runPythonInline] is
    rejected with an error whose message is
    [Python exited with code c: ] followed by stderr, or by stdout when
    stderr is empty, and nothing is thrown past the listeners.  The promise
    of [extractTextFromFile] is rejected with
    [Python process exited with code c: ] followed by stderr alone.  When
    the worker is the one of complete-analysis, the handler answers 500 with
    the object [{message: "Complete analysis failed: " + message}]. *)
Theorem nonzero_exit_is_reported (c : Z) (chunks : list (stream * jsstring)) :
  (c =? 0)%Z = false ->
  let stdout := text_of Stdout chunks in
  let stderr := text_of Stderr chunks in
  let report :=
    js "Python exited with code " ++ decimal_of_Z c ++ js ": "
    ++ match stderr with
       | [] => stdout
       | _ :: _ => stderr
       end in
  deliver (life chunks (Some c))
  = {| result := stdout; error_text := stderr;
       promise := Rejected report; uncaught := None |}
  /\ deliver_extract (life chunks (Some c))
     = {| result := stdout; error_text := stderr;
          promise := Rejected (js "Python process exited with code " ++ decimal_of_Z c
                               ++ js ": " ++ stderr);
          uncaught := None |}
  /\ (forall (W : World) (req_body : json),
        spawn W (run (complete_analysis_py W (input_string req_body)))
        = life chunks (Some c) ->
        post_complete_analysis W req_body =
        Some {| http_status := 500;
                body := JObj [(js "message",
                               JStr (js "Complete analysis failed: " ++ report))] |}).
Proof.
  intros Hc stdout stderr report.
  assert (Hclose : on_close (Some c) stdout stderr = Rejected report).
  { unfold on_close. cbn [exited_zero]. rewrite Hc. cbn [negb].
    subst report. unfold or_else. destruct stderr; reflexivity. }
  split; [|split].
  - rewrite deliver_life. fold stdout stderr. now rewrite Hclose.
  - rewrite deliver_extract_life. fold stdout stderr.
    unfold on_close_extract. cbn [exited_zero]. now rewrite Hc.
  - intros W req_body Hspawn.
    unfold post_complete_analysis, completeAnalysis, runPythonInline.
    rewrite Hspawn, deliver_life. cbn [promise]. fold stdout stderr.
    rewrite Hclose. reflexivity.
Qed.

Lemma nonzero_exit_is_reported_witness :
  promise (deliver (life [(Stdout, js "partial"); (Stderr, js "Killed")] (Some 137%Z)))
    = Rejected (js "Python exited with code 137: Killed")
  /\ promise (deliver (life [(Stdout, js "no such "); (Stdout, js "model")] (Some 2%Z)))
     = Rejected (js "Python exited with code 2: no such model")
  /\ promise (deliver_extract (life [(Stdout, js "partial"); (Stderr, js "Killed")]
                                    (Some 137%Z)))
     = Rejected (js "Python process exited with code 137: Killed")
  /\ post_complete_analysis Scenarios.killed Scenarios.only_complaint =
     Some {| http_status := 500;
             body := JObj [(js "message",
                            JStr (js "Complete analysis failed: Python exited with code 137: Killed"))] |}.
Proof.
  pose proof (nonzero_exit_is_reported
                137%Z [(Stdout, js "partial"); (Stderr, js "Killed")] eq_refl) as H.
  pose proof (nonzero_exit_is_reported
                2%Z [(Stdout, js "no such "); (Stdout, js "model")] eq_refl) as H'.
  pose proof (nonzero_exit_is_reported 137%Z [(Stderr, js "Killed")] eq_refl) as H''.
  cbv zeta in H, H', H''.
  destruct H as (H1 & H2 & _). destruct H' as (H3 & _ & _). destruct H'' as (_ & _ & H4).
  split; [rewrite H1; reflexivity|].
  split; [rewrite H3; reflexivity|].
  split; [rewrite H2; reflexivity|].
  exact (H4 Scenarios.killed Scenarios.only_complaint eq_refl).
Defined.

(** C2 fails as stated, in two ways.  Through [extractTextFromFile] the
    diagnostic is stderr alone: what a failing extractor wrote to stdout is
    lost.  And a worker can close with a non-zero status while the
    orchestrator goes down: when the child goes away without reading its
    input, the write to its stdin fails, the stream emits ['error'], nothing
    listens for it, and the exception ends the process before the [close]
    listener runs. *)
Lemma nonzero_exit_goes_unreported :
  promise (deliver_extract (life [(Stdout, js "cannot open the file")] (Some 1%Z)))
    = Rejected (js "Python process exited with code 1: ")
  /\ (let inv := deliver [stdin_error (js "write EPIPE");
                          stderr_data (js "ModuleNotFoundError: No module named 'contradict'");
                          close (Some 1%Z)] in
      promise inv = Pending /\ uncaught inv = Some (js "write EPIPE")).
Proof.
  vm_compute. repeat split; reflexivity.
Qed.

(** C3 fails as stated: with no interpreter to start, the child emits
    ['error'] only; no listener takes it, the promise stays pending and the
    handler never answers. *)
Lemma spawn_failure_never_settles :
  let inv := runPythonInline Scenarios.no_python
               (complete_analysis_py Scenarios.no_python) Scenarios.only_complaint in
  promise inv = Pending
  /\ uncaught inv = Some (js "spawn python ENOENT")
  /\ completeAnalysis Scenarios.no_python Scenarios.only_complaint = Pending
  /\ post_complete_analysis Scenarios.no_python Scenarios.only_complaint = None
  /\ promise (extractTextFromFile Scenarios.no_python (js "/evidence/scan.pdf")
                                  (Some (JStr (js "pdf")))) = Pending.
Proof.
  vm_compute. repeat split; reflexivity.
Qed.

(** C3, as the code has it.  The promise of either spawning function
    settles exactly when the child's [close] event is delivered with no
    ['error'] event before it.  A file type outside the four known ones makes
    [extractTextFromFile] fail at once, no child being started. *)
Theorem settles_when_closed (child : list child_event) :
  (promise (deliver child) <> Pending <-> closes child = true)
  /\ (promise (deliver_extract child) <> Pending <-> closes child = true)
  /\ (forall (W : World) (filePath t : jsstring),
        file_type_of (toLowerCase t) = None ->
        extractTextFromFile W filePath (Some (JStr t)) =
        {| result := []; error_text := [];
           promise := Rejected (js "Text extraction failed: Unsupported file type: " ++ t);
           uncaught := None |}).
Proof.
  split; [|split].
  - apply settles_iff_closes; [apply on_close_settles|reflexivity|reflexivity].
  - apply settles_iff_closes; [apply on_close_extract_settles|reflexivity|reflexivity].
  - intros W filePath t Ht. unfold extractTextFromFile. now rewrite Ht.
Qed.

Lemma settles_when_closed_witness :
  promise (extractTextFromFile Scenarios.usual (js "/evidence/notes.docx")
                               (Some (JStr (js "DOCX"))))
    = Rejected (js "Text extraction failed: Unsupported file type: DOCX")
  /\ promise (deliver [stdout_data (js "{}"); close (Some 0%Z)]) <> Pending.
Proof.
  destruct (settles_when_closed [stdout_data (js "{}"); close (Some 0%Z)]) as (H1 & _ & H3).
  split.
  - now rewrite (H3 Scenarios.usual (js "/evidence/notes.docx") (js "DOCX") eq_refl).
  - apply H1. reflexivity.
Defined.

(** ** Running a script *)

Lemma bind_lift_ret {A B : Type} (a : A) (k : A -> script B) :
  bind (lift (Ret a)) k = k a.
Proof. unfold bind, lift. now destruct (k a). Qed.

Lemma bind_ret {A B : Type} (a : A) (k : A -> script B) :
  bind (ret a) k = k a.
Proof. unfold bind, ret. now destruct (k a). Qed.

Lemma bind_ext_ret {A B : Type} (c : call) (a : A) (k : A -> script B) :
  bind (ext c (Ret a)) k = (c :: fst (k a), snd (k a)).
Proof. unfold bind, ext. now destruct (k a). Qed.

Lemma bind_inv {A B : Type} (m : script A) (k : A -> script B) (l : list call) (b : B) :
  bind m k = (l, Ret b) ->
  exists l1 a l2, m = (l1, Ret a) /\ k a = (l2, Ret b) /\ l = l1 ++ l2.
Proof.
  destruct m as [l1 [a|st d]]; unfold bind; [|discriminate].
  destruct (k a) as [l2 r] eqn:E. intros H. injection H as <- ->.
  now exists l1, a, l2.
Qed.

Lemma get_present (k : string) (v default : json) (ms : list (jsstring * json)) :
  obj_get (js k) ms = Some v -> get (JObj ms) k default = Ret v.
Proof. intros H. unfold get. now rewrite H. Qed.

Lemma get_absent (k : string) (default : json) (ms : list (jsstring * json)) :
  obj_get (js k) ms = None -> get (JObj ms) k default = Ret default.
Proof. intros H. unfold get. now rewrite H. Qed.





(** A request that carries a complaint only: no extractor is called and
    every evidence text is empty. *)
Lemma plain_number_is_number (t : jsstring) :
  Exchange.plain_number t = true -> is_number t = true.
Proof.
  unfold Exchange.plain_number. intros H.
  repeat (apply andb_prop in H; destruct H as [H _]). exact H.
Qed.

Lemma plain_wf (v : json) : Exchange.plain v = true -> wf v = true.
Proof.
  induction v as [| b | t | s | vs IH | ms IH] using json_nested_ind;
    cbn [Exchange.plain wf]; intros H; try exact H.
  - apply plain_number_is_number, H.
  - rewrite forallb_forall in *. rewrite Forall_forall in IH.
    intros x Hx. apply IH; [exact Hx | apply H, Hx].
  - apply andb_prop in H. destruct H as [H Hd]. rewrite Hd, andb_true_r.
    rewrite forallb_forall in *. rewrite Forall_forall in IH.
    intros kv Hkv. specialize (H kv Hkv). apply andb_prop in H. destruct H as [Hk Hv].
    rewrite Hk. apply (IH kv Hkv Hv).
Qed.

Lemma exact_wf (v : json) : Exchange.exact v = true -> wf v = true.
Proof.
  unfold Exchange.exact. intros H. apply andb_prop in H. apply plain_wf, H.
Qed.

Lemma gather_bare_evidence (W : World) (text : json) :
  wf text = true ->
  gather_evidence W (JSON_stringify (JObj [(js "complaint", text)]))
  = ([], Ret (bare_evidence text)).
Proof.
  intros Hw. unfold gather_evidence.
  rewrite read_stdin_stringify
    by (cbn [wf forallb List.map fst snd distinct mem_str negb andb];
        rewrite Hw; reflexivity).
  reflexivity.
Qed.

Lemma label_text_wf (l : priority_label) : wf (JStr (label_text l)) = true.
Proof. destruct l; reflexivity. Qed.

(** C5.  complete-analysis of a request with the complaint as its only
    field: the script calls no extractor and makes no file-existence check
    (the sub-tasks are all it calls), the sub-tasks receive empty evidence
    texts, and the call resolves with the object of the six fields
    [contradiction_analysis], [has_contradiction], [incident_details],
    [narrative_summary], [classification] and [priority_score], which the
    handler returns with status 200.  The complaint, and what the sub-tasks
    return, are values the two runtimes exchange as they are. *)
Theorem complaint_only_analysis (W : World) (text ca hc details narrative : json)
  (label : priority_label) (score : jsstring) :
  python_available W = true ->
  Exchange.exact text = true ->
  let texts :=
    {| complaint := text; image_text := JStr []; pdf_text := JStr [];
       audio_text := JStr []; text_from_video_audio := JStr [];
       text_from_video_frames := [] |} in
  contradiction_in_complain_and_evidences W texts = Ret (ca, hc) ->
  get_incident_details_from_text W texts = Ret details ->
  get_narrative_summary W texts = Ret narrative ->
  (truthy details = true -> classify_cybercrime W details = Ret (label, score)) ->
  Exchange.exact ca = true -> Exchange.exact hc = true ->
  Exchange.exact details = true -> Exchange.exact narrative = true ->
  Exchange.plain_number score = true ->
  let request := JObj [(js "complaint", text)] in
  let answer :=
    JObj [(js "contradiction_analysis", ca);
          (js "has_contradiction", hc);
          (js "incident_details", details);
          (js "narrative_summary", narrative);
          (js "classification",
           if truthy details then JStr (label_text label) else JStr (js "Unknown"));
          (js "priority_score",
           if truthy details then JNum score else JNum (js "0"))] in
  gather_evidence W (input_string request) = ([], Ret texts)
  /\ fst (complete_analysis_py W (input_string request))
     = [call_subtask (js "contradiction_in_complain_and_evidences");
        call_subtask (js "get_incident_details_from_text");
        call_subtask (js "get_narrative_summary")]
       ++ (if truthy details then [call_subtask (js "classify_cybercrime")] else [])
  /\ completeAnalysis W request = Resolved answer
  /\ post_complete_analysis W request = Some {| http_status := 200; body := answer |}.
Proof.
  intros HW Htext texts Hca Hdet Hnar Hcls Wca Whc Wdet Wnar Wsc request answer.
  apply exact_wf in Htext, Wca, Whc, Wdet, Wnar.
  apply plain_number_is_number in Wsc.
  assert (input_string request = JSON_stringify request) as -> by reflexivity.
  pose proof (gather_bare_evidence W text Htext) as Hg. fold request in Hg.
  change (bare_evidence text) with texts in Hg.
  assert (complete_analysis_py W (JSON_stringify request)
          = ([call_subtask (js "contradiction_in_complain_and_evidences");
              call_subtask (js "get_incident_details_from_text");
              call_subtask (js "get_narrative_summary")]
             ++ (if truthy details then [call_subtask (js "classify_cybercrime")] else []),
             Ret answer)) as Hrun.
  { unfold complete_analysis_py. rewrite Hg. cbn [bind ext].
    rewrite Hca. cbn [bind ext]. rewrite Hdet. cbn [bind ext]. rewrite Hnar.
    subst answer. destruct (truthy details) eqn:Et.
    - cbn [bind ext]. rewrite (Hcls eq_refl). reflexivity.
    - reflexivity. }
  assert (wf answer = true) as Wans.
  { subst answer. cbn [wf forallb List.map fst snd]. rewrite Wca, Whc, Wdet, Wnar.
    destruct (truthy details).
    - pose proof (label_text_wf label) as Hl. cbn [wf] in Hl. cbn [wf].
      rewrite Hl, Wsc. reflexivity.
    - reflexivity. }
  assert (completeAnalysis W request = Resolved answer) as Hres.
  { unfold completeAnalysis.
    now rewrite (invoke_printed W (complete_analysis_py W) request _ answer HW Hrun Wans). }
  repeat split.
  - exact Hg.
  - now rewrite Hrun.
  - exact Hres.
  - unfold post_complete_analysis. now rewrite Hres.
Qed.

Lemma complaint_only_analysis_witness :
  fst (complete_analysis_py Scenarios.usual (input_string Scenarios.only_complaint))
  = [call_subtask (js "contradiction_in_complain_and_evidences");
     call_subtask (js "get_incident_details_from_text");
     call_subtask (js "get_narrative_summary");
     call_subtask (js "classify_cybercrime")]
  /\ post_complete_analysis Scenarios.usual Scenarios.only_complaint =
     Some {| http_status := 200;
             body := JObj [(js "contradiction_analysis", JStr (js "No contradiction found."));
                           (js "has_contradiction", JBool false);
                           (js "incident_details",
                            JObj [(js "crime_type", JStr (js "phishing"))]);
                           (js "narrative_summary",
                            JStr (js "The caller asked for a one-time password."));
                           (js "classification", JStr (js "High"));
                           (js "priority_score", JNum (js "0.8"))] |}.
Proof.
  destruct (complaint_only_analysis Scenarios.usual
              (JStr (js "Someone called and asked for my OTP."))
              (JStr (js "No contradiction found.")) (JBool false)
              Scenarios.phishing Scenarios.summary High (js "0.8")
              eq_refl eq_refl eq_refl eq_refl eq_refl (fun _ => eq_refl)
              eq_refl eq_refl eq_refl eq_refl eq_refl) as (_ & H2 & _ & H4).
  split; [exact H2|exact H4].
Defined.

(** ** Inverting a script that printed *)

Lemma ext_inv {A : Type} (c : call) (r : py A) (l : list call) (a : A) :
  ext c r = (l, Ret a) -> r = Ret a.
Proof. unfold ext. intros H. now injection H. Qed.

Lemma complete_analysis_printed (W : World) (stdin : jsstring) (calls : list call) (v : json) :
  complete_analysis_py W stdin = (calls, Ret v) ->
  exists ca hc details narrative,
    (truthy details = true /\
     exists label score, v = analysis_document ca hc details narrative
                               (JStr (label_text label)) (JNum score))
    \/ (truthy details = false /\
        v = analysis_document ca hc details narrative (JStr (js "Unknown")) (JNum (js "0"))).
Proof.
  unfold complete_analysis_py. intros H.
  apply bind_inv in H. destruct H as (l1 & ev & l2 & _ & H & _).
  apply bind_inv in H. destruct H as (l3 & [ca hc] & l4 & _ & H & _).
  apply bind_inv in H. destruct H as (l5 & details & l6 & _ & H & _).
  apply bind_inv in H. destruct H as (l7 & narrative & l8 & _ & H & _).
  apply bind_inv in H. destruct H as (l9 & [classification score] & l10 & Hc & H & _).
  exists ca, hc, details, narrative.
  unfold ret in H. injection H as _ <-.
  destruct (truthy details).
  - left. split; [reflexivity|].
    apply bind_inv in Hc. destruct Hc as (la & [label s] & lb & _ & Hc & _).
    unfold ret in Hc. injection Hc as _ <- <-. now exists label, s.
  - right. split; [reflexivity|].
    unfold ret in Hc. now injection Hc as _ <- <-.
Qed.

Lemma classify_printed (W : World) (stdin : jsstring) (calls : list call) (v : json) :
  classify_py W stdin = (calls, Ret v) ->
  exists label score,
    v = JObj [(js "priority", JStr (label_text label)); (js "score", JNum score)].
Proof.
  unfold classify_py. intros H.
  apply bind_inv in H. destruct H as (l1 & data & l2 & _ & H & _).
  apply bind_inv in H. destruct H as (l3 & [label score] & l4 & _ & H & _).
  unfold ret in H. injection H as _ <-. now exists label, score.
Qed.

(** C6, as the code has it.  When the script of complete-analysis prints a
    document both runtimes can exchange, the call resolves with it, and its
    [classification] is one of the five labels if [incident_details] is
    truthy and ["Unknown"] if it is not.  The [priority] of a
    classify-content result is one of the five labels. *)
Theorem classification_labels (W : World) :
  python_available W = true ->
  (forall (request : json) (calls : list call) (v : json),
      complete_analysis_py W (input_string request) = (calls, Ret v) ->
      wf v = true ->
      completeAnalysis W request = Resolved v
      /\ exists details,
          prop v "incident_details" = Some details
          /\ ((truthy details = true
               /\ exists label, prop v "classification" = Some (JStr (label_text label)))
              \/ (truthy details = false
                  /\ prop v "classification" = Some (JStr (js "Unknown")))))
  /\ (forall (content : json) (calls : list call) (v : json),
        classify_py W (input_string content) = (calls, Ret v) ->
        wf v = true ->
        promise (runPythonInline W (classify_py W) content) = Resolved v
        /\ exists label, prop v "priority" = Some (JStr (label_text label))).
Proof.
  intros HW. split.
  - intros request calls v Hrun Hwf. split.
    + unfold completeAnalysis.
      now rewrite (invoke_printed W (complete_analysis_py W) request calls v HW Hrun Hwf).
    + destruct (complete_analysis_printed W _ _ _ Hrun)
        as (ca & hc & details & narrative & [[Ht (label & score & ->)]|[Ht ->]]);
        exists details; (split; [reflexivity|]).
      * left. split; [exact Ht|]. now exists label.
      * right. now split.
  - intros content calls v Hrun Hwf. split.
    + exact (invoke_printed W (classify_py W) content calls v HW Hrun Hwf).
    + destruct (classify_printed W _ _ _ Hrun) as (label & score & ->). now exists label.
Qed.

Lemma classification_labels_witness :
  completeAnalysis Scenarios.usual Scenarios.only_complaint
  = Resolved (analysis_document (JStr (js "No contradiction found.")) (JBool false)
                Scenarios.phishing Scenarios.summary (JStr (js "High")) (JNum (js "0.8")))
  /\ promise (runPythonInline Scenarios.usual (classify_py Scenarios.usual) Scenarios.phishing)
     = Resolved (JObj [(js "priority", JStr (js "High")); (js "score", JNum (js "0.8"))]).
Proof.
  destruct (classification_labels Scenarios.usual eq_refl) as [H1 H2].
  split.
  - exact (proj1 (H1 Scenarios.only_complaint _ _
                    ltac:(vm_compute; reflexivity) ltac:(vm_compute; reflexivity))).
  - exact (proj1 (H2 Scenarios.phishing _ _
                    ltac:(vm_compute; reflexivity) ltac:(vm_compute; reflexivity))).
Defined.

(** C6 fails as stated: when the incident extraction returns an empty dict,
    complete-analysis succeeds with the classification ["Unknown"], which is
    none of the five labels. *)
Lemma unknown_classification :
  completeAnalysis Scenarios.vague Scenarios.only_complaint
  = Resolved (analysis_document (JStr (js "No contradiction found.")) (JBool false)
                (JObj []) Scenarios.summary (JStr (js "Unknown")) (JNum (js "0")))
  /\ forall label, label_text label <> js "Unknown".
Proof.
  split.
  - vm_compute. reflexivity.
  - intros []; discriminate.
Qed.

(* ====================================================================== *)
(** * Properties: the phone normaliser *)
(* ====================================================================== *)

Lemma regex_shape (s : jsstring) :
  indianMobileRegex s = true ->
  List.length s = 10%nat /\ forallb is_digit s = true.
Proof.
  destruct s as [|c r]; [discriminate|]. unfold indianMobileRegex.
  intros H. repeat (apply andb_true_iff in H; destruct H as [H ?]).
  apply Nat.eqb_eq in H1. apply N.leb_le in H, H2. split.
  - simpl. now rewrite H1.
  - simpl. rewrite H0, andb_true_r. unfold is_digit.
    apply andb_true_iff. split; apply N.leb_le; lia.
Qed.

Lemma filter_digits (s : jsstring) :
  forallb is_digit s = true -> filter (fun c => is_digit c || (c =? 43)) s = s.
Proof.
  induction s as [|c s IH]; simpl; intros H; [reflexivity|].
  apply andb_true_iff in H. destruct H as [Hc Hs]. rewrite Hc. simpl.
  f_equal. now apply IH.
Qed.

Lemma startsWith_app (p r : jsstring) : startsWith (p ++ r) p = true.
Proof. unfold startsWith. now rewrite strip_prefix_app. Qed.

Lemma startsWith_head (k c : N) (p s : jsstring) :
  (k =? c) = false -> startsWith (c :: s) (k :: p) = false.
Proof. intros H. unfold startsWith. simpl. now rewrite H. Qed.

(** The four spellings of ten digits [d] are cleaned to [d]. *)
Lemma spellings (d : jsstring) :
  List.length d = 10%nat -> forallb is_digit d = true ->
  let canonical := if indianMobileRegex d then JStr (js "+91" ++ d) else JNull in
  validateAndFormatIndianNumber (Some (JStr d)) = canonical
  /\ validateAndFormatIndianNumber (Some (JStr (js "0" ++ d))) = canonical
  /\ validateAndFormatIndianNumber (Some (JStr (js "91" ++ d))) = canonical
  /\ validateAndFormatIndianNumber (Some (JStr (js "+91" ++ d))) = canonical.
Proof.
  intros Hlen Hdig canonical.
  pose proof (filter_digits d Hdig) as Hf.
  destruct d as [|c d']; [discriminate|].
  assert (is_digit c = true) as Hc by (simpl in Hdig; apply andb_true_iff in Hdig; tauto).
  apply digit_range in Hc.
  assert ((43 =? c) = false) as H43 by (apply N.eqb_neq; lia).
  repeat split.
  - unfold validateAndFormatIndianNumber. rewrite Hf, Hlen.
    cbn [Nat.eqb]. rewrite !andb_false_r. reflexivity.
  - change (js "0" ++ c :: d') with (48 :: c :: d').
    unfold validateAndFormatIndianNumber.
    change (filter (fun c0 => is_digit c0 || (c0 =? 43)) (48 :: c :: d'))
      with (48 :: filter (fun c0 => is_digit c0 || (c0 =? 43)) (c :: d')).
    rewrite Hf. cbn [List.length]. simpl in Hlen. injection Hlen as Hlen. rewrite Hlen.
    reflexivity.
  - change (js "91" ++ c :: d') with (57 :: 49 :: c :: d').
    unfold validateAndFormatIndianNumber.
    change (filter (fun c0 => is_digit c0 || (c0 =? 43)) (57 :: 49 :: c :: d'))
      with (57 :: 49 :: filter (fun c0 => is_digit c0 || (c0 =? 43)) (c :: d')).
    rewrite Hf. cbn [List.length]. simpl in Hlen. injection Hlen as Hlen. rewrite Hlen.
    reflexivity.
  - change (js "+91" ++ c :: d') with (43 :: 57 :: 49 :: c :: d').
    unfold validateAndFormatIndianNumber.
    change (filter (fun c0 => is_digit c0 || (c0 =? 43)) (43 :: 57 :: 49 :: c :: d'))
      with (43 :: 57 :: 49 :: filter (fun c0 => is_digit c0 || (c0 =? 43)) (c :: d')).
    rewrite Hf. cbn [List.length]. simpl in Hlen. injection Hlen as Hlen. rewrite Hlen.
    reflexivity.
Qed.

Lemma digits_of_length (k : nat) (n : N) : List.length (digits_of k n) = k.
Proof.
  revert n. induction k as [|k IH]; intros n; cbn [digits_of]; [reflexivity|].
  rewrite length_app, IH. cbn [List.length]. apply Nat.add_1_r.
Qed.

Lemma digits_of_digits (k : nat) (n : N) : forallb is_digit (digits_of k n) = true.
Proof.
  revert n. induction k as [|k IH]; intros n; cbn [digits_of]; [reflexivity|].
  rewrite forallb_app, IH. cbn [forallb andb]. rewrite andb_true_r. unfold is_digit.
  pose proof (N.mod_lt n 10 ltac:(discriminate)) as H.
  set (m := n mod 10) in *. clearbody m.
  apply andb_true_iff. split; apply N.leb_le; lia.
Qed.

(** C7.  The phone normaliser is idempotent; the spellings [+91 d], [91 d],
    [0 d] and [d] of a ten-digit number [d] have one normal form, which is
    [+91 d] when [d] starts with a digit from 6 to 9 and [null] otherwise;
    "+91 98765-43210" and "09876543210" both normalise to
    "+919876543210". *)
Theorem phone_normalisation_is_canonical :
  (forall x, validateAndFormatIndianNumber (Some (validateAndFormatIndianNumber x))
             = validateAndFormatIndianNumber x)
  /\ (forall n,
        let d := ten_digits n in
        let canonical := if indianMobileRegex d then JStr (js "+91" ++ d) else JNull in
        validateAndFormatIndianNumber (Some (JStr d)) = canonical
        /\ validateAndFormatIndianNumber (Some (JStr (js "0" ++ d))) = canonical
        /\ validateAndFormatIndianNumber (Some (JStr (js "91" ++ d))) = canonical
        /\ validateAndFormatIndianNumber (Some (JStr (js "+91" ++ d))) = canonical)
  /\ validateAndFormatIndianNumber (Some (JStr (js "+91 98765-43210")))
     = JStr (js "+919876543210")
  /\ validateAndFormatIndianNumber (Some (JStr (js "09876543210")))
     = JStr (js "+919876543210").
Proof.
  split; [|split; [|split; reflexivity]].
  - intros x.
    assert (forall d, indianMobileRegex d = true ->
                      validateAndFormatIndianNumber (Some (JStr (js "+91" ++ d)))
                      = JStr (js "+91" ++ d)) as Hcanon.
    { intros d Hd. destruct (regex_shape d Hd) as [Hlen Hdig].
      destruct (spellings d Hlen Hdig) as (_ & _ & _ & H). cbv zeta in H.
      now rewrite Hd in H. }
    unfold validateAndFormatIndianNumber at 2 3.
    destruct x as [[| | |s| |]|]; try reflexivity.
    destruct s as [|c s]; [reflexivity|].
    match goal with
    | |- context [if indianMobileRegex ?t then _ else _] =>
        destruct (indianMobileRegex t) eqn:E
    end; [now apply Hcanon|reflexivity].
  - intros n. apply spellings; [apply digits_of_length|apply digits_of_digits].
Qed.

(* ====================================================================== *)
(** * Properties: the thresholds of a similarity run *)
(* ====================================================================== *)

Lemma obj_get_set_same (k : jsstring) (v : json) (ms : list (jsstring * json)) :
  obj_get k (obj_set k v ms) = Some v.
Proof.
  induction ms as [|[k' v'] ms IH]; simpl.
  - now rewrite str_eqb_refl.
  - destruct (str_eqb k' k) eqn:E; simpl; rewrite E; [reflexivity|exact IH].
Qed.

(** A request that names no thresholds runs with 0.5 and 0.3. *)
Lemma thresholds_default (ms : list (jsstring * json)) :
  wf (JObj ms) = true ->
  obj_get (js "thresholds") ms = None ->
  read_thresholds (input_string (JObj ms)) = ret (JNum (js "0.5"), JNum (js "0.3")).
Proof.
  intros Hw Hget. unfold read_thresholds.
  change (input_string (JObj ms)) with (JSON_stringify (JObj ms)).
  rewrite (read_stdin_stringify _ Hw), bind_lift_ret.
  cbn [isinstance_dict]. rewrite (get_absent "thresholds" _ ms Hget). reflexivity.
Qed.

(** The script reads the thresholds a request names as they are, and falls
    back to 0.5 and 0.3 for the names that are absent. *)
Lemma thresholds_named (ms ts : list (jsstring * json)) :
  wf (JObj ms) = true ->
  obj_get (js "thresholds") ms = Some (JObj ts) ->
  read_thresholds (input_string (JObj ms)) =
  ret (match obj_get (js "cross_threshold") ts with
       | Some v => v
       | None => JNum (js "0.5")
       end,
       match obj_get (js "within_threshold") ts with
       | Some v => v
       | None => JNum (js "0.3")
       end).
Proof.
  intros Hw Hget. unfold read_thresholds.
  change (input_string (JObj ms)) with (JSON_stringify (JObj ms)).
  rewrite (read_stdin_stringify _ Hw), bind_lift_ret.
  cbn [isinstance_dict]. rewrite (get_present "thresholds" _ _ ms Hget), bind_lift_ret.
  unfold get.
  destruct (obj_get (js "cross_threshold") ts), (obj_get (js "within_threshold") ts);
    reflexivity.
Qed.

(** Through the advanced endpoint a threshold is the supplied value when
    that value is truthy, and the default otherwise. *)
Lemma thresholds_advanced (req_body : json) :
  wf (advanced_payload req_body) = true ->
  read_thresholds (input_string (advanced_payload req_body)) =
  ret (or_default (prop req_body "cross_threshold") (JNum (js "0.5")),
       or_default (prop req_body "within_threshold") (JNum (js "0.3"))).
Proof.
  intros Hw. unfold advanced_payload in *.
  rewrite (thresholds_named _ _ Hw (obj_get_set_same _ _ _)). reflexivity.
Qed.


(** C8 at the failing input.  A request to the advanced endpoint that
    supplies both thresholds as 0 runs the matchers with 0.5 and 0.3; the
    same thresholds sent to the plain endpoint under [thresholds] are used
    as supplied. *)
Theorem zero_threshold_is_replaced :
  read_thresholds (input_string (advanced_payload Scenarios.zero_thresholds))
    = ret (JNum (js "0.5"), JNum (js "0.3"))
  /\ fst (similarity_py Scenarios.usual
            (input_string (advanced_payload Scenarios.zero_thresholds)))
     = [call_load (js "victim_reports.csv"); call_load (js "official_scam_records.csv");
        call_cross_db_match (JNum (js "0.5")); call_within_db_match (JNum (js "0.3"))]
  /\ read_thresholds (input_string (JObj [(js "thresholds", Scenarios.zero_thresholds)]))
     = ret (JNum (js "0"), JNum (js "0")).
Proof.
  vm_compute. repeat split; reflexivity.
Qed.

(* ====================================================================== *)
(** * Properties: within-store matching *)
(* ====================================================================== *)

Lemma str_eqb_sym (a b : jsstring) : str_eqb a b = str_eqb b a.
Proof.
  revert b. induction a as [|x a IH]; intros [|y b]; simpl; try reflexivity.
  now rewrite N.eqb_sym, IH.
Qed.

Lemma same_pair_sym (m m' : Similarity.MatchResult) :
  Similarity.same_pair m m' = Similarity.same_pair m' m.
Proof.
  unfold Similarity.same_pair.
  rewrite (str_eqb_sym (Similarity.id_a m) (Similarity.id_a m')),
          (str_eqb_sym (Similarity.id_b m) (Similarity.id_b m')),
          (str_eqb_sym (Similarity.id_a m) (Similarity.id_b m')),
          (str_eqb_sym (Similarity.id_b m) (Similarity.id_a m')).
  f_equal. apply andb_comm.
Qed.

Section Apart.

Variable A : Type.
Variable R : A -> A -> Prop.

Lemma apart_filter (q : A -> bool) (l : list A) :
  ForallOrdPairs R l -> ForallOrdPairs R (filter q l).
Proof.
  induction 1 as [|a l Ha Hl IH]; simpl; [constructor|].
  destruct (q a); [|exact IH]. constructor; [|exact IH].
  rewrite Forall_forall in *. intros x Hx. apply filter_In in Hx. apply Ha, Hx.
Qed.

Lemma apart_permutation (l l' : list A) :
  (forall a b, R a b -> R b a) ->
  Permutation l l' -> ForallOrdPairs R l -> ForallOrdPairs R l'.
Proof.
  intros Hsym P. induction P as [|x l l' P IH|x y l|l l' l'' P IH P' IH']; intros H.
  - exact H.
  - inversion H as [|? ? Hx Hl]; subst. constructor; [|now apply IH].
    exact (Permutation_Forall P Hx).
  - inversion H as [|? ? Hy Hl]; subst. inversion Hl as [|? ? Hx Hl']; subst.
    inversion Hy as [|? ? Hyx Hyl]; subst.
    constructor; [constructor; [now apply Hsym | exact Hx]|].
    constructor; [exact Hyl | exact Hl'].
  - now apply IH', IH.
Qed.

End Apart.

Lemma first_of_each_pair_incl (m : Similarity.MatchResult) (l : list Similarity.MatchResult) :
  In m (Similarity.first_of_each_pair l) -> In m l.
Proof.
  induction l as [|x r IH]; simpl; [contradiction|].
  intros [H|H]; [now left|]. right. apply filter_In in H. apply IH, H.
Qed.

Lemma first_of_each_pair_apart (l : list Similarity.MatchResult) :
  ForallOrdPairs (fun m m' => Similarity.same_pair m m' = false)
                 (Similarity.first_of_each_pair l).
Proof.
  induction l as [|x r IH]; simpl; constructor.
  - apply Forall_forall. intros m Hm. apply filter_In in Hm.
    now apply negb_true_iff.
  - now apply apart_filter.
Qed.

Lemma apart_nodup (l : list Similarity.MatchResult) :
  ForallOrdPairs (fun m m' => Similarity.same_pair m m' = false) l ->
  NoDup (List.map (fun m => (Similarity.id_a m, Similarity.id_b m)) l).
Proof.
  induction 1 as [|a l Ha Hl IH]; simpl; constructor; [|exact IH].
  rewrite in_map_iff. intros (m & E & Hm). injection E as E1 E2.
  rewrite Forall_forall in Ha. specialize (Ha m Hm).
  unfold Similarity.same_pair in Ha. rewrite E1, E2, !str_eqb_refl in Ha.
  discriminate Ha.
Qed.

Lemma insert_desc_perm (m : Similarity.MatchResult) (l : list Similarity.MatchResult) :
  Permutation (Similarity.insert_desc m l) (m :: l).
Proof.
  induction l as [|x r IH]; simpl; [reflexivity|].
  destruct (Qle_bool (Similarity.score x) (Similarity.score m)); [reflexivity|].
  rewrite IH. apply perm_swap.
Qed.

Lemma sort_desc_perm (l : list Similarity.MatchResult) :
  Permutation (Similarity.sort_desc l) l.
Proof.
  induction l as [|m r IH]; simpl; [reflexivity|].
  rewrite insert_desc_perm. now constructor.
Qed.

Lemma within_matches_apart
  (similarity : Similarity.EntityRecord -> Similarity.EntityRecord -> Q)
  (store : list Similarity.EntityRecord) (threshold : Q) :
  ForallOrdPairs (fun m m' => Similarity.same_pair m m' = false)
                 (Similarity.within_db_match similarity store threshold).
Proof.
  unfold Similarity.within_db_match.
  apply (apart_permutation _ _ _ _
           (fun a b H => eq_trans (same_pair_sym b a) H)
           (Permutation_sym (sort_desc_perm _))).
  apply apart_filter, first_of_each_pair_apart.
Qed.

(** C9.  In every store, records with repeated ids included, the
    within-store matches never pair an id with itself, never hold a pair
    together with its reverse, and never hold one pair twice. *)
Theorem within_matches_are_proper
  (similarity : Similarity.EntityRecord -> Similarity.EntityRecord -> Q)
  (store : list Similarity.EntityRecord) (threshold : Q) :
  let found := Similarity.within_db_match similarity store threshold in
  (forall m, In m found -> Similarity.id_a m <> Similarity.id_b m)
  /\ (forall m m', In m found -> In m' found ->
                   ~ (Similarity.id_a m' = Similarity.id_b m
                      /\ Similarity.id_b m' = Similarity.id_a m))
  /\ NoDup (List.map (fun m => (Similarity.id_a m, Similarity.id_b m)) found).
Proof.
  intros found.
  assert (Hself : forall m, In m found -> Similarity.id_a m <> Similarity.id_b m).
  { intros m Hm. unfold found, Similarity.within_db_match in Hm.
    apply (Permutation_in _ (sort_desc_perm _)) in Hm.
    apply filter_In in Hm. destruct Hm as [Hm _].
    apply first_of_each_pair_incl in Hm. apply filter_In in Hm. destruct Hm as [_ Hm].
    apply negb_true_iff in Hm. unfold Similarity.self_pair in Hm.
    intros E. apply str_eqb_eq in E. congruence. }
  pose proof (within_matches_apart similarity store threshold) as Hapart.
  fold found in Hapart.
  split; [exact Hself|]. split; [|exact (apart_nodup found Hapart)].
  intros m m' Hm Hm' [E1 E2].
  assert (Hsame : Similarity.same_pair m m' = true).
  { unfold Similarity.same_pair. rewrite <- E1, <- E2, !str_eqb_refl.
    apply orb_true_r. }
  destruct (ForallOrdPairs_In Hapart m m' Hm Hm') as [E | [H | H]].
  - subst m'. apply (Hself m Hm). now rewrite E1.
  - congruence.
  - rewrite same_pair_sym in H. congruence.
Qed.

Lemma within_matches_are_proper_witness :
  Similarity.within_db_match Scenarios.shares_account Scenarios.store (3 # 10)
  = [{| Similarity.id_a := js "1"; Similarity.id_b := js "2"; Similarity.score := 1 |}]
  /\ Similarity.within_db_match Scenarios.shares_account Cases.repeated_ids (3 # 10)
     = [{| Similarity.id_a := js "7"; Similarity.id_b := js "8"; Similarity.score := 1 |}]
  /\ (forall m, In m (Similarity.within_db_match Scenarios.shares_account
                        Cases.repeated_ids (3 # 10)) ->
                Similarity.id_a m <> Similarity.id_b m).
Proof.
  split; [vm_compute; reflexivity|]. split; [vm_compute; reflexivity|].
  exact (proj1 (within_matches_are_proper Scenarios.shares_account Cases.repeated_ids
                  (3 # 10))).
Defined.

(* ====================================================================== *)
(** * Properties: the batch endpoint *)
(* ====================================================================== *)









(* ====================================================================== *)
(** * Properties: the incident scripts *)
(* ====================================================================== *)

Lemma get_path_of (ms : list (jsstring * json)) (k : string) :
  get (JObj ms) k JNull = Ret (Incident.path_of (JObj ms) k).
Proof.
  unfold get, Incident.path_of, prop. destruct (obj_get (js k) ms); reflexivity.
Qed.

Lemma gather_calls (W : World) (stdin : jsstring) (data : json) :
  read_stdin stdin = Ret data ->
  (exists k, fst (gather_evidence W stdin) = firstn k (Incident.extractions data))
  /\ (forall ev, snd (gather_evidence W stdin) = Ret ev ->
                 fst (gather_evidence W stdin) = Incident.extractions data).
Proof.
  intros Hread. unfold gather_evidence. rewrite Hread.
  destruct data as [| b | t | s | vs | ms];
    try (split; [exists 0%nat; reflexivity | intros ev H; discriminate H]).
  cbn [lift bind app]. 
  destruct (get (JObj ms) "complaint" (JStr [])) as [complaint|st d] eqn:Hc;
    [| unfold get in Hc; destruct (obj_get (js "complaint") ms); discriminate Hc].
  rewrite !get_path_of. cbn [lift bind app].
  unfold Incident.extractions, Incident.extraction.
  set (ip := Incident.path_of (JObj ms) "image_path").
  set (pp := Incident.path_of (JObj ms) "pdf_path").
  set (ap := Incident.path_of (JObj ms) "audio_path").
  set (vp := Incident.path_of (JObj ms) "video_path").
  clearbody ip pp ap vp.
  destruct (truthy ip); [destruct (extract_text_from_image W ip)|];
  (destruct (truthy pp); [destruct (extract_text_from_pdf W pp)|]);
  (destruct (truthy ap); [destruct (extract_text_from_audio W ap)|]);
  (destruct (truthy vp); [destruct (extract_details_from_video W vp) as [vd|? ?]|]);
  cbn [ext ret lift bind app fst snd];
  try (split; [ (exists 0%nat; reflexivity) || (exists 1%nat; reflexivity)
                || (exists 2%nat; reflexivity) || (exists 3%nat; reflexivity)
                || (exists 4%nat; reflexivity)
              | intros ev H; discriminate H ]).
  all: try match goal with
  | |- context [get ?vd "transcribed_audio" ?d] =>
      destruct (get vd "transcribed_audio" d); cbn [ext ret lift bind app fst snd];
      [destruct (get vd "text_from_frames" (JArr [])) as [fr|? ?];
       cbn [ext ret lift bind app fst snd];
       [destruct (join_space fr); cbn [ext ret lift bind app fst snd]|]|]
  end.
  all: try (split; [ (exists 0%nat; reflexivity) || (exists 1%nat; reflexivity)
                || (exists 2%nat; reflexivity) || (exists 3%nat; reflexivity)
                || (exists 4%nat; reflexivity)
              | intros ev H; try discriminate H; reflexivity ]).
Qed.

(** X5.  The lines the three incident scripts share call an extractor for
    every evidence path of the request that is set, and for no other: in the
    order image, PDF, audio, video, stopping at the first extractor that
    fails.  Nothing else leaves the script there.  The request is what the
    decoder reads off stdin, a value it reads as it is: plain numbers, and
    nested no deeper than the decoder goes. *)
Theorem extractors_run_for_set_paths (W : World) (stdin : jsstring) (data : json) :
  read_stdin stdin = Ret data ->
  Exchange.exact data = true ->
  (exists k, fst (gather_evidence W stdin) = firstn k (Incident.extractions data))
  /\ (forall ev, snd (gather_evidence W stdin) = Ret ev ->
                 fst (gather_evidence W stdin) = Incident.extractions data).
Proof.
  intros Hread _. exact (gather_calls W stdin data Hread).
Qed.

Lemma extractors_run_for_set_paths_witness :
  fst (gather_evidence Scenarios.usual
         (JSON_stringify (JObj [(js "complaint", JStr (js "They sent a forged bill."));
                                (js "pdf_path", JStr (js "/evidence/bill.pdf"));
                                (js "image_path", JStr (js "/evidence/chat.png"));
                                (js "audio_path", JStr []);
                                (js "video_path", JNum (js "0"))])))
  = [call_extract image (JStr (js "/evidence/chat.png"));
     call_extract pdf (JStr (js "/evidence/bill.pdf"))].
Proof.
  exact (proj2 (extractors_run_for_set_paths Scenarios.usual
                  (JSON_stringify
                     (JObj [(js "complaint", JStr (js "They sent a forged bill."));
                            (js "pdf_path", JStr (js "/evidence/bill.pdf"));
                            (js "image_path", JStr (js "/evidence/chat.png"));
                            (js "audio_path", JStr []);
                            (js "video_path", JNum (js "0"))]))
                  (JObj [(js "complaint", JStr (js "They sent a forged bill."));
                         (js "pdf_path", JStr (js "/evidence/bill.pdf"));
                         (js "image_path", JStr (js "/evidence/chat.png"));
                         (js "audio_path", JStr []);
                         (js "video_path", JNum (js "0"))])
                  eq_refl eq_refl)
               {| complaint := JStr (js "They sent a forged bill.");
                  image_text := JStr (js "text read off the image");
                  pdf_text := JStr (js "text of the document");
                  audio_text := JStr []; text_from_video_audio := JStr [];
                  text_from_video_frames := [] |}
               eq_refl).
Defined.

Lemma extractions_no_subtask (data : json) :
  Forall (fun c => Incident.is_subtask c = false) (Incident.extractions data).
Proof.
  unfold Incident.extractions, Incident.extraction.
  repeat (apply Forall_app; split);
    match goal with |- context [truthy ?p] => destruct (truthy p) end;
    repeat constructor.
Qed.

Lemma filter_none {A : Type} (f : A -> bool) (l : list A) :
  Forall (fun x => f x = false) l -> filter f l = [].
Proof.
  induction 1 as [|x l Hx _ IH]; simpl; [reflexivity|]. now rewrite Hx.
Qed.

Lemma Forall_firstn {A : Type} (P : A -> Prop) (k : nat) (l : list A) :
  Forall P l -> Forall P (firstn k l).
Proof.
  intros H. revert k. induction H as [|x l Hx _ IH]; intros [|k]; simpl; constructor; auto.
Qed.

Lemma gather_no_subtask (W : World) (stdin : jsstring) :
  filter Incident.is_subtask (fst (gather_evidence W stdin)) = [].
Proof.
  destruct (read_stdin stdin) as [data|st d] eqn:Hread.
  - destruct (gather_calls W stdin data Hread) as [[k Hk] _]. rewrite Hk.
    apply filter_none, Forall_firstn, extractions_no_subtask.
  - unfold gather_evidence. rewrite Hread. reflexivity.
Qed.

Lemma filter_subtask_after_gather (W : World) (stdin : jsstring) {B : Type}
  (k : evidence -> script B) :
  filter Incident.is_subtask (fst (bind (gather_evidence W stdin) k)) =
  match snd (gather_evidence W stdin) with
  | Ret ev => filter Incident.is_subtask (fst (k ev))
  | Abort _ _ => []
  end.
Proof.
  pose proof (gather_no_subtask W stdin) as Hg.
  destruct (gather_evidence W stdin) as [l [ev|st d]]; cbn [bind fst snd] in *.
  - destruct (k ev) as [l' r]. cbn [fst]. rewrite filter_app, Hg. reflexivity.
  - exact Hg.
Qed.

(** X6.  The sub-tasks of the complete analysis run in the order contradiction,
    incident details, narrative summary, classification; the run stops at the
    first one that fails, and the classifier is called exactly when the
    incident details are truthy. *)
Theorem sub_tasks_run_in_order (W : World) (stdin : jsstring) :
  (exists k, filter Incident.is_subtask (fst (complete_analysis_py W stdin))
             = firstn k Incident.sub_tasks)
  /\ (forall v, snd (complete_analysis_py W stdin) = Ret v ->
        exists details,
          prop v "incident_details" = Some details
          /\ filter Incident.is_subtask (fst (complete_analysis_py W stdin))
             = firstn (if truthy details then 4 else 3) Incident.sub_tasks).
Proof.
  unfold complete_analysis_py.
  rewrite (filter_subtask_after_gather W stdin).
  destruct (gather_evidence W stdin) as [l [ev|st d]]; cbn [bind fst snd].
  2: { split; [exists 0%nat; reflexivity | intros v H; discriminate H]. }
  destruct (contradiction_in_complain_and_evidences W ev) as [[ca hc]|? ?];
    cbn [ext ret bind app fst snd filter Incident.is_subtask].
  2: { split; [exists 1%nat; reflexivity | intros v H; discriminate H]. }
  destruct (get_incident_details_from_text W ev) as [details|? ?];
    cbn [ext ret bind app fst snd filter Incident.is_subtask].
  2: { split; [exists 2%nat; reflexivity | intros v H; discriminate H]. }
  destruct (get_narrative_summary W ev) as [summary|? ?];
    cbn [ext ret bind app fst snd filter Incident.is_subtask].
  2: { split; [exists 3%nat; reflexivity | intros v H; discriminate H]. }
  destruct (truthy details) eqn:Ht.
  - destruct (classify_cybercrime W details) as [[label score]|? ?];
      cbn [ext ret bind app fst snd filter Incident.is_subtask].
    + split; [exists 4%nat; reflexivity|].
      intros v H. injection H as <-. exists details. rewrite Ht. split; reflexivity.
    + split; [exists 4%nat; reflexivity | intros v H; discriminate H].
  - cbn [ext ret bind app fst snd filter Incident.is_subtask].
    split; [exists 3%nat; reflexivity|].
    intros v H. injection H as <-. exists details. rewrite Ht. split; reflexivity.
Qed.

(** X7.  The complete analysis is the union of the partial ones: whenever its
    script prints a document, the scripts of [findContradictions] and
    [analyzeComplaint] print, for the same request, the contradiction pair and
    the details and summary found in that document. *)
Theorem complete_analysis_is_the_union (W : World) (request : json)
  (calls : list call) (v : json) :
  python_available W = true ->
  complete_analysis_py W (input_string request) = (calls, Ret v) ->
  wf v = true ->
  exists ca hc details summary,
    prop v "contradiction_analysis" = Some ca
    /\ prop v "has_contradiction" = Some hc
    /\ prop v "incident_details" = Some details
    /\ prop v "narrative_summary" = Some summary
    /\ Incident.findContradictions W request
       = Resolved (JObj [(js "analysis", ca); (js "has_contradiction", hc)])
    /\ Incident.analyzeComplaint W request
       = Resolved (JObj [(js "details", details); (js "summary", summary)]).
Proof.
  intros Hpy Hrun Hwf. unfold complete_analysis_py in Hrun.
  apply bind_inv in Hrun. destruct Hrun as (l1 & ev & l2 & Hg & Hrun & _).
  apply bind_inv in Hrun. destruct Hrun as (l3 & [ca hc] & l4 & Hc & Hrun & _).
  apply ext_inv in Hc.
  apply bind_inv in Hrun. destruct Hrun as (l5 & details & l6 & Hd & Hrun & _).
  apply ext_inv in Hd.
  apply bind_inv in Hrun. destruct Hrun as (l7 & summary & l8 & Hs & Hrun & _).
  apply ext_inv in Hs.
  apply bind_inv in Hrun. destruct Hrun as (l9 & [classification score] & l10 & _ & Hrun & _).
  injection Hrun as _ <-.
  exists ca, hc, details, summary.
  repeat (split; [reflexivity|]).
  cbn in Hwf. rewrite !andb_true_r in Hwf.
  apply andb_prop in Hwf. destruct Hwf as [Hca Hwf].
  apply andb_prop in Hwf. destruct Hwf as [Hhc Hwf].
  apply andb_prop in Hwf. destruct Hwf as [Hdetails Hwf].
  apply andb_prop in Hwf. destruct Hwf as [Hsummary _].
  split.
  - unfold Incident.findContradictions.
    erewrite invoke_printed; [reflexivity | exact Hpy | | ].
    + unfold Incident.contradiction_py. rewrite Hg. cbn [bind]. rewrite Hc.
      cbn [ext bind ret]. reflexivity.
    + cbn. now rewrite !andb_true_r, Hca, Hhc.
  - unfold Incident.analyzeComplaint.
    erewrite invoke_printed; [reflexivity | exact Hpy | | ].
    + unfold Incident.analyze_complaint_py. rewrite Hg. cbn [bind]. rewrite Hd.
      cbn [ext bind ret]. rewrite Hs. cbn [ext bind ret]. reflexivity.
    + cbn. now rewrite !andb_true_r, Hdetails, Hsummary.
Qed.

Lemma complete_analysis_is_the_union_witness :
  Incident.findContradictions Scenarios.usual Scenarios.only_complaint
  = Resolved (JObj [(js "analysis", JStr (js "No contradiction found."));
                    (js "has_contradiction", JBool false)])
  /\ Incident.analyzeComplaint Scenarios.usual Scenarios.only_complaint
     = Resolved (JObj [(js "details", Scenarios.phishing);
                       (js "summary", Scenarios.summary)]).
Proof.
  destruct (complete_analysis_is_the_union Scenarios.usual Scenarios.only_complaint
              [call_subtask (js "contradiction_in_complain_and_evidences");
               call_subtask (js "get_incident_details_from_text");
               call_subtask (js "get_narrative_summary");
               call_subtask (js "classify_cybercrime")]
              (analysis_document (JStr (js "No contradiction found.")) (JBool false)
                 Scenarios.phishing Scenarios.summary (JStr (js "High")) (JNum (js "0.8")))
              eq_refl eq_refl eq_refl)
    as (ca & hc & details & summary & H1 & H2 & H3 & H4 & H5 & H6).
  injection H1 as <-. injection H2 as <-. injection H3 as <-. injection H4 as <-.
  split; [exact H5 | exact H6].
Defined.

(* ====================================================================== *)
(** * Properties: JSON text is text both runtimes exchange *)
(* ====================================================================== *)











(* ====================================================================== *)
(** * Properties: classification and the scan endpoints *)
(* ====================================================================== *)

Lemma classify_script (W : World) (data : json) :
  wf data = true ->
  classify_py W (JSON_stringify data) =
  ([call_subtask (js "classify_cybercrime")],
   Scans.classification (classify_cybercrime W data)).
Proof.
  intros Hw. unfold classify_py. rewrite (read_stdin_stringify data Hw).
  cbn [lift bind app]. destruct (classify_cybercrime W data) as [[priority score]|st d];
    reflexivity.
Qed.

(** X8.  The classifier is called once, on the content itself when the content
    is an object, an array, a number, a boolean or null, and on the dict
    [{"text": content}] when it is a string.  The content is a value the two
    runtimes exchange as it is: its numbers are plain, and it nests no deeper
    than the decoder of the worker goes. *)
Theorem classifier_receives_the_content (W : World) (content : json) :
  Exchange.exact content = true ->
  let data :=
    match content with
    | JStr _ => JObj [(js "text", content)]
    | _ => content
    end in
  Scans.classify_request W (Some content) =
  rethrow "Content classification failed: "
    (promise (deliver (spawn W (run ([call_subtask (js "classify_cybercrime")],
                                     Scans.classification (classify_cybercrime W data)))))).
Proof.
  intros Hw data. apply exact_wf in Hw.
  unfold Scans.classify_request, classifyContent, runPythonInline.
  fold data.
  assert (Hd : wf data = true).
  { subst data. destruct content; try exact Hw.
    cbn [wf forallb fst snd List.map] in *. rewrite Hw. reflexivity. }
  assert (Hin : input_string data = JSON_stringify data).
  { subst data. destruct content; reflexivity. }
  rewrite Hin, (classify_script W data Hd). reflexivity.
Qed.

Lemma classifier_receives_the_content_witness :
  Scans.classify_request Scenarios.usual (Some (JStr (js "Your KYC has expired, share the OTP")))
  = Resolved (JObj [(js "priority", JStr (js "High")); (js "score", JNum (js "0.8"))]).
Proof.
  rewrite (classifier_receives_the_content Scenarios.usual
             (JStr (js "Your KYC has expired, share the OTP")));
    [vm_compute; reflexivity | reflexivity].
Defined.



Lemma forallb_rev {A : Type} (f : A -> bool) (l : list A) :
  forallb f (rev l) = forallb f l.
Proof.
  induction l as [|a l IH]; [reflexivity|].
  simpl. rewrite forallb_app, IH. simpl. rewrite andb_true_r. apply andb_comm.
Qed.

Lemma trim_start_wf (s : jsstring) : wf_str s = true -> wf_str (trim_start s) = true.
Proof.
  induction s as [|c s IH]; intros H; [reflexivity|].
  simpl. destruct (is_js_space c); [|exact H].
  apply IH. apply wf_str_cons in H. apply H.
Qed.

Lemma trim_wf (s : jsstring) : wf_str s = true -> wf_str (trim s) = true.
Proof.
  intros H. unfold trim, wf_str. rewrite forallb_rev.
  apply trim_start_wf. unfold wf_str. rewrite forallb_rev.
  apply trim_start_wf, H.
Qed.

Lemma file_type_of_nonempty (t : jsstring) (m : modality) :
  file_type_of (toLowerCase t) = Some m -> exists c r, t = c :: r.
Proof.
  destruct t as [|c r]; [discriminate|]. intros _. now exists c, r.
Qed.

(** X10.  An extractor that ends with status 0 and prints text that is not JSON:
    the media scan classifies the dict [{"text": t}], [t] the trimmed text,
    and answers 200 with the extraction and the classification.  When the
    trimmed text is empty, what is classified instead is the JSON text of
    the extraction, [{"text":""}]. *)
Theorem scanned_text_is_classified (W : World) (filePath t stdout stderr : jsstring)
  (m : modality) (label : priority_label) (score : jsstring) :
  python_available W = true ->
  js_truthy (Some (JStr filePath)) = true ->
  file_type_of (toLowerCase t) = Some m ->
  module_main W m filePath = (Some 0%Z, stdout, stderr) ->
  JSON_parse stdout = None ->
  wf_str stdout = true ->
  let extracted := JObj [(js "text", JStr (trim stdout))] in
  let content :=
    match trim stdout with
    | [] => JStr (JSON_stringify extracted)
    | _ => JStr (trim stdout)
    end in
  classify_cybercrime W (JObj [(js "text", content)]) = Ret (label, score) ->
  is_number score = true ->
  Scans.post_scan_media W filePath (Some (JStr t)) =
  Some {| http_status := 200;
          body := JObj [(js "extracted", extracted);
                        (js "classification",
                         JObj [(js "priority", JStr (label_text label));
                               (js "score", JNum score)])] |}.
Proof.
  intros Hpy Hpath Htype Hmain Hparse Hwf extracted content Hclass Hscore.
  destruct (file_type_of_nonempty t m Htype) as (c & r & Ht).
  unfold Scans.post_scan_media. rewrite Hpath.
  replace (js_truthy (Some (JStr t))) with true by (subst t; reflexivity).
  cbn [negb orb]. unfold extractTextFromFile. rewrite Htype.
  unfold spawn. rewrite Hpy. rewrite extract_events_of. cbn [promise].
  unfold child_of_module. rewrite Hmain. cbn [status out err].
  unfold on_close_extract. cbn [exited_zero Z.eqb negb]. rewrite Hparse.
  assert (Hcontent : or_default (prop (JObj [(js "text", JStr (trim stdout))]) "text")
                       (JStr (JSON_stringify (JObj [(js "text", JStr (trim stdout))])))
                     = content).
  { subst content extracted. change (prop (JObj [(js "text", JStr (trim stdout))]) "text")
      with (Some (JStr (trim stdout))).
    unfold or_default, js_truthy. destruct (trim stdout); reflexivity. }
  rewrite Hcontent. clear Hcontent.
  assert (Hshape : exists s, content = JStr s /\ wf_str s = true).
  { subst content. pose proof (trim_wf stdout Hwf) as Htrim.
    destruct (trim stdout) as [|x y] eqn:E.
    - eexists. split; [reflexivity|]. subst extracted. try rewrite E. reflexivity.
    - eexists. split; [reflexivity | exact Htrim]. }
  destruct Hshape as (s & Hs & Hws). clearbody content. subst content.
  unfold classifyContent. cbv beta iota zeta.
  rewrite (invoke_printed W (classify_py W) (JObj [(js "text", JStr s)])
             [call_subtask (js "classify_cybercrime")]
             (JObj [(js "priority", JStr (label_text label)); (js "score", JNum score)])
             Hpy); [reflexivity | | ].
  - cbn [input_string]. rewrite classify_script.
    + rewrite Hclass. reflexivity.
    + cbn [wf forallb fst snd List.map]. rewrite Hws. reflexivity.
  - cbn [wf forallb fst snd List.map]. rewrite Hscore.
    pose proof (label_text_wf label) as Hl. cbn [wf] in Hl. rewrite Hl. reflexivity.
Qed.

Lemma scanned_text_is_classified_witness :
  Scans.post_scan_media Scenarios.usual (js "/evidence/scan.pdf") (Some (JStr (js "PDF")))
  = Some {| http_status := 200;
            body := JObj [(js "extracted",
                           JObj [(js "text", JStr (js "scanned page, no structure"))]);
                          (js "classification",
                           JObj [(js "priority", JStr (js "High"));
                                 (js "score", JNum (js "0.8"))])] |}.
Proof.
  apply (scanned_text_is_classified Scenarios.usual (js "/evidence/scan.pdf") (js "PDF")
           (js "scanned page, no structure") [] pdf High (js "0.8"));
    vm_compute; reflexivity.
Defined.

(** X4.  A failing extractor run as a program: the rejection carries the exit
    code and what the child wrote to stderr, never its stdout, and no prefix
    of the method; the endpoint answers 500 with that message. *)
Theorem extractor_failure_reports_stderr (c : Z) (chunks : list (stream * jsstring)) :
  (c =? 0)%Z = false ->
  promise (deliver_extract (life chunks (Some c)))
  = Rejected (js "Python process exited with code " ++ decimal_of_Z c ++ js ": "
              ++ text_of Stderr chunks)
  /\ (forall (W : World) (filePath t stdout stderr : jsstring) (m : modality),
        python_available W = true ->
        file_type_of (toLowerCase t) = Some m ->
        module_main W m filePath = (Some c, stdout, stderr) ->
        Scans.post_extract_text W filePath (Some (JStr t)) =
        Some {| http_status := 500;
                body := message (js "Python process exited with code "
                                 ++ decimal_of_Z c ++ js ": " ++ stderr) |}).
Proof.
  intros Hc. split.
  - rewrite deliver_extract_life. cbn [promise]. unfold on_close_extract.
    cbn [exited_zero]. rewrite Hc. reflexivity.
  - intros W filePath t stdout stderr m Hpy Htype Hmain.
    unfold Scans.post_extract_text, extractTextFromFile. rewrite Htype.
    unfold spawn. rewrite Hpy, extract_events_of. cbn [promise].
    unfold child_of_module. rewrite Hmain. cbn [status out err].
    unfold on_close_extract. cbn [exited_zero]. rewrite Hc. reflexivity.
Qed.

Lemma extractor_failure_reports_stderr_witness :
  promise (deliver_extract
             (life [(Stdout, js "page 1 of 3"); (Stderr, js "EOF marker not found")]
                   (Some 1%Z)))
  = Rejected (js "Python process exited with code 1: EOF marker not found").
Proof.
  exact (proj1 (extractor_failure_reports_stderr 1
                  [(Stdout, js "page 1 of 3"); (Stderr, js "EOF marker not found")]
                  eq_refl)).
Defined.

(* ====================================================================== *)
(** * Properties: the exchange with a worker *)
(* ====================================================================== *)

(** X3.  What an invocation keeps of its child is the text of each stream and
    the exit status.  Two deliveries whose chunks, as [data.toString()]
    yields them, concatenate to the same text on stdout and to the same text
    on stderr, and that close with the same status, leave the same
    invocation: where the chunks are cut and how those of the two streams
    interleave changes nothing. *)
Theorem delivery_depends_on_the_texts (chunks chunks' : list (stream * jsstring))
  (code : option Z) :
  text_of Stdout chunks = text_of Stdout chunks' ->
  text_of Stderr chunks = text_of Stderr chunks' ->
  deliver (life chunks code) = deliver (life chunks' code)
  /\ deliver_extract (life chunks code) = deliver_extract (life chunks' code).
Proof.
  intros Hout Herr. rewrite !deliver_life, !deliver_extract_life, Hout, Herr.
  split; reflexivity.
Qed.

Lemma delivery_depends_on_the_texts_witness :
  deliver (life [(Stdout, js "{"); (Stderr, js "warn"); (Stdout, js "}")] (Some 0%Z))
  = deliver (life [(Stderr, js "wa"); (Stdout, js "{}"); (Stderr, js "rn")] (Some 0%Z)).
Proof.
  exact (proj1 (delivery_depends_on_the_texts
                  [(Stdout, js "{"); (Stderr, js "warn"); (Stdout, js "}")]
                  [(Stderr, js "wa"); (Stdout, js "{}"); (Stderr, js "rn")]
                  (Some 0%Z) eq_refl eq_refl)).
Defined.

(** X1.  What a script prints with [print(json.dumps(v))] before it ends with
    status 0 is what the promise resolves with, however the text arrives and
    whatever the child wrote to stderr.  The value is one the two runtimes
    exchange as it is: a number that is not plain is another number, or
    another literal, once [JSON.parse] has read it. *)
Theorem printed_value_is_the_result (v : json) (chunks : list (stream * jsstring)) :
  Exchange.exact v = true ->
  text_of Stdout chunks = json_dumps v ++ [10] ->
  promise (deliver (life chunks (Some 0%Z))) = Resolved v.
Proof.
  intros Hw Hout. apply exact_wf in Hw. rewrite deliver_life. cbn [promise]. unfold on_close.
  cbn [exited_zero Z.eqb negb]. rewrite Hout, (json_dumps_parse v Hw). reflexivity.
Qed.

Lemma printed_value_is_the_result_witness :
  promise (deliver (life [(Stderr, js "loading the model");
                          (Stdout, json_dumps (not_found audio)); (Stdout, [10])]
                         (Some 0%Z)))
  = Resolved (not_found audio).
Proof.
  apply (printed_value_is_the_result (not_found audio)); vm_compute; reflexivity.
Defined.

(* ====================================================================== *)
(** * Properties: what the phone normaliser accepts *)
(* ====================================================================== *)

Lemma filter_idem {A : Type} (f : A -> bool) (l : list A) :
  filter f (filter f l) = filter f l.
Proof.
  induction l as [|a l IH]; [reflexivity|].
  simpl. destruct (f a) eqn:E; [|exact IH]. simpl. now rewrite E, IH.
Qed.

Lemma validate_cleaned (s : jsstring) :
  validateAndFormatIndianNumber (Some (JStr s))
  = validateAndFormatIndianNumber
      (Some (JStr (filter (fun c => is_digit c || (c =? 43)) s))).
Proof.
  destruct (filter (fun c => is_digit c || (c =? 43)) s) as [|x y] eqn:E.
  - destruct s as [|c s]; [reflexivity|].
    unfold validateAndFormatIndianNumber. rewrite E. reflexivity.
  - destruct s as [|c s]; [discriminate E|].
    unfold validateAndFormatIndianNumber. rewrite <- E, filter_idem. reflexivity.
Qed.

Lemma strip_prefix_eq (p s r : jsstring) :
  strip_prefix p s = Some r -> s = p ++ r.
Proof.
  revert s. induction p as [|a p IH]; intros s H; simpl in H.
  - now injection H as ->.
  - destruct s as [|b s]; [discriminate|].
    destruct (a =? b) eqn:E; [|discriminate].
    apply N.eqb_eq in E. subst b. simpl. now rewrite (IH s H).
Qed.

Lemma startsWith_split (s p : jsstring) :
  startsWith s p = true -> s = p ++ substring (List.length p) s.
Proof.
  unfold startsWith. destruct (strip_prefix p s) as [r|] eqn:E; [|discriminate].
  intros _. apply strip_prefix_eq in E. subst s. unfold substring.
  rewrite skipn_app, skipn_all, Nat.sub_diag. reflexivity.
Qed.

Lemma validate_shape (x : option json) (r : jsstring) :
  validateAndFormatIndianNumber x = JStr r ->
  exists d, indianMobileRegex d = true /\ r = js "+91" ++ d.
Proof.
  unfold validateAndFormatIndianNumber.
  destruct x as [[| b | t | s | vs | ms]|]; try discriminate.
  destruct s as [|c s]; [discriminate|].
  match goal with
  | |- context [indianMobileRegex ?d] =>
      destruct (indianMobileRegex d) eqn:Hre; [|discriminate];
      intros H; injection H as <-; exists d; split; [exact Hre | reflexivity]
  end.
Qed.

Lemma validate_range (x : option json) :
  validateAndFormatIndianNumber x = JNull
  \/ exists r, validateAndFormatIndianNumber x = JStr r.
Proof.
  unfold validateAndFormatIndianNumber.
  destruct x as [[| b | t | s | vs | ms]|]; auto.
  destruct s as [|c s]; auto.
  match goal with
  | |- context [indianMobileRegex ?d] => destruct (indianMobileRegex d)
  end; eauto.
Qed.

(** X16.  The normaliser accepts exactly four spellings.  It returns a string [r]
    if and only if [r] is [+91] followed by a ten-digit number [d] that
    starts with 6, 7, 8 or 9, and the argument, once everything but digits
    and plus signs is removed, is [d], [0d], [91d] or [+91d]. *)
Theorem normaliser_accepts_four_spellings (s r : jsstring) :
  validateAndFormatIndianNumber (Some (JStr s)) = JStr r <->
  exists d,
    indianMobileRegex d = true /\ r = js "+91" ++ d
    /\ let cleaned := filter (fun c => is_digit c || (c =? 43)) s in
       cleaned = d \/ cleaned = js "0" ++ d \/ cleaned = js "91" ++ d
       \/ cleaned = js "+91" ++ d.
Proof.
  split.
  - destruct s as [|c s]; [discriminate|].
    unfold validateAndFormatIndianNumber.
    set (cleaned := filter (fun c => is_digit c || (c =? 43)) (c :: s)).
    clearbody cleaned.
    destruct (startsWith cleaned (js "+91") && (List.length cleaned =? 13)%nat) eqn:E1.
    { apply andb_prop in E1. destruct E1 as [E1 _]. apply startsWith_split in E1.
      destruct (indianMobileRegex (substring 3 cleaned)) eqn:Hre; [|discriminate].
      intros H. injection H as <-. exists (substring 3 cleaned).
      repeat split; auto. }
    destruct (startsWith cleaned (js "91") && (List.length cleaned =? 12)%nat) eqn:E2.
    { apply andb_prop in E2. destruct E2 as [E2 _]. apply startsWith_split in E2.
      destruct (indianMobileRegex (substring 2 cleaned)) eqn:Hre; [|discriminate].
      intros H. injection H as <-. exists (substring 2 cleaned).
      repeat split; auto. }
    destruct (startsWith cleaned (js "0") && (List.length cleaned =? 11)%nat) eqn:E3.
    { apply andb_prop in E3. destruct E3 as [E3 _]. apply startsWith_split in E3.
      destruct (indianMobileRegex (substring 1 cleaned)) eqn:Hre; [|discriminate].
      intros H. injection H as <-. exists (substring 1 cleaned).
      repeat split; auto. }
    destruct (indianMobileRegex cleaned) eqn:Hre; [|discriminate].
    intros H. injection H as <-. exists cleaned. repeat split; auto.
  - intros (d & Hre & -> & Hc). cbv zeta in Hc.
    rewrite validate_cleaned.
    destruct (regex_shape d Hre) as [Hlen Hdig].
    destruct (spellings d Hlen Hdig) as (H0 & H1 & H2 & H3).
    rewrite Hre in H0, H1, H2, H3.
    destruct Hc as [-> | [-> | [-> | ->]]]; assumption.
Qed.

(** X17.  Characters that are neither digits nor plus signs are ignored wherever
    they stand: removing a run of them does not change the result. *)
Theorem separators_are_ignored (a separators b : jsstring) :
  forallb (fun c => negb (is_digit c || (c =? 43))) separators = true ->
  validateAndFormatIndianNumber (Some (JStr (a ++ separators ++ b)))
  = validateAndFormatIndianNumber (Some (JStr (a ++ b))).
Proof.
  intros Hsep.
  rewrite (validate_cleaned (a ++ separators ++ b)), (validate_cleaned (a ++ b)).
  rewrite !filter_app.
  replace (filter (fun c => is_digit c || (c =? 43)) separators) with (@nil N);
    [reflexivity|].
  symmetry. induction separators as [|c l IH]; [reflexivity|].
  simpl in Hsep. apply andb_prop in Hsep. destruct Hsep as [Hc Hl].
  simpl. apply negb_true_iff in Hc. rewrite Hc. apply IH, Hl.
Qed.

Lemma separators_are_ignored_witness :
  validateAndFormatIndianNumber (Some (JStr (js "98765 - 43210")))
  = validateAndFormatIndianNumber (Some (JStr (js "9876543210"))).
Proof.
  exact (separators_are_ignored (js "98765") (js " - ") (js "43210") eq_refl).
Defined.

(* ====================================================================== *)
(** * Properties: the entries of a batch *)
(* ====================================================================== *)

(** X13.  Every entry of a batch answer names its file: it repeats the
    [file_path] and the [file_type] of the entry of the request it stands
    for, and carries either a [result] or the message of an [error], never
    both. *)
Theorem batch_entries_name_their_file (W : World) (file e : json) :
  batch_entry W file = Some e ->
  prop e "file_path" = prop file "file_path"
  /\ prop e "file_type" = prop file "file_type"
  /\ ((exists r, prop e "result" = Some r /\ prop e "error" = None)
      \/ (exists m, prop e "error" = Some (JStr m) /\ prop e "result" = None)).
Proof.
  unfold batch_entry.
  destruct (prop file "file_path") as [fp|];
    destruct (prop file "file_type") as [[| b | n | t | vs | ms]|];
    try (intros H; injection H as <-;
         repeat split; right; eexists; split; reflexivity).
  all: destruct (analyze_by_type W _ t) as [| r | m]; intros H; try discriminate H;
    injection H as <-; repeat split;
    solve [ left; eexists; split; reflexivity | right; eexists; split; reflexivity ].
Qed.

Lemma batch_entries_name_their_file_witness :
  let file := JObj [(js "file_path", JStr (js "/evidence/notes.docx"));
                    (js "file_type", JStr (js "docx"))] in
  let e := JObj [(js "file_path", JStr (js "/evidence/notes.docx"));
                 (js "file_type", JStr (js "docx"));
                 (js "result",
                  JObj [(js "error", JStr (js "Unsupported file type: docx"))])] in
  prop e "file_path" = prop file "file_path" /\ prop e "file_type" = prop file "file_type".
Proof.
  intros file e.
  destruct (batch_entries_name_their_file Scenarios.usual file e eq_refl) as (H1 & H2 & _).
  split; [exact H1 | exact H2].
Defined.

(* ====================================================================== *)
(** * Properties: the thresholds the matchers are called with *)
(* ====================================================================== *)

Lemma normalise_columns_calls (W : World) (fields : list jsstring) (df : frame W) :
  fst (normalise_columns W fields df) = [].
Proof.
  revert df. induction fields as [|field rest IH]; intros df; [reflexivity|].
  cbn [normalise_columns]. destruct (apply_column W df field (rule_of field)) as [df'|st d];
    cbn [lift bind]; [|reflexivity].
  specialize (IH df'). destruct (normalise_columns W rest df') as [l r].
  cbn [fst] in *. now subst l.
Qed.

Lemma similarity_calls (W : World) (stdin : jsstring) (v c w : json) :
  read_thresholds stdin = ret (c, w) ->
  snd (similarity_py W stdin) = Ret v ->
  fst (similarity_py W stdin)
  = [call_load (js "victim_reports.csv"); call_load (js "official_scam_records.csv");
     call_cross_db_match c; call_within_db_match w].
Proof.
  intros Hth. unfold similarity_py. rewrite Hth.
  destruct (load_csv_safe W (js "victim_reports.csv")) as [raw1|? ?];
    cbn [ext lift bind ret app fst snd]; [|discriminate].
  destruct (ensure_all_columns W raw1) as [db1|? ?];
    cbn [ext lift bind ret app fst snd]; [|discriminate].
  destruct (load_csv_safe W (js "official_scam_records.csv")) as [raw2|? ?];
    cbn [ext lift bind ret app fst snd]; [|discriminate].
  destruct (ensure_all_columns W raw2) as [db2|? ?];
    cbn [ext lift bind ret app fst snd]; [|discriminate].
  pose proof (normalise_columns_calls W set_fields db1) as H1.
  destruct (normalise_columns W set_fields db1) as [l1 [n1|? ?]];
    cbn [fst] in H1; subst l1; cbn [ext lift bind ret app fst snd]; [|discriminate].
  pose proof (normalise_columns_calls W set_fields db2) as H2.
  destruct (normalise_columns W set_fields db2) as [l2 [n2|? ?]];
    cbn [fst] in H2; subst l2; cbn [ext lift bind ret app fst snd]; [|discriminate].
  destruct (cross_db_match W n1 n2 c) as [cross|? ?];
    cbn [ext lift bind ret app fst snd]; [|discriminate].
  destruct (within_db_match W n1 w) as [within|? ?];
    cbn [ext lift bind ret app fst snd]; [|discriminate].
  reflexivity.
Qed.

(** X14.  On the plain similarity endpoint the matchers are called with the
    thresholds the request names: every value found under
    [thresholds.cross_threshold] and [thresholds.within_threshold] is passed
    on as it is, zero included, and [0.5] and [0.3] stand in only for a
    member that is absent.  The request is a value the two runtimes exchange
    as it is; a threshold that is not a plain number ([1e400], which
    [JSON.stringify] writes as [null], or [0.10]) reaches the script as
    another value. *)
Theorem named_thresholds_reach_the_matchers (W : World)
  (ms ts : list (jsstring * json)) (v : json) :
  Exchange.exact (JObj ms) = true ->
  obj_get (js "thresholds") ms = Some (JObj ts) ->
  snd (similarity_py W (input_string (JObj ms))) = Ret v ->
  fst (similarity_py W (input_string (JObj ms)))
  = [call_load (js "victim_reports.csv"); call_load (js "official_scam_records.csv");
     call_cross_db_match (match obj_get (js "cross_threshold") ts with
                          | Some c => c
                          | None => JNum (js "0.5")
                          end);
     call_within_db_match (match obj_get (js "within_threshold") ts with
                           | Some w => w
                           | None => JNum (js "0.3")
                           end)].
Proof.
  intros Hw Hts Hrun. apply exact_wf in Hw.
  exact (similarity_calls W _ v _ _ (thresholds_named ms ts Hw Hts) Hrun).
Qed.

Lemma named_thresholds_reach_the_matchers_witness :
  fst (similarity_py Scenarios.usual
         (input_string (JObj [(js "thresholds",
                               JObj [(js "cross_threshold", JNum (js "0"))])])))
  = [call_load (js "victim_reports.csv"); call_load (js "official_scam_records.csv");
     call_cross_db_match (JNum (js "0")); call_within_db_match (JNum (js "0.3"))].
Proof.
  exact (named_thresholds_reach_the_matchers Scenarios.usual
           [(js "thresholds", JObj [(js "cross_threshold", JNum (js "0"))])]
           [(js "cross_threshold", JNum (js "0"))]
           (JObj [(js "cross_db_matches", JArr []); (js "within_db_matches", JArr [])])
           eq_refl eq_refl eq_refl).
Defined.

(** X15.  On the advanced endpoint nothing in [entity_data] decides the
    thresholds, not even a [thresholds] member of its own: the matchers are
    called with the two top-level values of the body, or with [0.5] and
    [0.3] where those are missing or falsy.  The body is a value the two
    runtimes exchange as it is, and so is what the handler builds from it. *)
Theorem entity_data_cannot_set_thresholds (W : World) (req_body v : json) :
  Exchange.exact req_body = true ->
  wf (advanced_payload req_body) = true ->
  snd (similarity_py W (input_string (advanced_payload req_body))) = Ret v ->
  fst (similarity_py W (input_string (advanced_payload req_body)))
  = [call_load (js "victim_reports.csv"); call_load (js "official_scam_records.csv");
     call_cross_db_match (or_default (prop req_body "cross_threshold") (JNum (js "0.5")));
     call_within_db_match (or_default (prop req_body "within_threshold") (JNum (js "0.3")))].
Proof.
  intros _ Hw Hrun.
  exact (similarity_calls W _ v _ _ (thresholds_advanced req_body Hw) Hrun).
Qed.

Lemma entity_data_cannot_set_thresholds_witness :
  fst (similarity_py Scenarios.usual
         (input_string
            (advanced_payload
               (JObj [(js "cross_threshold", JNum (js "0.9"));
                      (js "entity_data",
                       JObj [(js "thresholds",
                              JObj [(js "cross_threshold", JNum (js "0.1"));
                                    (js "within_threshold", JNum (js "0.1"))])])]))))
  = [call_load (js "victim_reports.csv"); call_load (js "official_scam_records.csv");
     call_cross_db_match (JNum (js "0.9")); call_within_db_match (JNum (js "0.3"))].
Proof.
  exact (entity_data_cannot_set_thresholds Scenarios.usual
           (JObj [(js "cross_threshold", JNum (js "0.9"));
                  (js "entity_data",
                   JObj [(js "thresholds",
                          JObj [(js "cross_threshold", JNum (js "0.1"));
                                (js "within_threshold", JNum (js "0.1"))])])])
           (JObj [(js "cross_db_matches", JArr []); (js "within_db_matches", JArr [])])
           eq_refl eq_refl eq_refl).
Defined.

(* ====================================================================== *)
(** * Properties: the officer gate and the registration endpoint *)
(* ====================================================================== *)

(** X19.  The gate lets a request through exactly when its [Authorization]
    header is [Bearer ] followed by a non-empty token that the token library
    accepts and whose payload has the role [OFFICER]; what the route then
    finds in [req.officer] is that payload. *)
Theorem only_officers_pass (verify : jsstring -> option json)
  (authorization : option jsstring) (officer : json) :
  Officer.requireOfficer verify authorization = Officer.Next officer <->
  exists token,
    authorization = Some (js "Bearer " ++ token) /\ token <> []
    /\ verify token = Some officer
    /\ prop officer "role" = Some (JStr (js "OFFICER")).
Proof.
  unfold Officer.requireOfficer. split.
  - destruct (strip_prefix (js "Bearer ")
                (match authorization with Some a => a | None => [] end))
      as [[|c token]|] eqn:Hp; try discriminate.
    destruct (verify (c :: token)) as [decoded|] eqn:Hv; [|discriminate].
    destruct (js_truthy (Some decoded)); cbn [negb orb]; [|discriminate].
    destruct (prop decoded "role") as [[| b | t | r | vs | ms]|] eqn:Hr;
      cbn [negb]; try discriminate.
    destruct (str_eqb r (js "OFFICER")) eqn:Er; cbn [negb]; [|discriminate].
    intros H. injection H as <-. exists (c :: token).
    apply str_eqb_eq in Er. subst r.
    destruct authorization as [a|]; [|discriminate Hp].
    apply strip_prefix_eq in Hp. subst a.
    repeat split; [discriminate | exact Hv | exact Hr].
  - intros (token & -> & Hne & Hv & Hr).
    rewrite strip_prefix_app. destruct token as [|c token]; [congruence|].
    rewrite Hv, Hr, str_eqb_refl.
    destruct officer; try discriminate Hr. reflexivity.
Qed.

(** X18.  A registration stores normalised values only.  The handler issues at
    most one insertion; the phone number in it is the result of the
    normaliser, [+91] and ten digits the first of which is 6 to 9, and the
    role in it is [USER] or [ADMIN]. *)
Theorem registration_stores_normalised_values (S : Registration.Services)
  (req_body : json) (row : Registration.user_values)
  (more : list Registration.user_values) :
  fst (Registration.post_register S req_body) = row :: more ->
  more = []
  /\ Registration.phone_number row
     = validateAndFormatIndianNumber (prop req_body "phone_number")
  /\ (exists d, indianMobileRegex d = true
                /\ Registration.phone_number row = JStr (js "+91" ++ d))
  /\ (Registration.role row = js "USER" \/ Registration.role row = js "ADMIN").
Proof.
  unfold Registration.post_register.
  match goal with
  | |- context [if ?b then ([], Registration.refuse 400 "Missing required fields.") else _] =>
      destruct b
  end; [discriminate|].
  destruct (validate_range (prop req_body "phone_number")) as [Hphone | [phone Hphone]];
    rewrite Hphone; cbn [js_truthy negb]; [discriminate|].
  - destruct phone as [|c phone]; cbn [negb]; [discriminate|].
    destruct (prop req_body "role") as [[| b | t | r | vs | ms]|]; try discriminate.
    destruct (mem_str (Registration.toUpperCase r) [js "USER"; js "ADMIN"]) eqn:Hrole;
      cbn [negb]; [|discriminate].
    assert (Hr : Registration.toUpperCase r = js "USER"
                 \/ Registration.toUpperCase r = js "ADMIN").
    { cbn [mem_str] in Hrole. rewrite orb_false_r in Hrole.
      apply orb_prop in Hrole. destruct Hrole as [H|H]; apply str_eqb_eq in H; auto. }
    destruct (validate_shape _ _ Hphone) as (d & Hd & Hpd).
    destruct (Registration.insert_user S _); cbn [fst]; intros H;
      injection H as <- <-; cbn [Registration.phone_number Registration.role];
      (split; [reflexivity|]); (split; [reflexivity|]);
      (split; [exists d; split; [exact Hd | now rewrite Hpd] | exact Hr]).
Qed.

Lemma registration_stores_normalised_values_witness :
  snd (Registration.post_register Cases.stores Cases.applicant)
  = {| http_status := 201;
       body := JObj [(js "message",
                      JStr (js "User registered successfully. OTP sent for verification."));
                     (js "user", JObj [(js "phone_number", JStr (js "+919876543210"))]);
                     (js "otp", JStr (js "483920"))] |}
  /\ exists row,
       fst (Registration.post_register Cases.stores Cases.applicant) = [row]
       /\ Registration.phone_number row = JStr (js "+919876543210")
       /\ (Registration.role row = js "USER" \/ Registration.role row = js "ADMIN").
Proof.
  split; [vm_compute; reflexivity|].
  eexists. split; [vm_compute; reflexivity|].
  split; [reflexivity|].
  exact (proj2 (proj2 (proj2
    (registration_stores_normalised_values Cases.stores Cases.applicant _ [] eq_refl)))).
Defined.

(* ====================================================================== *)
(** * Properties: call-scam detection and the chatbot *)
(* ====================================================================== *)

Lemma or_default_string (x : option json) (l : jsstring) :
  or_default x (JStr (js "en")) = JStr l -> truthy (JStr l) = true.
Proof.
  unfold or_default.
  destruct x as [[| b | t | s | vs | ms]|]; cbn [js_truthy];
    try (intros H; injection H as <-; reflexivity).
  - destruct b; [discriminate | intros H; injection H as <-; reflexivity].
  - destruct (negb (denotes_zero t)); [discriminate | intros H; injection H as <-; reflexivity].
  - destruct s as [|c s]; intros H; injection H as <-; reflexivity.
  - discriminate.
  - discriminate.
Qed.

(** X20.  The failures the detection script handles are results, not errors: for
    a recording that does not exist, a model directory that does not exist,
    or an exception raised while transcribing, the endpoint answers 200 with
    an object whose only member is [error]; in the last case the language
    model is not called. *)
Theorem call_scam_failures_are_results (W : World) (D : CallScam.Detector)
  (req_body : json) (p l : jsstring) :
  python_available W = true ->
  prop req_body "audio_file_path" = Some (JStr p) ->
  js_truthy (Some (JStr p)) = true ->
  wf_str p = true ->
  or_default (prop req_body "language") (JStr (js "en")) = JStr l ->
  wf_str l = true ->
  let model :=
    if startsWith (CallScam.str_lower D l) (js "hi")
    then CallScam.model_hi D else CallScam.model_en D in
  let request := JObj [(js "audio_file_path", JStr p); (js "language", JStr l)] in
  let answers text :=
    CallScam.post_detect_call_scam W D req_body
    = Some {| http_status := 200; body := CallScam.failure text |} in
  (os_path_exists W (JStr p) = Ret false -> answers (js "Audio file not found"))
  /\ (os_path_exists W (JStr p) = Ret true ->
      os_path_exists W (JStr model) = Ret false ->
      wf_str model = true ->
      answers (js "Vosk model not found at " ++ model))
  /\ (forall e,
        os_path_exists W (JStr p) = Ret true ->
        os_path_exists W (JStr model) = Ret true ->
        CallScam.transcribe D (JStr p) model = Ret (CallScam.raised e) ->
        wf_str e = true ->
        answers (js "Transcription failed: " ++ e)
        /\ fst (CallScam.detect_call_scam_py W D (input_string request))
           = [call_exists (JStr p); call_exists (JStr model);
              call_subtask (js "transcribe")]).
Proof.
  intros Hpy Hpath Htruthy Hwp Hlang Hwl model request answers.
  pose proof (or_default_string _ _ Hlang) as Hl.
  assert (Hp : truthy (JStr p) = true).
  { destruct p; [discriminate Htruthy | reflexivity]. }
  assert (Hreq : wf request = true).
  { subst request. cbn [wf forallb fst snd List.map]. rewrite Hwp, Hwl. reflexivity. }
  assert (Hscript : forall v calls,
             CallScam.detect_call_scam_py W D (JSON_stringify request) = (calls, Ret v) ->
             wf v = true ->
             CallScam.post_detect_call_scam W D req_body
             = Some {| http_status := 200; body := v |}).
  { intros v calls Hrun Hwv. unfold CallScam.post_detect_call_scam.
    rewrite Hpath, Htruthy, Hlang. cbn [negb mk_object]. fold request.
    unfold CallScam.detectCallScam.
    rewrite (invoke_printed W _ request calls v Hpy Hrun Hwv). reflexivity. }
  assert (Hstart : forall k : bool -> script json,
             CallScam.detect_call_scam_py W D (JSON_stringify request)
             = bind (bind (ext (call_exists (JStr p)) (os_path_exists W (JStr p)))
                          (fun found => ret (negb found)))
                    (fun missing =>
                       if (missing : bool) then ret (CallScam.failure (js "Audio file not found"))
                       else
                         bind (ext (call_exists (JStr model)) (os_path_exists W (JStr model)))
                           (fun found =>
                              if negb found
                              then ret (CallScam.failure (js "Vosk model not found at " ++ model))
                              else
                                bind (ext (call_subtask (js "transcribe"))
                                          (CallScam.transcribe D (JStr p) model))
                                  (fun heard =>
                                     match heard with
                                     | CallScam.raised e =>
                                         ret (CallScam.failure (js "Transcription failed: " ++ e))
                                     | CallScam.transcribed transcript =>
                                         bind (ext (call_subtask (js "analyze_text_with_groq"))
                                                   (CallScam.analyze_text_with_groq D transcript))
                                           (fun '(classification, reason) =>
                                              ret (JObj [(js "transcript", JStr transcript);
                                                         (js "classification", classification);
                                                         (js "reason", reason);
                                                         (js "language", JStr (CallScam.str_lower D l));
                                                         (js "audio_file", JStr p)]))
                                     end)))).
  { intros _. unfold CallScam.detect_call_scam_py.
    rewrite (read_stdin_stringify request Hreq), bind_lift_ret. subst request.
    change (get (JObj [(js "audio_file_path", JStr p); (js "language", JStr l)])
                "audio_file_path" (JStr []))
      with (@Ret json (JStr p)).
    rewrite bind_lift_ret.
    change (get (JObj [(js "audio_file_path", JStr p); (js "language", JStr l)])
                "language" JNull)
      with (@Ret json (JStr l)).
    rewrite bind_lift_ret, Hl, bind_lift_ret, Hp. reflexivity. }
  specialize (Hstart (fun _ => ret JNull)).
  assert (Hfail : forall text, wf_str text = true -> wf (CallScam.failure text) = true).
  { intros text Ht. unfold CallScam.failure. cbn [wf forallb fst snd List.map].
    rewrite Ht. reflexivity. }
  split; [|split].
  - intros Hno. subst answers. cbv beta.
    apply (Hscript _ [call_exists (JStr p)]); [|apply Hfail; reflexivity].
    rewrite Hstart, Hno. reflexivity.
  - intros Hyes Hno Hwm. subst answers. cbv beta.
    apply (Hscript _ [call_exists (JStr p); call_exists (JStr model)]).
    + rewrite Hstart, Hyes. cbn [ext ret bind app negb]. rewrite Hno. reflexivity.
    + apply Hfail. rewrite wf_str_app, Hwm. reflexivity.
  - intros e Hyes Hyes' Hheard Hwe.
    assert (Hrun : CallScam.detect_call_scam_py W D (JSON_stringify request)
                   = ([call_exists (JStr p); call_exists (JStr model);
                       call_subtask (js "transcribe")],
                      Ret (CallScam.failure (js "Transcription failed: " ++ e)))).
    { rewrite Hstart, Hyes. cbn [ext ret bind app negb]. rewrite Hyes'.
      cbn [ext ret bind app negb]. rewrite Hheard. reflexivity. }
    split.
    + subst answers. cbv beta. apply (Hscript _ _ Hrun).
      apply Hfail. rewrite wf_str_app, Hwe. reflexivity.
    + change (input_string request) with (JSON_stringify request).
      rewrite Hrun. reflexivity.
Qed.

Lemma call_scam_failures_are_results_witness :
  CallScam.post_detect_call_scam Cases.files_exist Cases.unreadable
    (JObj [(js "audio_file_path", JStr (js "/evidence/call.wav"));
           (js "language", JStr (js "Hindi"))])
  = Some {| http_status := 200;
            body := JObj [(js "error", JStr (js "Transcription failed: Decoding failed"))] |}.
Proof.
  apply (proj2 (proj2
    (call_scam_failures_are_results Cases.files_exist Cases.unreadable
       (JObj [(js "audio_file_path", JStr (js "/evidence/call.wav"));
              (js "language", JStr (js "Hindi"))])
       (js "/evidence/call.wav") (js "Hindi")
       eq_refl eq_refl eq_refl eq_refl eq_refl eq_refl))
    (js "Decoding failed") eq_refl eq_refl eq_refl eq_refl).
Defined.

Lemma obj_get_wf (k : jsstring) (v : json) (ms : list (jsstring * json)) :
  forallb (fun kv => wf_str (fst kv) && wf (snd kv)) ms = true ->
  obj_get k ms = Some v -> wf v = true.
Proof.
  induction ms as [|[k' v'] ms IH]; [discriminate|].
  cbn [forallb obj_get fst snd]. intros Hw Hg.
  apply andb_prop in Hw. destruct Hw as [Hkv Hms].
  destruct (str_eqb k' k).
  - injection Hg as <-. apply andb_prop in Hkv. apply Hkv.
  - apply IH; assumption.
Qed.

Lemma prop_wf (o v : json) (k : string) :
  wf o = true -> prop o k = Some v -> wf v = true.
Proof.
  destruct o as [| b | t | s | vs | ms]; try discriminate.
  cbn [wf prop]. intros Hw. apply andb_prop in Hw. destruct Hw as [Hw _].
  apply obj_get_wf, Hw.
Qed.

Lemma chatbot_reads_the_query (C : Chat.Chatbot) (query : option json) (context : json) :
  (forall q, query = Some q -> wf q = true) ->
  wf context = true ->
  Chat.chatbot_py C
    (JSON_stringify (JObj (mk_object [(js "query", query); (js "context", Some context)])))
  = Chat.chatbot_py C
      (JSON_stringify (JObj (mk_object [(js "query", query); (js "context", Some (JStr []))]))).
Proof.
  intros Hq Hc. unfold Chat.chatbot_py.
  rewrite !read_stdin_stringify.
  - destruct query; reflexivity.
  - destruct query as [q|]; cbn [mk_object wf forallb fst snd List.map];
      [rewrite (Hq q eq_refl)|]; reflexivity.
  - destruct query as [q|]; cbn [mk_object wf forallb fst snd List.map];
      [rewrite (Hq q eq_refl)|]; rewrite Hc; reflexivity.
Qed.

(** X22.  The chatbot answers the query alone: two requests with the same
    [query] get the same answer from both chat endpoints, whatever their
    [context], [conversation_history] and [user_preferences], as long as
    the bodies nest no deeper than the decoder of the worker goes (the
    context is written to the worker and decoded there, though never read). *)
Theorem chat_depends_on_the_query_only (W : World) (C : Chat.Chatbot)
  (req_body req_body' : json) :
  wf req_body = true -> wf req_body' = true ->
  Exchange.shallow req_body = true -> Exchange.shallow req_body' = true ->
  prop req_body "query" = prop req_body' "query" ->
  Chat.post_chat W C req_body = Chat.post_chat W C req_body'
  /\ Chat.post_chat_enhanced W C req_body = Chat.post_chat_enhanced W C req_body'.
Proof.
  intros Hw Hw' _ _ Hq.
  assert (Hsame : Chat.getChatbotResponse W C (prop req_body "query") (prop req_body "context")
                  = Chat.getChatbotResponse W C (prop req_body' "query")
                      (prop req_body' "context")).
  { unfold Chat.getChatbotResponse, runPythonInline. rewrite <- Hq.
    cbn [input_string].
    rewrite (chatbot_reads_the_query C (prop req_body "query")
               (match prop req_body "context" with Some c => c | None => JStr [] end)).
    - rewrite (chatbot_reads_the_query C (prop req_body "query")
                 (match prop req_body' "context" with Some c => c | None => JStr [] end)).
      + reflexivity.
      + intros q Hq'. exact (prop_wf _ _ _ Hw Hq').
      + destruct (prop req_body' "context") as [c|] eqn:Hc; [|reflexivity].
        exact (prop_wf _ _ _ Hw' Hc).
    - intros q Hq'. exact (prop_wf _ _ _ Hw Hq').
    - destruct (prop req_body "context") as [c|] eqn:Hc; [|reflexivity].
      exact (prop_wf _ _ _ Hw Hc). }
  split.
  - unfold Chat.post_chat. rewrite Hsame. reflexivity.
  - unfold Chat.post_chat_enhanced. rewrite Hsame, Hq. reflexivity.
Qed.

Lemma chat_depends_on_the_query_only_witness :
  Chat.post_chat_enhanced Scenarios.usual Cases.two_chunks
    (JObj [(js "query", JStr (js "What is phishing?"));
           (js "context", JStr (js "banking"));
           (js "conversation_history", JArr [JStr (js "hello")])])
  = Chat.post_chat_enhanced Scenarios.usual Cases.two_chunks
      (JObj [(js "query", JStr (js "What is phishing?"))]).
Proof.
  exact (proj2 (chat_depends_on_the_query_only Scenarios.usual Cases.two_chunks
                  (JObj [(js "query", JStr (js "What is phishing?"));
                         (js "context", JStr (js "banking"));
                         (js "conversation_history", JArr [JStr (js "hello")])])
                  (JObj [(js "query", JStr (js "What is phishing?"))])
                  eq_refl eq_refl eq_refl eq_refl eq_refl)).
Defined.

(* ====================================================================== *)
(** * Properties: the file adapters on files that exist, and on paths that
      are no paths *)
(* ====================================================================== *)










